(** * IoTSensorSync: sensor data store, cleaning pipeline and analytics

    A shallow embedding of [data_storage.py], [data_processor.py],
    [analytics.py] and the validation of a reading of [utils.py], and the
    properties of the specification proved (or refuted) on it, followed by
    further properties of the same code.

    Modelling conventions.
    - A float is a rational, an infinity or NaN ([num]); arithmetic is exact
      on the rationals and follows IEEE 754 on the special values (zero is
      unsigned).  The square root is computed to a fixed precision, rounded
      down ([Qsqrt]).
    - A pandas DataFrame is a set of numeric column names and a list of rows;
      a row carries its timestamp (nanoseconds since the epoch), its numeric
      cells by column name and its sensor id.  A cell that a row does not
      hold reads as NaN, as after [pd.concat].  The index is positional
      (every frame here went through [reset_index(drop=True)]).  The
      frames are snapshots of the store: their [timestamp] and [sensor_id]
      columns are always there.
    - Sorting by timestamp gives the rows in ascending order of time; the
      order among rows of equal timestamp is not fixed by pandas (its
      default sort is not stable) and no property depends on it.
    - A timestamp is a count of nanoseconds within the 64-bit bounds of
      [pd.Timestamp], without a time zone; a datetime outside the bounds is
      refused by [pd.to_datetime].
    - A Python exception is a value of [exn]; code that can raise returns a
      [result]. *)

From Stdlib Require Import QArith Qround Qabs ZArith Lia Lqa Znumtheory.
From Stdlib Require Import Sorting.Sorted Sorting.Permutation.
From stdpp Require Import gmap strings list fin_maps sorting.

#[local] Set Warnings "-clear-no-such-hyp".

(* ===================================================================== *)
(** * Numbers *)
(* ===================================================================== *)

Inductive num : Type :=
  | NaN
  | PInf
  | NInf
  | Fin (q : Q).

#[export] Instance num_inhabited : Inhabited num := populate NaN.

Definition Qltb (x y : Q) : bool := negb (Qle_bool y x).

(** ** Comparisons: every comparison with NaN is false, except [!=]. *)

Definition fltb (a b : num) : bool :=
  match a, b with
  | Fin x, Fin y => Qltb x y
  | NInf, Fin _ | NInf, PInf | Fin _, PInf => true
  | _, _ => false
  end.

Definition fleb (a b : num) : bool :=
  match a, b with
  | Fin x, Fin y => Qle_bool x y
  | NInf, Fin _ | NInf, PInf | Fin _, PInf => true
  | NInf, NInf | PInf, PInf => true
  | _, _ => false
  end.

Definition fgtb (a b : num) : bool := fltb b a.
Definition fgeb (a b : num) : bool := fleb b a.

Definition feqb (a b : num) : bool :=
  match a, b with
  | Fin x, Fin y => Qeq_bool x y
  | PInf, PInf | NInf, NInf => true
  | _, _ => false
  end.

Definition fneb (a b : num) : bool := negb (feqb a b).

Definition isnull (a : num) : bool :=
  match a with NaN => true | _ => false end.

Definition notna (a : num) : bool := negb (isnull a).

(** ** Arithmetic *)

Definition fopp (a : num) : num :=
  match a with
  | NaN => NaN
  | PInf => NInf
  | NInf => PInf
  | Fin x => Fin (- x)
  end.

Definition fadd (a b : num) : num :=
  match a, b with
  | NaN, _ | _, NaN => NaN
  | PInf, NInf | NInf, PInf => NaN
  | PInf, _ | _, PInf => PInf
  | NInf, _ | _, NInf => NInf
  | Fin x, Fin y => Fin (x + y)
  end.

Definition fsub (a b : num) : num := fadd a (fopp b).

(** The sign of a rational as an infinity, NaN for zero: what [inf * x]
    evaluates to. *)
Definition inf_signed (positive_inf : bool) (x : Q) : num :=
  if Qeq_bool x 0 then NaN
  else if Qltb 0 x then (if positive_inf then PInf else NInf)
  else (if positive_inf then NInf else PInf).

Definition fmul (a b : num) : num :=
  match a, b with
  | NaN, _ | _, NaN => NaN
  | PInf, PInf | NInf, NInf => PInf
  | PInf, NInf | NInf, PInf => NInf
  | PInf, Fin y => inf_signed true y
  | NInf, Fin y => inf_signed false y
  | Fin x, PInf => inf_signed true x
  | Fin x, NInf => inf_signed false x
  | Fin x, Fin y => Fin (x * y)
  end.

(** numpy division: a zero divisor gives an infinity or NaN, no exception. *)
Definition fdiv (a b : num) : num :=
  match a, b with
  | NaN, _ | _, NaN => NaN
  | (PInf | NInf), (PInf | NInf) => NaN
  | PInf, Fin y => if Qltb y 0 then NInf else PInf
  | NInf, Fin y => if Qltb y 0 then PInf else NInf
  | Fin _, (PInf | NInf) => Fin 0
  | Fin x, Fin y =>
      if Qeq_bool y 0 then
        (if Qeq_bool x 0 then NaN else if Qltb 0 x then PInf else NInf)
      else Fin (x / y)
  end.

Definition fabs (a : num) : num :=
  match a with
  | NaN => NaN
  | PInf | NInf => PInf
  | Fin x => Fin (Qabs x)
  end.

(** Square root of a non-negative rational, rounded down to a multiple of
    [1 / (den * sqrt_scale)]. *)
Definition sqrt_scale : positive := (10 ^ 12)%positive.

Definition Qsqrt (x : Q) : Q :=
  Z.sqrt (Qnum x * Zpos (Qden x) * (Zpos sqrt_scale * Zpos sqrt_scale))
  # (Qden x * sqrt_scale).

Definition fsqrt (a : num) : num :=
  match a with
  | NaN | NInf => NaN
  | PInf => PInf
  | Fin x => if Qltb x 0 then NaN else Fin (Qsqrt x)
  end.

(** Python's builtin [min(a, b)]: [b] if [b < a], else [a]. *)
Definition py_min (a b : num) : num := if fltb b a then b else a.

(** Python's builtin [max(a, b)]: [b] if [b > a], else [a]. *)
Definition py_max (a b : num) : num := if fgtb b a then b else a.

(** Round half to even, to an integer. *)
Definition Qrint (x : Q) : Z :=
  let f := Qfloor x in
  let d := (x - inject_Z f)%Q in
  if Qltb d (1 # 2) then f
  else if Qltb (1 # 2) d then (f + 1)%Z
  else if Z.even f then f else (f + 1)%Z.

(** [round(x, k)] on a float. *)
Definition fround (digits : nat) (a : num) : num :=
  match a with
  | Fin x =>
      let scale := inject_Z (10 ^ Z.of_nat digits) in
      Fin (inject_Z (Qrint (x * scale)) / scale)
  | other => other
  end.

Definition of_Z (z : Z) : num := Fin (inject_Z z).
Definition of_nat (n : nat) : num := of_Z (Z.of_nat n).

(** Equality of floats up to the representation of the rational. *)
Definition num_eqb (a b : num) : bool :=
  match a, b with
  | NaN, NaN | PInf, PInf | NInf, NInf => true
  | Fin x, Fin y => Qeq_bool x y
  | _, _ => false
  end.

(* ===================================================================== *)
(** * Exceptions *)
(* ===================================================================== *)

Inductive exn : Type :=
  | KeyError
  | ValueError
  | AttributeError.

Inductive result (A : Type) : Type :=
  | Ok (a : A)
  | Raise (e : exn).

Arguments Ok {A} a.
Arguments Raise {A} e.

(* ===================================================================== *)
(** * Data frames *)
(* ===================================================================== *)

Record Row : Type := mkRow {
  r_timestamp : Z;
  r_values : gmap string num;
  r_sensor_id : option string
}.

Record DataFrame : Type := mkDF {
  df_columns : gset string;
  df_rows : list Row
}.

(** [data.empty] *)
Definition df_empty (data : DataFrame) : bool :=
  match df_rows data with [] => true | _ => false end.

(** [len(data)] *)
Definition df_len (data : DataFrame) : nat := length (df_rows data).

(** [column in data.columns] *)
Definition has_column (column : string) (data : DataFrame) : bool :=
  bool_decide (column ∈ df_columns data).

Definition cell (column : string) (r : Row) : num :=
  default NaN (r_values r !! column).

(** [data[column]] *)
Definition get_col (column : string) (data : DataFrame) : list num :=
  map (cell column) (df_rows data).

Definition set_cell (column : string) (v : num) (r : Row) : Row :=
  mkRow (r_timestamp r) (<[column := v]> (r_values r)) (r_sensor_id r).

(** [data[column] = values] *)
Definition set_col (column : string) (values : list num) (data : DataFrame)
  : DataFrame :=
  mkDF ({[column]} ∪ df_columns data)
       (zip_with (set_cell column) values (df_rows data)).

Definition timestamps (data : DataFrame) : list Z :=
  map r_timestamp (df_rows data).

(** [sort_values('timestamp').reset_index(drop=True)]: rows in ascending
    timestamp order.  Rows of equal timestamp keep their relative order
    here; pandas' default sort (quicksort) does not promise it, and may
    reorder them even in a frame that is sorted.  What is proved below does
    not depend on the order of such rows: it uses that the result is sorted
    and holds the same rows, and speaks of the position of a row only where
    the timestamps are pairwise different, where these two facts leave one
    order ([sorted_rows_unique]). *)
Fixpoint insert_row (r : Row) (l : list Row) : list Row :=
  match l with
  | [] => [r]
  | x :: t =>
      if (r_timestamp r <=? r_timestamp x)%Z then r :: x :: t
      else x :: insert_row r t
  end.

Definition sort_rows (l : list Row) : list Row := foldr insert_row [] l.

Definition sort_values (data : DataFrame) : DataFrame :=
  mkDF (df_columns data) (sort_rows (df_rows data)).

(** [data.tail(n)] *)
Definition tail_rows (n : nat) (l : list Row) : list Row :=
  skipn (length l - n) l.

Definition df_tail (n : nat) (data : DataFrame) : DataFrame :=
  mkDF (df_columns data) (tail_rows n (df_rows data)).

(** [pd.concat([data, new_row], ignore_index=True)] *)
Definition df_concat (data new_row : DataFrame) : DataFrame :=
  mkDF (df_columns data ∪ df_columns new_row)
       (df_rows data ++ df_rows new_row).

Definition ts_le (a b : Row) : Prop := (r_timestamp a <= r_timestamp b)%Z.

Definition ts_lt (a b : Row) : Prop := (r_timestamp a < r_timestamp b)%Z.

Definition sensor_columns : list string :=
  ["temperature"; "weight"; "moisture"; "pressure"].

(* ===================================================================== *)
(** * Series operations (pandas, numpy, scipy) *)
(* ===================================================================== *)

(** [series.dropna()] *)
Definition dropna (l : list num) : list num := List.filter notna l.

(** [series.isnull().any()] *)
Definition any_null (l : list num) : bool := existsb isnull l.

Definition fsum (l : list num) : num := foldr fadd (Fin 0) l.

(** [series.mean()]: NaN values are skipped; NaN when nothing is left. *)
Definition mean (l : list num) : num :=
  match dropna l with
  | [] => NaN
  | v => fdiv (fsum v) (of_nat (length v))
  end.

Definition fsquare (a : num) : num := fmul a a.

(** Variance with [ddof] delta degrees of freedom, NaN values skipped; NaN
    when at most [ddof] values are left. *)
Definition var (ddof : nat) (l : list num) : num :=
  let v := dropna l in
  if (length v <=? ddof)%nat then NaN
  else
    let m := mean v in
    fdiv (fsum (map (λ x, fsquare (fsub x m)) v)) (of_nat (length v - ddof)).

(** [series.std()]: pandas' default is [ddof=1]. *)
Definition pd_std (l : list num) : num := fsqrt (var 1 l).

(** [np.std(a)]: numpy's default is [ddof=0] (the callers pass values
    without NaN). *)
Definition np_std (l : list num) : num := fsqrt (var 0 l).

(** Ascending order of the values of a series. *)
Fixpoint insert_num (x : num) (l : list num) : list num :=
  match l with
  | [] => [x]
  | y :: t => if fleb x y then x :: y :: t else y :: insert_num x t
  end.

Definition sort_num (l : list num) : list num := foldr insert_num [] l.

(** [series.quantile(q)]: linear interpolation between the two order
    statistics around position [(n - 1) * q] of the non-missing values. *)
Definition quantile (q : Q) (l : list num) : num :=
  let v := sort_num (dropna l) in
  match v with
  | [] => NaN
  | _ =>
      let pos := (inject_Z (Z.of_nat (length v - 1)) * q)%Q in
      let lo := Z.to_nat (Qfloor pos) in
      let hi := Nat.min (lo + 1) (length v - 1) in
      let frac := (pos - inject_Z (Qfloor pos))%Q in
      let a := nth lo v NaN in
      let b := nth hi v NaN in
      fadd a (fmul (fsub b a) (Fin frac))
  end.

(** [series.fillna(method='ffill')] *)
Fixpoint ffill_from (last : num) (l : list num) : list num :=
  match l with
  | [] => []
  | x :: t =>
      if isnull x then last :: ffill_from last t else x :: ffill_from x t
  end.

Definition ffill (l : list num) : list num := ffill_from NaN l.

(** [series.fillna(method='bfill')] *)
Fixpoint bfill (l : list num) : list num :=
  match l with
  | [] => []
  | x :: t =>
      let t' := bfill t in
      (if isnull x then hd NaN t' else x) :: t'
  end.

(** The first non-missing value of a series and its position. *)
Fixpoint next_valid (l : list num) : option (nat * num) :=
  match l with
  | [] => None
  | x :: t =>
      if isnull x then
        match next_valid t with
        | Some (j, v) => Some (S j, v)
        | None => None
        end
      else Some (0%nat, x)
  end.

(** [series.interpolate(method='linear')]: a gap between two values is
    filled on the straight line between them (positions equally spaced), a
    gap after the last value with that value; a gap before the first value
    stays.  [prev] is the last value seen, [k] the distance to it. *)
Fixpoint interpolate_from (prev : num) (k : nat) (l : list num) : list num :=
  match l with
  | [] => []
  | x :: t =>
      if isnull x then
        let v :=
          if isnull prev then NaN
          else match next_valid t with
               | None => prev
               | Some (j, nxt) =>
                   fadd prev
                     (fdiv (fmul (fsub nxt prev) (of_nat k))
                           (of_nat (k + j + 1)))
               end in
        v :: interpolate_from prev (S k) t
      else x :: interpolate_from x 1 t
  end.

Definition interpolate (l : list num) : list num := interpolate_from NaN 1 l.

(** [series.fillna(value)] *)
Definition fillna (value : num) (l : list num) : list num :=
  map (λ x, if isnull x then value else x) l.

(** Setting the entries selected by a boolean mask to NaN:
    [data.loc[mask, column] = np.nan]. *)
Definition mask_nan (mask : num → bool) (l : list num) : list num :=
  map (λ x, if mask x then NaN else x) l.

(** The loop [for column in sensor_columns: if column in data.columns: ...]
    shared by the stages of the pipeline and by the analytics. *)
Definition for_sensor_columns {S : Type}
    (present : string → S → bool) (body : string → S → S) (init : S) : S :=
  foldl (λ acc column, if present column acc then body column acc else acc)
        init sensor_columns.

(** [scipy.signal.savgol_filter(x, window_length=5, polyorder=2)]: the
    least-squares quadratic through each window of five points, evaluated at
    the window's centre; the first and last two points are evaluated on the
    quadratic through the first and last five points ([mode='interp']). *)
Definition savgol_dot (c : Z * Z * Z * Z * Z) (w : num * num * num * num * num)
  : num :=
  let '(c0, c1, c2, c3, c4) := c in
  let '(x0, x1, x2, x3, x4) := w in
  fdiv (fadd (fadd (fadd (fadd (fmul (of_Z c0) x0) (fmul (of_Z c1) x1))
                         (fmul (of_Z c2) x2))
                   (fmul (of_Z c3) x3))
             (fmul (of_Z c4) x4))
       (of_Z 35).

Fixpoint savgol_interior (l : list num) : list num :=
  match l with
  | x0 :: ((x1 :: x2 :: x3 :: x4 :: _) as t) =>
      savgol_dot (-3, 12, 17, 12, -3)%Z (x0, x1, x2, x3, x4)
      :: savgol_interior t
  | _ => []
  end.

Definition savgol_5_2 (l : list num) : list num :=
  match l, drop (length l - 5) l with
  | x0 :: x1 :: x2 :: x3 :: x4 :: _, [y0; y1; y2; y3; y4] =>
      [savgol_dot (31, 9, -3, -5, 3)%Z (x0, x1, x2, x3, x4);
       savgol_dot (9, 13, 12, 6, -5)%Z (x0, x1, x2, x3, x4)]
      ++ savgol_interior l
      ++ [savgol_dot (-5, 6, 12, 13, 9)%Z (y0, y1, y2, y3, y4);
          savgol_dot (3, -5, -3, 9, 31)%Z (y0, y1, y2, y3, y4)]
  | _, _ => l
  end.

(** [savgol_filter(x, window_length, polyorder=2)] raises unless the window
    is odd, larger than the polynomial order and no longer than the data;
    the pipeline only ever asks for a window of five. *)
Definition savgol_filter (l : list num) (window_length : nat)
  : result (list num) :=
  if (window_length =? 5)%nat && (5 <=? length l)%nat
  then Ok (savgol_5_2 l)
  else Raise ValueError.

(* ===================================================================== *)
(** * data_storage.py *)
(* ===================================================================== *)

Module DataStorage.

(** A timestamp as a reading carries it: a datetime, or a string still to be
    parsed. *)
Inductive raw_timestamp : Type :=
  | TsDatetime (ns : Z)
  | TsString (s : string).

(** A reading is a dict: the timestamp key may be absent. *)
Record Reading : Type := mkReading {
  rd_timestamp : option raw_timestamp;
  rd_values : gmap string num;
  rd_sensor_id : option string
}.

Record Store : Type := mkStore {
  _data : DataFrame;
  _max_records : nat
}.

Definition all_columns : gset string :=
  list_to_set sensor_columns.

(** [_initialize_dataframe] *)
Definition _initialize_dataframe : DataFrame := mkDF all_columns [].

(** The capacity, 10000 records. *)
Definition max_records_default : nat := Z.to_nat 10000.

(** [__init__] *)
Definition init : Store := mkStore _initialize_dataframe max_records_default.

(** Code that runs on the store and may raise: the store survives the
    exception in the state it had when the exception was raised. *)
Definition M (A : Type) : Type := Store → result A * Store.

(** The text an export returns: a string literal, or what pandas'
    [to_csv(index=False)] or [to_json(orient='records', date_format='iso')]
    renders for a frame (the rendering itself is pandas' and is kept
    symbolic). *)
Inductive export_text : Type :=
  | Literal (s : string)
  | ToCsv (data : DataFrame)
  | ToJson (data : DataFrame).

#[export] Instance M_ret : MRet M := λ A a s, (Ok a, s).

#[export] Instance M_bind : MBind M := λ A B k m s,
  match m s with
  | (Ok a, s') => k a s'
  | (Raise e, s') => (Raise e, s')
  end.

Definition lift {A} (r : result A) : M A := λ s, (r, s).

Definition get_data : M DataFrame := λ s, (Ok (_data s), s).

Definition put_data (d : DataFrame) : M unit :=
  λ s, (Ok tt, mkStore d (_max_records s)).

Definition get_max_records : M nat := λ s, (Ok (_max_records s), s).

(** The timestamps pandas holds count nanoseconds in 64 bits, from
    [pd.Timestamp.min] (1677-09-21) to [pd.Timestamp.max] (2262-04-11); the
    least 64-bit value is [NaT]. *)
Definition timestamp_min : Z := - (2 ^ 63 - 1).
Definition timestamp_max : Z := 2 ^ 63 - 1.

Definition within_bounds (ns : Z) : bool :=
  (timestamp_min <=? ns)%Z && (ns <=? timestamp_max)%Z.

Definition to_nanoseconds (ns : Z) : result Z :=
  if within_bounds ns then Ok ns else Raise ValueError.

Section WithParser.

(** The string-to-datetime parser of [pd.to_datetime]; [None] is a string it
    rejects. *)
Variable parse_datetime : string → option Z.

(** [pd.to_datetime(new_row['timestamp'])]: a datetime, and the instant a
    string denotes, are converted to a nanosecond timestamp; outside the
    bounds of these the conversion raises [OutOfBoundsDatetime], which is a
    [ValueError]. *)
Definition to_datetime (t : option raw_timestamp) : result Z :=
  match t with
  | None => Raise KeyError
  | Some (TsDatetime ns) => to_nanoseconds ns
  | Some (TsString s) =>
      match parse_datetime s with
      | Some ns => to_nanoseconds ns
      | None => Raise ValueError
      end
  end.

(** [pd.DataFrame([reading])] with its timestamp column converted. *)
Definition new_row_frame (reading : Reading) (ns : Z) : DataFrame :=
  mkDF (dom (rd_values reading))
       [mkRow ns (rd_values reading) (rd_sensor_id reading)].

(** The body of the [try] block of [add_reading]. *)
Definition add_reading_body (reading : Reading) : M bool :=
  ns ← lift (to_datetime (rd_timestamp reading));
  let new_row := new_row_frame reading ns in
  d ← get_data;
  put_data (df_concat d new_row);;
  d ← get_data;
  put_data (sort_values d);;
  d ← get_data;
  cap ← get_max_records;
  (if (cap <? df_len d)%nat
   then put_data (df_tail cap d)
   else mret tt);;
  mret true.

(** [add_reading]: any exception is caught and [False] returned. *)
Definition add_reading (reading : Reading) (s : Store) : bool * Store :=
  match add_reading_body reading s with
  | (Ok b, s') => (b, s')
  | (Raise _, s') => (false, s')
  end.

(** Appending a sequence of readings, one after the other. *)
Definition add_readings (readings : list Reading) (s : Store) : Store :=
  foldl (λ s r, snd (add_reading r s)) s readings.

(** The row a reading contributes: none when the append fails. *)
Definition new_rows (reading : Reading) : list Row :=
  match to_datetime (rd_timestamp reading) with
  | Ok ns => df_rows (new_row_frame reading ns)
  | Raise _ => []
  end.

End WithParser.

(** [get_all_data] *)
Definition get_all_data (s : Store) : DataFrame := _data s.

(** [get_total_readings] *)
Definition get_total_readings (s : Store) : nat := df_len (_data s).

(** [has_data] *)
Definition has_data (s : Store) : bool := negb (df_empty (_data s)).

(** [clear_data] *)
Definition clear_data (s : Store) : bool * Store :=
  (true, mkStore _initialize_dataframe (_max_records s)).

(** [str.lower] on ASCII. *)
Definition lower_ascii (c : Ascii.ascii) : Ascii.ascii :=
  let n := Ascii.nat_of_ascii c in
  if (65 <=? n)%nat && (n <=? 90)%nat then Ascii.ascii_of_nat (n + 32) else c.

Fixpoint lower (s : string) : string :=
  match s with
  | EmptyString => EmptyString
  | String c t => String (lower_ascii c) (lower t)
  end.

(** [get_data_for_export] *)
Definition get_data_for_export (format_type : string) (s : Store)
  : result export_text :=
  if df_empty (_data s) then Ok (Literal "")
  else if String.eqb (lower format_type) "csv" then Ok (ToCsv (_data s))
  else if String.eqb (lower format_type) "json" then Ok (ToJson (_data s))
  else Raise ValueError.


End DataStorage.

(* ===================================================================== *)
(** * data_processor.py *)
(* ===================================================================== *)

Module DataProcessor.

(** [self.sensor_ranges] *)
Definition sensor_ranges : gmap string (Z * Z) :=
  list_to_map
    [("temperature", (-50, 100)%Z);
     ("weight", (0, 1000)%Z);
     ("moisture", (0, 100)%Z);
     ("pressure", (80000, 120000)%Z)].

(** [self.sensor_ranges[column]], for a column of [sensor_columns]. *)
Definition sensor_range (column : string) : Z * Z := sensor_ranges !!! column.

(** [self.iqr_multiplier] *)
Definition iqr_multiplier : Q := 15 # 10.

(** [self.outlier_threshold] *)
Definition outlier_threshold : Q := 3.

(** [(min_val + max_val) / 2] *)
Definition midpoint (column : string) : num :=
  let '(min_val, max_val) := sensor_range column in
  fdiv (fadd (of_Z min_val) (of_Z max_val)) (of_Z 2).

(** The body of the loop of [_fill_missing_values], on one column. *)
Definition fill_column (column : string) (l : list num) : list num :=
  let l := ffill l in
  let l := bfill l in
  let l := interpolate l in
  if any_null l then fillna (midpoint column) l else l.

(** [_fill_missing_values] *)
Definition _fill_missing_values (data : DataFrame) : DataFrame :=
  for_sensor_columns has_column
    (λ column data,
       set_col column (fill_column column (get_col column data)) data)
    data.

(** [(data[column] < min_val) | (data[column] > max_val)] *)
Definition out_of_range (column : string) (v : num) : bool :=
  let '(min_val, max_val) := sensor_range column in
  fltb v (of_Z min_val) || fgtb v (of_Z max_val).

(** [_remove_invalid_values] *)
Definition _remove_invalid_values (data : DataFrame) : DataFrame :=
  let data :=
    for_sensor_columns has_column
      (λ column data,
         set_col column
           (mask_nan (out_of_range column) (get_col column data)) data)
      data in
  _fill_missing_values data.

(** The bounds [Q1 - 1.5 * IQR] and [Q3 + 1.5 * IQR] of a column. *)
Definition iqr_bounds (l : list num) : num * num :=
  let Q1 := quantile (1 # 4) l in
  let Q3 := quantile (3 # 4) l in
  let IQR := fsub Q3 Q1 in
  (fsub Q1 (fmul (Fin iqr_multiplier) IQR),
   fadd Q3 (fmul (Fin iqr_multiplier) IQR)).

Definition outside (bounds : num * num) (v : num) : bool :=
  fltb v (fst bounds) || fgtb v (snd bounds).

(** [_remove_outliers] *)
Definition _remove_outliers (data : DataFrame) : DataFrame :=
  let data :=
    for_sensor_columns
      (λ column data,
         has_column column data
         && (4 <? length (dropna (get_col column data)))%nat)
      (λ column data,
         let l := get_col column data in
         set_col column (mask_nan (outside (iqr_bounds l)) l) data)
      data in
  _fill_missing_values data.

(** [_apply_smoothing] *)
Definition _apply_smoothing (data : DataFrame) : DataFrame :=
  if (df_len data <? 5)%nat then data
  else
    let window_length := Nat.min 5 (df_len data) in
    let window_length :=
      if (window_length mod 2 =? 0)%nat then (window_length - 1)%nat
      else window_length in
    for_sensor_columns has_column
      (λ column data,
         match savgol_filter (get_col column data) window_length with
         | Ok smoothed => set_col column smoothed data
         | Raise _ => data
         end)
      data.

(** [clean_data] *)
Definition clean_data (data : DataFrame)
    (remove_outliers fill_missing smooth_data : bool) : DataFrame :=
  if df_empty data then data
  else
    let cleaned_data := data in
    let cleaned_data :=
      if fill_missing then _fill_missing_values cleaned_data
      else cleaned_data in
    let cleaned_data := _remove_invalid_values cleaned_data in
    let cleaned_data :=
      if remove_outliers then _remove_outliers cleaned_data
      else cleaned_data in
    let cleaned_data :=
      if smooth_data && (5 <? df_len cleaned_data)%nat
      then _apply_smoothing cleaned_data
      else cleaned_data in
    sort_values cleaned_data.

(** [get_cleaned_data] *)
Definition get_cleaned_data (data : DataFrame) : DataFrame :=
  clean_data data true true false.

End DataProcessor.

(* ===================================================================== *)
(** * analytics.py *)
(* ===================================================================== *)

(** ** Library statistics (numpy, pandas, scipy) *)

(** [np.mean(a)]: no value is skipped. *)
Definition np_mean (l : list num) : num :=
  fdiv (fsum l) (of_nat (length l)).

(** [series.min()] and [series.max()]: NaN values are skipped. *)
Definition pd_min (l : list num) : num :=
  match dropna l with
  | [] => NaN
  | x :: t => foldl (λ m v, if fltb v m then v else m) x t
  end.

Definition pd_max (l : list num) : num :=
  match dropna l with
  | [] => NaN
  | x :: t => foldl (λ m v, if fgtb v m then v else m) x t
  end.

(** [series.tail(n)] *)
Definition tail_values (n : nat) (l : list num) : list num :=
  drop (length l - n) l.

(** pandas' [_zero_out_fperr]: a magnitude below [1e-14] counts as zero. *)
Definition zero_out_fperr (a : num) : num :=
  if fltb (fabs a) (Fin (1 # 10 ^ 14)) then Fin 0 else a.

Definition fcube (a : num) : num := fmul (fmul a a) a.

(** [series.skew()]: the bias-corrected sample skewness. *)
Definition pd_skew (l : list num) : num :=
  let v := dropna l in
  let count := length v in
  let m := np_mean v in
  let adjusted := map (λ x, fsub x m) v in
  let m2 := zero_out_fperr (fsum (map fsquare adjusted)) in
  let m3 := zero_out_fperr (fsum (map fcube adjusted)) in
  if (count <? 3)%nat then NaN
  else if feqb m2 (Fin 0) then Fin 0
  else
    fmul (fdiv (fmul (of_nat count) (fsqrt (of_nat (count - 1))))
               (of_nat (count - 2)))
         (fdiv m3 (fmul m2 (fsqrt m2))).

(** [series.kurtosis()]: the bias-corrected excess kurtosis. *)
Definition pd_kurtosis (l : list num) : num :=
  let v := dropna l in
  let count := length v in
  let m := np_mean v in
  let adjusted := map (λ x, fsub x m) v in
  let m2 := fsum (map fsquare adjusted) in
  let m4 := fsum (map (λ a, fsquare (fsquare a)) adjusted) in
  if (count <? 4)%nat then NaN
  else
    let adj :=
      fdiv (fmul (of_Z 3) (fsquare (of_nat (count - 1))))
           (of_nat ((count - 2) * (count - 3))) in
    let numerator :=
      zero_out_fperr
        (fmul (of_nat (count * (count + 1) * (count - 1))) m4) in
    let denominator :=
      zero_out_fperr (fmul (of_nat ((count - 2) * (count - 3))) (fsquare m2)) in
    if feqb denominator (Fin 0) then Fin 0
    else fsub (fdiv numerator denominator) adj.

(** Clipping a correlation coefficient to [-1, 1]. *)
Definition clip_unit (r : num) : num :=
  if fgtb r (Fin 1) then Fin 1
  else if fltb r (Fin (-1)) then Fin (-1)
  else r.

(** One entry of [frame.corr()]: Pearson's coefficient over the rows where
    both columns have a value; NaN when a column is constant there. *)
Definition pd_corr (x y : list num) : num :=
  let pairs := List.filter (λ p, notna (fst p) && notna (snd p)) (zip x y) in
  match pairs with
  | [] => NaN
  | _ =>
      let xs := map fst pairs in
      let ys := map snd pairs in
      let mx := np_mean xs in
      let my := np_mean ys in
      let vx := fsum (map (λ a, fsquare (fsub a mx)) xs) in
      let vy := fsum (map (λ b, fsquare (fsub b my)) ys) in
      let cov := fsum (map (λ p, fmul (fsub (fst p) mx) (fsub (snd p) my)) pairs) in
      let divisor := fsqrt (fmul vx vy) in
      if fneb divisor (Fin 0) then clip_unit (fdiv cov divisor) else NaN
  end.

(** The p-value of a regression: scipy reads it off Student's t
    distribution, [2 * t.sf(|t|, df)]; the distribution function is kept
    symbolic. *)
Inductive p_value_t : Type :=
  | PExact (p : num)
  | StudentT (t : num) (df : nat).

Record LinregressResult : Type := mkLinregress {
  lr_slope : num;
  lr_intercept : num;
  lr_rvalue : num;
  lr_pvalue : p_value_t;
  lr_stderr : num
}.

Definition TINY : num := Fin (1 # 10 ^ 20).

(** [scipy.stats.linregress(x, y)], as in current scipy: empty inputs and
    inputs whose [x] values are all identical are rejected with
    [ValueError]. *)
Definition linregress (x y : list num) : result LinregressResult :=
  let n := length x in
  if (n =? 0)%nat then Raise ValueError
  else if (1 <? n)%nat && feqb (pd_max x) (pd_min x) then Raise ValueError
  else
    let xmean := np_mean x in
    let ymean := np_mean y in
    let ssxm := np_mean (map (λ a, fsquare (fsub a xmean)) x) in
    let ssxym :=
      np_mean (map (λ p, fmul (fsub (fst p) xmean) (fsub (snd p) ymean))
                   (zip x y)) in
    let ssym := np_mean (map (λ b, fsquare (fsub b ymean)) y) in
    let r :=
      if feqb ssxm (Fin 0) || feqb ssym (Fin 0) then Fin 0
      else clip_unit (fdiv ssxym (fsqrt (fmul ssxm ssym))) in
    let slope := fdiv ssxym ssxm in
    let intercept := fsub ymean (fmul slope xmean) in
    if (n =? 2)%nat then
      let prob :=
        if feqb (nth 0 y NaN) (nth 1 y NaN) then Fin 1 else Fin 0 in
      Ok (mkLinregress slope intercept r (PExact prob) (Fin 0))
    else
      let df := (n - 2)%nat in
      let t :=
        fmul r
          (fsqrt (fdiv (of_nat df)
                       (fmul (fadd (fsub (Fin 1) r) TINY)
                             (fadd (fadd (Fin 1) r) TINY)))) in
      let slope_stderr :=
        fsqrt (fdiv (fdiv (fmul (fsub (Fin 1) (fsquare r)) ssym) ssxm)
                    (of_nat df)) in
      Ok (mkLinregress slope intercept r (StudentT t df) slope_stderr).

(** [np.abs(stats.zscore(values))] *)
Definition abs_zscore (values : list num) : list num :=
  let mn := np_mean values in
  let std := np_std values in
  map (λ x, fabs (fdiv (fsub x mn) std)) values.

Module Analytics.

(** [self.sensor_columns] is the list [sensor_columns] of the frames. *)

(** [[col for col in self.sensor_columns if col in data.columns]] *)
Definition numeric_columns (data : DataFrame) : list string :=
  List.filter (λ col, has_column col data) sensor_columns.

(** *** [calculate_statistics] *)

Record DescribeRecord : Type := mkDescribe {
  d_count : nat;
  d_mean : num;
  d_std : num;
  d_min : num;
  d_q25 : num;
  d_q50 : num;
  d_q75 : num;
  d_max : num
}.

(** [series.describe()] *)
Definition describe (l : list num) : DescribeRecord :=
  mkDescribe (length (dropna l)) (mean l) (pd_std l) (pd_min l)
    (quantile (1 # 4) l) (quantile (1 # 2) l) (quantile (3 # 4) l)
    (pd_max l).

(** The values stored in the dict that [calculate_statistics] returns. *)
Inductive stat_value : Type :=
  | Described (per_column : gmap string DescribeRecord)
  | PerColumn (per_column : gmap string num)
  | Matrix (entries : gmap (string * string) num).

Definition per_column {A} (cols : list string) (f : string → A)
  : gmap string A :=
  list_to_map (map (λ c, (c, f c)) cols).

Definition corr_matrix (cols : list string) (data : DataFrame)
  : gmap (string * string) num :=
  list_to_map
    (map (λ p, (p, pd_corr (get_col (fst p) data) (get_col (snd p) data)))
         (c1 ← cols; c2 ← cols; [(c1, c2)])).

(** [(std / mean) * 100] *)
Definition coefficient_of_variation (l : list num) : num :=
  fmul (fdiv (pd_std l) (mean l)) (of_Z 100).

Definition calculate_statistics (data : DataFrame) : gmap string stat_value :=
  if df_empty data then ∅
  else
    let results : gmap string stat_value := ∅ in
    let cols := numeric_columns data in
    match cols with
    | [] => results
    | _ =>
        let col c := get_col c data in
        let results :=
          <["descriptive" := Described (per_column cols (λ c, describe (col c)))]>
            results in
        let results :=
          <["skewness" := PerColumn (per_column cols (λ c, pd_skew (col c)))]>
            results in
        let results :=
          <["kurtosis" := PerColumn (per_column cols (λ c, pd_kurtosis (col c)))]>
            results in
        let results :=
          <["correlation" := Matrix (corr_matrix cols data)]> results in
        let results :=
          <["variance" := PerColumn (per_column cols (λ c, var 1 (col c)))]>
            results in
        <["coefficient_of_variation" :=
            PerColumn (per_column cols (λ c, coefficient_of_variation (col c)))]>
          results
    end.

(** *** [analyze_trends] *)

Record TrendRecord : Type := mkTrend {
  slope : num;
  intercept : num;
  r_squared : num;
  p_value : p_value_t;
  std_error : num;
  direction : string;
  confidence : string
}.

(** [pd.to_numeric(timestamp) / 10**9] *)
Definition time_numeric (r : Row) : num :=
  fdiv (of_Z (r_timestamp r)) (of_Z (10 ^ 9)).

(** The non-missing values of a column of the sorted frame, with the time
    of their rows: [values] and [time_vals]. *)
Definition values_with_time (column : string) (rows : list Row)
  : list (num * num) :=
  List.filter (λ p, notna (snd p))
    (map (λ r, (time_numeric r, cell column r)) rows).

Definition trend_direction (slope std_err : num) : string :=
  if fltb (fabs slope) std_err then "Stable"
  else if fgtb slope (Fin 0) then "Increasing"
  else "Decreasing".

Definition trend_confidence (r_squared : num) : string :=
  if fgtb r_squared (Fin (7 # 10)) then "High"
  else if fgtb r_squared (Fin (3 # 10)) then "Medium"
  else "Low".

(** One turn of the loop of [analyze_trends]. *)
Definition trend_step (data : DataFrame) (rows : list Row)
    (acc : result (gmap string TrendRecord)) (column : string)
  : result (gmap string TrendRecord) :=
  match acc with
  | Raise e => Raise e
  | Ok trends =>
      if has_column column data then
        let pairs := values_with_time column rows in
        if (length pairs <? 3)%nat then Ok trends
        else
          match linregress (map fst pairs) (map snd pairs) with
          | Raise e => Raise e
          | Ok lr =>
              let r2 := fsquare (lr_rvalue lr) in
              Ok (<[column :=
                     mkTrend (lr_slope lr) (lr_intercept lr) r2
                       (lr_pvalue lr) (lr_stderr lr)
                       (trend_direction (lr_slope lr) (lr_stderr lr))
                       (trend_confidence r2)]> trends)
          end
      else Ok trends
  end.

Definition analyze_trends (data : DataFrame)
  : result (gmap string TrendRecord) :=
  if df_empty data || (df_len data <? 3)%nat then Ok ∅
  else
    let data_sorted := sort_values data in
    foldl (trend_step data (df_rows data_sorted)) (Ok ∅) sensor_columns.

(** *** [detect_anomalies] *)

Record AnomalyRecord : Type := mkAnomaly {
  a_count : nat;
  a_percentage : num;
  a_indices : list nat;
  a_values : list num
}.

(** What [anomaly_indices] is bound to: a pandas [Index], or a plain Python
    list; only the former has a [tolist] method. *)
Inductive index_value : Type :=
  | PdIndex (labels : list nat)
  | PyList (items : list nat).

Definition index_items (i : index_value) : list nat :=
  match i with PdIndex l | PyList l => l end.

(** [anomaly_indices.tolist()] *)
Definition tolist (i : index_value) : result (list nat) :=
  match i with
  | PdIndex l => Ok l
  | PyList _ => Raise AttributeError
  end.

(** [data[column].dropna()]: the values that are there, each with its index
    label. *)
Definition indexed_values (l : list num) : list (nat * num) :=
  List.filter (λ p, notna (snd p)) (imap (λ i v, (i, v)) l).

(** [values.index[mask]] *)
Definition select_index (values : list (nat * num)) (mask : list bool)
  : list nat :=
  map (λ p, fst (fst p)) (List.filter snd (zip values mask)).

(** [values.loc[anomaly_indices].tolist()] *)
Definition loc_values (values : list (nat * num)) (labels : list nat)
  : list num :=
  omap (λ i, snd <$> List.find (λ p, (fst p =? i)%nat) values) labels.

Definition anomaly_indices_of (method : string) (values : list (nat * num))
  : index_value :=
  let vs := map snd values in
  if String.eqb method "zscore" then
    let z_scores := abs_zscore vs in
    PdIndex (select_index values (map (λ z, fgtb z (Fin 3)) z_scores))
  else if String.eqb method "iqr" then
    let Q1 := quantile (1 # 4) vs in
    let Q3 := quantile (3 # 4) vs in
    let IQR := fsub Q3 Q1 in
    let lower_bound := fsub Q1 (fmul (Fin (15 # 10)) IQR) in
    let upper_bound := fadd Q3 (fmul (Fin (15 # 10)) IQR) in
    PdIndex (select_index values
               (map (λ v, fltb v lower_bound || fgtb v upper_bound) vs))
  else PyList [].

(** The dict literal assigned to [anomalies[column]]; its entries are
    evaluated in order, so [tolist] runs after the count and percentage. *)
Definition anomaly_record (values : list (nat * num))
    (anomaly_indices : index_value) : result AnomalyRecord :=
  let count := length (index_items anomaly_indices) in
  let percentage :=
    fmul (fdiv (of_nat count) (of_nat (length values))) (of_Z 100) in
  match tolist anomaly_indices with
  | Raise e => Raise e
  | Ok indices =>
      Ok (mkAnomaly count percentage indices
            (if (0 <? count)%nat
             then loc_values values (index_items anomaly_indices)
             else []))
  end.

(** One turn of the loop of [detect_anomalies]. *)
Definition anomaly_step (data : DataFrame) (method : string)
    (acc : result (gmap string AnomalyRecord)) (column : string)
  : result (gmap string AnomalyRecord) :=
  match acc with
  | Raise e => Raise e
  | Ok anomalies =>
      if has_column column data then
        let values := indexed_values (get_col column data) in
        if (length values <? 3)%nat then Ok anomalies
        else
          match anomaly_record values (anomaly_indices_of method values) with
          | Raise e => Raise e
          | Ok entry => Ok (<[column := entry]> anomalies)
          end
      else Ok anomalies
  end.

Definition detect_anomalies (data : DataFrame) (method : string)
  : result (gmap string AnomalyRecord) :=
  if df_empty data then Ok ∅
  else foldl (anomaly_step data method) (Ok ∅) sensor_columns.

(** *** [calculate_sensor_health] *)

Record HealthRecord : Type := mkHealth {
  availability_percent : num;
  stability_cv : num;
  recent_stability_cv : num;
  health_score : num;
  status : string
}.

(** [(values.std() / values.mean()) * 100 if values.mean() != 0 else 100] *)
Definition stability (values : list num) : num :=
  if fneb (mean values) (Fin 0)
  then fmul (fdiv (pd_std values) (mean values)) (of_Z 100)
  else of_Z 100.

(** The health score before rounding. *)
Definition raw_health_score (values : list num) : num :=
  let availability :=
    fmul (fdiv (of_nat (length (dropna values))) (of_nat (length values)))
         (of_Z 100) in
  let cv := stability values in
  let recent_count := Nat.max 1 (length values / 10) in
  let recent_values := tail_values recent_count values in
  let recent_stability := stability recent_values in
  py_min (of_Z 100)
    (fadd (fadd (fmul availability (Fin (4 # 10)))
                (fmul (fsub (of_Z 100) (py_min cv (of_Z 100))) (Fin (3 # 10))))
          (fmul (fsub (of_Z 100) (py_min recent_stability (of_Z 100)))
                (Fin (3 # 10)))).

Definition health_status (health_score : num) : string :=
  if fgeb health_score (of_Z 90) then "Excellent"
  else if fgeb health_score (of_Z 70) then "Good"
  else if fgeb health_score (of_Z 50) then "Fair"
  else "Poor".

(** The dict assigned to [health_metrics[column]]. *)
Definition health_record (values : list num) : HealthRecord :=
  let availability :=
    fmul (fdiv (of_nat (length (dropna values))) (of_nat (length values)))
         (of_Z 100) in
  let cv := stability values in
  let recent_count := Nat.max 1 (length values / 10) in
  let recent_stability := stability (tail_values recent_count values) in
  let score := raw_health_score values in
  mkHealth (fround 2 availability) (fround 2 cv) (fround 2 recent_stability)
           (fround 2 score) (health_status score).

Definition calculate_sensor_health (data : DataFrame)
  : gmap string HealthRecord :=
  if df_empty data then ∅
  else
    for_sensor_columns (λ column _, has_column column data)
      (λ column health_metrics,
         <[column := health_record (get_col column data)]> health_metrics)
      ∅.

(** *** [analyze_correlations] *)

Record CorrelationRecord : Type := mkCorrelation {
  coefficient : num;
  strength : string;
  corr_direction : string;
  significant : bool
}.

Definition correlation_record (corr_value : num) : CorrelationRecord :=
  let abs_corr := fabs corr_value in
  let strength :=
    if fgeb abs_corr (Fin (7 # 10)) then "Strong"
    else if fgeb abs_corr (Fin (4 # 10)) then "Moderate"
    else if fgeb abs_corr (Fin (2 # 10)) then "Weak"
    else "Very Weak" in
  let direction := if fgtb corr_value (Fin 0) then "Positive" else "Negative" in
  mkCorrelation (fround 3 corr_value) strength direction
                (fgeb abs_corr (Fin (2 # 10))).

(** The pairs [(col1, col2)] with [i < j] of the double loop. *)
Fixpoint upper_pairs (cols : list string) : list (string * string) :=
  match cols with
  | [] => []
  | c :: t => map (λ c2, (c, c2)) t ++ upper_pairs t
  end.

Record CorrelationAnalysis : Type := mkCorrelationAnalysis {
  pairwise_correlations : list (string * CorrelationRecord);
  correlation_matrix : gmap (string * string) num
}.

(** The key [f"{col1}_vs_{col2}"] *)
Definition pair_key (p : string * string) : string :=
  (fst p ++ "_vs_" ++ snd p)%string.

(** [analyze_correlations]: [None] is the empty dict. *)
Definition analyze_correlations (data : DataFrame)
  : option CorrelationAnalysis :=
  if df_empty data then None
  else
    let cols := numeric_columns data in
    if (length cols <? 2)%nat then None
    else
      let m := corr_matrix cols data in
      Some (mkCorrelationAnalysis
              (map (λ p, (pair_key p, correlation_record (m !!! p)))
                   (upper_pairs cols))
              (fround 3 <$> m)).

(** *** [generate_insights] *)

(** The messages of [generate_insights], each with the values its text is
    formatted from. *)
Inductive insight : Type :=
  | NoData
      (* "No data available for analysis" *)
  | TrendInsight (sensor direction : string) (r_squared : num)
      (* "{Sensor} shows a {direction} trend with high confidence (R² = ..)" *)
  | CorrelationInsight (strength direction pair : string) (coefficient : num)
      (* "{strength} {direction} correlation detected between {sensors} .." *)
  | HealthWarning (sensor status : string) (score : num)
      (* "{Sensor} sensor health is {status} (score: ../100)" *)
  | HealthConfirmation (sensor : string) (score : num)
      (* "{Sensor} sensor is performing excellently (score: ../100)" *)
  | HighVariability (sensor : string) (cv : num)
      (* "{Sensor} shows high variability (CV = ..%) - consider checking .." *)
  | SufficientData
      (* "Sufficient data collected for reliable trend analysis and .." *)
  | MoreDataRecommended
      (* "More data collection recommended for robust statistical analysis" *)
  | NoPatterns.
      (* "Data analysis completed - no significant patterns detected yet" *)

(** The items of a per-sensor dict, in insertion order. *)
Definition items {A} (m : gmap string A) : list (string * A) :=
  omap (λ c, (λ v, (c, v)) <$> m !! c) sensor_columns.

Definition generate_insights (data : DataFrame) : result (list insight) :=
  if df_empty data then Ok [NoData]
  else
    match analyze_trends data with
    | Raise e => Raise e
    | Ok trends =>
        let insights :=
          omap (λ '(sensor, t),
                  if String.eqb (confidence t) "High"
                  then Some (TrendInsight sensor (direction t) (r_squared t))
                  else None)
               (items trends) in
        let insights :=
          insights ++
          match analyze_correlations data with
          | None => []
          | Some correlations =>
              omap (λ '(key, c),
                      if significant c
                         && (String.eqb (strength c) "Strong"
                             || String.eqb (strength c) "Moderate")
                      then Some (CorrelationInsight (strength c)
                                   (corr_direction c) key (coefficient c))
                      else None)
                   (pairwise_correlations correlations)
          end in
        let insights :=
          insights ++
          omap (λ '(sensor, h),
                  if String.eqb (status h) "Poor"
                     || String.eqb (status h) "Fair"
                  then Some (HealthWarning sensor (status h) (health_score h))
                  else if String.eqb (status h) "Excellent"
                  then Some (HealthConfirmation sensor (health_score h))
                  else None)
               (items (calculate_sensor_health data)) in
        let insights :=
          insights ++
          match calculate_statistics data !! "coefficient_of_variation" with
          | Some (PerColumn cvs) =>
              omap (λ '(sensor, cv),
                      if fgtb cv (of_Z 50)
                      then Some (HighVariability sensor cv) else None)
                   (items cvs)
          | _ => []
          end in
        let insights :=
          insights ++
          (if (100 <? df_len data)%nat then [SufficientData]
           else [MoreDataRecommended]) in
        Ok (match insights with [] => [NoPatterns] | _ => insights end)
    end.

(** *** [get_performance_metrics] *)

(** The values of the metrics dict, before they are formatted as text. *)
Inductive metric : Type :=
  | Timedelta (ns : Z)
  | ReadingsPerHour (rate : num)
  | Percent (p : num)
  | OutOf100 (score : num).

Definition list_max_Z (l : list Z) : Z := foldr Z.max (hd 0%Z l) l.
Definition list_min_Z (l : list Z) : Z := foldr Z.min (hd 0%Z l) l.

Definition get_performance_metrics (data : DataFrame)
  : result (gmap string metric) :=
  if df_empty data then Ok ∅
  else
    let metrics : gmap string metric := ∅ in
    let time_span :=
      (list_max_Z (timestamps data) - list_min_Z (timestamps data))%Z in
    let metrics := <["data_collection_period" := Timedelta time_span]> metrics in
    let total_seconds := fdiv (of_Z time_span) (of_Z (10 ^ 9)) in
    let metrics :=
      <["average_collection_rate" :=
          ReadingsPerHour
            (fdiv (of_nat (df_len data))
                  (py_max (of_Z 1) (fdiv total_seconds (of_Z 3600))))]>
        metrics in
    let cols := numeric_columns data in
    match cols with
    | [] => Ok metrics
    | _ =>
        let total_possible_readings := (df_len data * length cols)%nat in
        let actual_readings :=
          length (dropna (c ← cols; get_col c data)) in
        let metrics :=
          <["data_completeness" :=
              Percent (fmul (fdiv (of_nat actual_readings)
                                  (of_nat total_possible_readings))
                            (of_Z 100))]> metrics in
        match detect_anomalies data "zscore" with
        | Raise e => Raise e
        | Ok anomalies =>
            let total_anomalies :=
              foldr Nat.add 0%nat (map (λ p, a_count (snd p)) (items anomalies)) in
            let metrics :=
              <["anomaly_rate" :=
                  Percent (fmul (fdiv (of_nat total_anomalies)
                                      (of_nat actual_readings))
                                (of_Z 100))]> metrics in
            let health := calculate_sensor_health data in
            let health_scores :=
              omap (λ sensor, health_score <$> health !! sensor) cols in
            Ok (<["overall_system_health" := OutOf100 (np_mean health_scores)]>
                  metrics)
        end
    end.

End Analytics.

(* ===================================================================== *)
(** * data_storage.py: the queries *)
(* ===================================================================== *)

Module StoreQueries.

Import DataStorage.

(** [data[mask]]: the rows a boolean mask selects, in their order, with the
    columns of the frame (pandas keeps the index labels of the rows; the
    callers do not read them). *)
Definition select_rows (mask : Row → bool) (data : DataFrame) : DataFrame :=
  mkDF (df_columns data) (List.filter mask (df_rows data)).

(** [timedelta(hours=1)], in nanoseconds. *)
Definition hour : Z := 3600 * 10 ^ 9.

(** [get_recent_data]; [now] is what [datetime.now()] returns. *)
Definition get_recent_data (now : Z) (hours : Z) (s : Store) : DataFrame :=
  if df_empty (_data s) then mkDF ∅ []
  else
    let cutoff_time := (now - hours * hour)%Z in
    let recent_data :=
      select_rows (λ r, (cutoff_time <=? r_timestamp r)%Z) (_data s) in
    recent_data.

(** [get_data_by_sensor]: the buffer has its [sensor_id] column from
    [_initialize_dataframe] on, so the test on the columns always passes. *)
Definition get_data_by_sensor (sensor_id : string) (s : Store) : DataFrame :=
  let sensor_data :=
    select_rows (λ r, bool_decide (r_sensor_id r = Some sensor_id))
                (_data s) in
  sensor_data.

(** [get_data_by_timerange] *)
Definition get_data_by_timerange (start_time end_time : Z) (s : Store)
  : DataFrame :=
  if df_empty (_data s) then mkDF ∅ []
  else
    let time_filtered :=
      select_rows
        (λ r, (start_time <=? r_timestamp r)%Z
              && (r_timestamp r <=? end_time)%Z)
        (_data s) in
    time_filtered.

(** [get_latest_reading]: the row [iloc[-1]] as a dict, [None] when the
    buffer is empty. *)
Definition get_latest_reading (s : Store) : option Row :=
  if df_empty (_data s) then None
  else last (df_rows (_data s)).

(** [get_latest_timestamp] *)
Definition get_latest_timestamp (s : Store) : option Z :=
  if df_empty (_data s) then None
  else last (timestamps (_data s)).

Record SensorSummary : Type := mkSensorSummary {
  sm_count : nat;
  sm_mean : num;
  sm_min : num;
  sm_max : num;
  sm_std : num;
  sm_latest : num
}.

Record Metadata : Type := mkMetadata {
  total_records : nat;
  time_span : option (Z * Z);
  sensors : list (option string)
}.

Record Summary : Type := mkSummary {
  per_sensor : gmap string SensorSummary;
  metadata : Metadata
}.

(** [series.unique()]: the distinct values in the order of their first
    appearance; a missing sensor id is a value of its own. *)
Definition unique {A} `{EqDecision A} (l : list A) : list A :=
  foldl (λ seen x, if bool_decide (x ∈ seen) then seen else seen ++ [x]) [] l.

(** [series.min()] and [series.max()] of the timestamps of a frame that has
    rows. *)
Definition min_timestamp (l : list Z) : Z := foldr Z.min (hd 0%Z l) l.
Definition max_timestamp (l : list Z) : Z := foldr Z.max (hd 0%Z l) l.

(** [get_sensor_summary]: [None] is the empty dict. *)
Definition get_sensor_summary (s : Store) : option Summary :=
  let data := _data s in
  if df_empty data then None
  else
    let summary :=
      for_sensor_columns (λ column _, has_column column data)
        (λ column summary,
           let values := get_col column data in
           <[column :=
               mkSensorSummary (length (dropna values)) (mean values)
                 (pd_min values) (pd_max values) (pd_std values)
                 (default NaN (last values))]> summary)
        ∅ in
    Some (mkSummary summary
            (mkMetadata (df_len data)
               (Some (min_timestamp (timestamps data),
                      max_timestamp (timestamps data)))
               (unique (map r_sensor_id (df_rows data))))).

(** The size [memory_usage(deep=True).sum() / 1024 / 1024] of a frame is
    pandas' own and is kept symbolic. *)
Inductive megabytes : Type :=
  | DeepMemoryUsage (data : DataFrame).

Record MemoryInfo : Type := mkMemoryInfo {
  records_count : nat;
  max_records : nat;
  memory_usage_mb : megabytes;
  usage_percentage : num
}.

(** [get_memory_usage]: the division of two ints raises
    [ZeroDivisionError] for a capacity of zero ([None] here). *)
Definition get_memory_usage (s : Store) : option MemoryInfo :=
  if (_max_records s =? 0)%nat then None
  else
    Some (mkMemoryInfo (df_len (_data s)) (_max_records s)
            (DeepMemoryUsage (_data s))
            (fmul (fdiv (of_nat (df_len (_data s))) (of_nat (_max_records s)))
                  (of_Z 100))).

End StoreQueries.

(* ===================================================================== *)
(** * data_processor.py: outlier report and quality metrics *)
(* ===================================================================== *)

Module QualityReport.

Import DataProcessor.

(** The exception the report can raise is numpy's [IndexError]. *)
Inductive indexing (A : Type) : Type :=
  | Indexed (a : A)
  | IndexError.

Arguments Indexed {A} a.
Arguments IndexError {A}.

(** The positions at which a boolean array is true. *)
Definition true_positions (mask : list bool) : list nat :=
  map fst (List.filter snd (imap (λ i b, (i, b)) mask)).

(** [data.index[mask]] for a boolean array: numpy raises [IndexError] when
    the array is not as long as the index. *)
Definition index_by_mask (data : DataFrame) (mask : list bool)
  : indexing (list nat) :=
  if (length mask =? df_len data)%nat then Indexed (true_positions mask)
  else IndexError.

(** One turn of the loop of [detect_outliers]. *)
Definition outlier_step (data : DataFrame) (acc : indexing (gset nat))
    (column : string) : indexing (gset nat) :=
  match acc with
  | IndexError => IndexError
  | Indexed outlier_indices =>
      if has_column column data then
        let z_scores := abs_zscore (dropna (get_col column data)) in
        match index_by_mask data
                (map (λ z, fgtb z (Fin outlier_threshold)) z_scores) with
        | IndexError => IndexError
        | Indexed z_outliers =>
            let outlier_indices := outlier_indices ∪ list_to_set z_outliers in
            let bounds := iqr_bounds (get_col column data) in
            match index_by_mask data
                    (map (outside bounds) (get_col column data)) with
            | IndexError => IndexError
            | Indexed iqr_outliers =>
                Indexed (outlier_indices ∪ list_to_set iqr_outliers)
            end
        end
      else Indexed outlier_indices
  end.

Definition outlier_indices (data : DataFrame) : indexing (gset nat) :=
  foldl (outlier_step data) (Indexed ∅) sensor_columns.

(** [data.loc[list(outlier_indices)]]: the rows of the labels in the set.
    The order in which a Python set hands out its elements is not
    specified; the rows are listed in the order of the frame here. *)
Definition loc_rows (labels : gset nat) (data : DataFrame) : DataFrame :=
  mkDF (df_columns data)
       (map snd (List.filter (λ p, bool_decide (fst p ∈ labels))
                             (imap (λ i r, (i, r)) (df_rows data)))).

(** [detect_outliers] *)
Definition detect_outliers (data : DataFrame) : indexing DataFrame :=
  if df_empty data then Indexed (mkDF ∅ [])
  else
    match outlier_indices data with
    | IndexError => IndexError
    | Indexed labels => Indexed (loc_rows labels data)
    end.

(** The differences [data['timestamp'].diff()] between each timestamp and
    the one before it (without the leading NaT). *)
Definition diff (ts : list Z) : list Z :=
  zip_with (λ before after, after - before)%Z ts (tail ts).

(** [series.is_monotonic_increasing] *)
Definition is_monotonic_increasing (ts : list Z) : bool :=
  forallb (λ d, 0 <=? d)%Z (diff ts).

(** [timedelta.total_seconds()] *)
Definition total_seconds (ns : Z) : num := fdiv (of_Z ns) (of_Z (10 ^ 9)).

(** [_check_temporal_consistency] *)
Definition _check_temporal_consistency (data : DataFrame) : bool :=
  if (df_len data <? 2)%nat then true
  else
    let timestamps_sorted := is_monotonic_increasing (timestamps data) in
    let time_diffs := map total_seconds (diff (timestamps data)) in
    let reasonable_intervals :=
      map (λ d, fgeb d (Fin (5 # 10)) && fleb d (of_Z 3600)) time_diffs in
    timestamps_sorted && forallb id reasonable_intervals.

Record QualityMetrics : Type := mkQualityMetrics {
  total_records : nat;
  missing_values : nat;
  missing_percentage : num;
  duplicate_records : nat;
  invalid_values : nat;
  outliers_detected : nat;
  data_completeness : num;
  temporal_consistency : bool
}.

(** [data.isnull().sum().sum()]: the missing cells of all the columns of
    the frame, the sensor ids among them (a timestamp is never missing). *)
Definition count_missing (data : DataFrame) : nat :=
  length (List.filter isnull (c ← elements (df_columns data); get_col c data))
  + length (List.filter (λ r, bool_decide (r_sensor_id r = None))
                        (df_rows data)).

(** Two rows with the same values in every column; [duplicated] takes two
    missing cells for equal. *)
Definition same_row (data : DataFrame) (a b : Row) : bool :=
  (r_timestamp a =? r_timestamp b)%Z
  && forallb (λ c, num_eqb (cell c a) (cell c b))
             (elements (df_columns data))
  && bool_decide (r_sensor_id a = r_sensor_id b).

(** [data.duplicated()]: a row is a duplicate when an earlier row has the
    same values. *)
Fixpoint duplicated_from (data : DataFrame) (seen rows : list Row)
  : list bool :=
  match rows with
  | [] => []
  | r :: t =>
      existsb (same_row data r) seen :: duplicated_from data (seen ++ [r]) t
  end.

Definition duplicated (data : DataFrame) : list bool :=
  duplicated_from data [] (df_rows data).

(** The loop that counts the invalid values. *)
Definition count_invalid (data : DataFrame) : nat :=
  for_sensor_columns (λ column _, has_column column data)
    (λ column invalid_values,
       (invalid_values
        + length (List.filter (out_of_range column) (get_col column data)))%nat)
    0%nat.

(** [analyze_data_quality]: [None] is the empty dict. *)
Definition analyze_data_quality (data : DataFrame)
  : indexing (option QualityMetrics) :=
  if df_empty data then Indexed None
  else
    let total := df_len data in
    let missing := count_missing data in
    let total_possible_values := (total * length sensor_columns)%nat in
    let missing_percentage :=
      fmul (fdiv (of_nat missing) (of_nat total_possible_values)) (of_Z 100) in
    let duplicates := length (List.filter id (duplicated data)) in
    match detect_outliers data with
    | IndexError => IndexError
    | Indexed outliers =>
        let temporal := _check_temporal_consistency data in
        let invalid := count_invalid data in
        let valid_values :=
          (Z.of_nat total_possible_values - Z.of_nat missing)%Z in
        Indexed
          (Some (mkQualityMetrics total missing missing_percentage duplicates
                   invalid (df_len outliers)
                   (fmul (fdiv (of_Z valid_values)
                               (of_nat total_possible_values))
                         (of_Z 100))
                   temporal))
    end.

End QualityReport.

(* ===================================================================== *)
(** * utils.py: validation of a reading *)
(* ===================================================================== *)

Module Utils.

(** The values a reading holds under its keys: [None], an int or a float
    (a bool is an int), a string, a datetime, or any other object. *)
Inductive pyvalue : Type :=
  | PyNone
  | PyNumber (v : num)
  | PyText (s : string)
  | PyDatetime (ns : Z)
  | PyObject.

(** The messages of [validate_sensor_data], each with the values its text
    is formatted from. *)
Inductive validation_error : Type :=
  | MissingField (field : string)
      (* "Missing required field: {field}" *)
  | ValueIsNone (sensor : string)
      (* "{sensor} value is None" *)
  | NotNumeric (sensor : string)
      (* "{sensor} value must be numeric" *)
  | OutsideRange (sensor : string) (value : num) (min_val max_val : Z)
      (* "{sensor} value {value} is outside valid range [{min}, {max}]" *)
  | NotADatetime
      (* "timestamp must be a valid datetime" *)
  | InvalidTimestampFormat.
      (* "Invalid timestamp format" *)

Definition required_fields : list string :=
  ["timestamp"; "temperature"; "weight"; "moisture"; "pressure"].

(** The dict [sensor_ranges] of [validate_sensor_data], in its order. *)
Definition sensor_ranges : list (string * (Z * Z)) :=
  [("temperature", (-50, 100)%Z);
   ("weight", (0, 1000)%Z);
   ("moisture", (0, 100)%Z);
   ("pressure", (80000, 120000)%Z)].

Record Validation : Type := mkValidation {
  valid : bool;
  errors : list validation_error
}.

(** One turn of the loop over the required fields. *)
Definition field_step (data : gmap string pyvalue)
    (errors : list validation_error) (field : string)
  : list validation_error :=
  match data !! field with
  | None => errors ++ [MissingField field]
  | Some _ => errors
  end.

(** One turn of the loop over the sensor ranges. *)
Definition range_step (data : gmap string pyvalue)
    (errors : list validation_error) (entry : string * (Z * Z))
  : list validation_error :=
  let '(sensor, (min_val, max_val)) := entry in
  match data !! sensor with
  | None => errors
  | Some PyNone => errors ++ [ValueIsNone sensor]
  | Some (PyNumber value) =>
      if negb (fleb (of_Z min_val) value && fleb value (of_Z max_val))
      then errors ++ [OutsideRange sensor value min_val max_val]
      else errors
  | Some _ => errors ++ [NotNumeric sensor]
  end.

Section WithParser.

(** The string-to-datetime parser of [pd.to_datetime], as in the store. *)
Variable parse_datetime : string → option Z.

(** The check of the timestamp: a string has to go through
    [pd.to_datetime] without an exception, any other value has to be a
    datetime, which is tested by its type alone. *)
Definition timestamp_step (data : gmap string pyvalue)
    (errors : list validation_error) : list validation_error :=
  match data !! "timestamp" with
  | None => errors
  | Some (PyText s) =>
      match DataStorage.to_datetime parse_datetime
              (Some (DataStorage.TsString s)) with
      | Ok _ => errors
      | Raise _ => errors ++ [InvalidTimestampFormat]
      end
  | Some (PyDatetime _) => errors
  | Some _ => errors ++ [NotADatetime]
  end.

(** [validate_sensor_data] *)
Definition validate_sensor_data (data : gmap string pyvalue) : Validation :=
  let errors : list validation_error := [] in
  let errors := foldl (field_step data) errors required_fields in
  let errors := foldl (range_step data) errors sensor_ranges in
  let errors := timestamp_step data errors in
  mkValidation (length errors =? 0)%nat errors.

End WithParser.

(** The reading as [add_reading] takes it: the timestamp, the numeric
    entries as cells, and the sensor id. *)
Definition cells_of (data : gmap string pyvalue) : gmap string num :=
  omap (λ v, match v with PyNumber x => Some x | _ => None end) data.

Definition timestamp_of (data : gmap string pyvalue)
  : option DataStorage.raw_timestamp :=
  match data !! "timestamp" with
  | Some (PyDatetime ns) => Some (DataStorage.TsDatetime ns)
  | Some (PyText s) => Some (DataStorage.TsString s)
  | _ => None
  end.

Definition sensor_id_of (data : gmap string pyvalue) : option string :=
  match data !! "sensor_id" with
  | Some (PyText s) => Some s
  | _ => None
  end.

Definition reading_of (data : gmap string pyvalue) : DataStorage.Reading :=
  DataStorage.mkReading (timestamp_of data) (cells_of data)
                        (sensor_id_of data).

End Utils.

(* ===================================================================== *)
(** * Sample snapshots *)
(* ===================================================================== *)

Module Samples.

(** A row with all four sensor cells. *)
Definition row4 (ts : Z) (temperature weight moisture pressure : num) : Row :=
  mkRow ts
    (<["temperature" := temperature]>
       (<["weight" := weight]>
          (<["moisture" := moisture]>
             (<["pressure" := pressure]> ∅))))
    (Some "sensor_001"%string).

Definition frame (rows : list Row) : DataFrame :=
  mkDF (list_to_set sensor_columns) rows.

Definition second : Z := 1000000000.

(** Rows one second apart, with the given temperatures and weights and
    constant moisture and pressure. *)
Definition readings_of (values : list (Z * Z)) : list Row :=
  imap (λ i '(t, w),
          row4 (Z.of_nat i * second) (of_Z t) (of_Z w) (of_Z 40) (of_Z 101325))
       values.

(** Temperatures 20, 1000, 22: the middle one is invalid. *)
Definition invalid_middle : DataFrame :=
  frame (readings_of [(20, 50); (1000, 50); (22, 50)]%Z).

(** Five rows whose last temperature is an outlier, and whose third becomes
    one once the last has been repaired. *)
Definition drifting_outlier : DataFrame :=
  frame (readings_of [(0, 50); (0, 50); (1, 50); (0, 50); (10, 50)]%Z).

(** Six rows with one temperature peak. *)
Definition temperature_peak : DataFrame :=
  frame (readings_of [(0, 50); (0, 50); (0, 50); (0, 50); (70, 50); (0, 50)]%Z).

(** Six rows with one weight peak at the top of the valid range. *)
Definition weight_peak : DataFrame :=
  frame (readings_of [(20, 0); (20, 0); (20, 0); (20, 0); (20, 1000); (20, 0)]%Z).

(** Four rows on a line [temperature = 2 * seconds + 5]; the weight is
    constant, the moisture constantly zero, and the pressure is there in two
    rows only. *)
Definition linear_temperature : DataFrame :=
  frame
    [row4 0 (of_Z 5) (of_Z 50) (of_Z 0) (of_Z 101325);
     row4 second (of_Z 7) (of_Z 50) (of_Z 0) NaN;
     row4 (2 * second) (of_Z 9) (of_Z 50) (of_Z 0) (of_Z 101300);
     row4 (3 * second) (of_Z 11) (of_Z 50) (of_Z 0) NaN].

(** The empty snapshot of a fresh store. *)
Definition empty_snapshot : DataFrame := frame [].

(** A parser that accepts one spelling of the epoch and rejects every other
    string: it stands for pandas' in the examples. *)
Definition epoch_parser (s : string) : option Z :=
  if String.eqb s "1970-01-01T00:00:00" then Some 0%Z else None.

(** A reading with the four sensor values, time-stamped by a datetime. *)
Definition reading_at (ts : Z) (temperature : Z) : DataStorage.Reading :=
  DataStorage.mkReading (Some (DataStorage.TsDatetime ts))
    (<["temperature" := of_Z temperature]>
       (<["weight" := of_Z 50]>
          (<["moisture" := of_Z 40]>
             (<["pressure" := of_Z 101325]> ∅))))
    (Some "sensor_001"%string).

(** The same reading with a timestamp string that does not parse. *)
Definition unparsable_reading : DataStorage.Reading :=
  DataStorage.mkReading (Some (DataStorage.TsString "yesterday-ish"))
    (DataStorage.rd_values (reading_at 0 21))
    (Some "sensor_001"%string).

(** A store with room for two readings only. *)
Definition tiny_store : DataStorage.Store :=
  DataStorage.mkStore DataStorage._initialize_dataframe 2.

(** A store holding two readings. *)
Definition small_store : DataStorage.Store :=
  DataStorage.add_readings epoch_parser
    [reading_at (2 * second) 21; reading_at second 20] DataStorage.init.

(** Pointwise equality of two columns, up to the representation of the
    rationals. *)
Fixpoint same_values (l1 l2 : list num) : bool :=
  match l1, l2 with
  | [], [] => true
  | x :: t1, y :: t2 => num_eqb x y && same_values t1 t2
  | _, _ => false
  end.

End Samples.

(* ===================================================================== *)
(** * Vocabulary of the properties *)
(* ===================================================================== *)

Section Vocabulary.

Import DataStorage DataProcessor Analytics.

Definition store_rows (s : Store) : list Row := df_rows (_data s).

(** What a successful append leaves in the buffer. *)
Definition appended (s : Store) (reading : Reading) (ns : Z) : DataFrame :=
  let d := sort_values (df_concat (_data s) (new_row_frame reading ns)) in
  if (_max_records s <? df_len d)%nat then df_tail (_max_records s) d else d.

Definition store_inv (s : Store) : Prop :=
  StronglySorted ts_le (store_rows s) ∧
  (length (store_rows s) ≤ _max_records s)%nat.

(** Every row holds a cell of its own for the column. *)
Definition holds (c : string) (d : DataFrame) : Prop :=
  Forall (λ r, is_Some (r_values r !! c)) (df_rows d).

(** One turn of the loop of a stage: the column is replaced by [f] of it
    when it is present and passes the test [cond] of the stage. *)
Definition column_step (cond : string → list num → bool)
    (f : string → list num → list num) (d : DataFrame) (c : string)
  : DataFrame :=
  if has_column c d && cond c (get_col c d)
  then set_col c (f c (get_col c d)) d
  else d.

Definition column_loop (cond : string → list num → bool)
    (f : string → list num → list num) (d : DataFrame) (cols : list string)
  : DataFrame :=
  foldl (column_step cond f) d cols.

Definition nan_free (l : list num) : Prop :=
  Forall (λ v, isnull v = false) l.

(** [P] holds of every value that is there. *)
Definition where_present (P : num → Prop) (l : list num) : Prop :=
  Forall (λ v, isnull v = true ∨ P v) l.

(** The value is there and lies within the valid range of the sensor. *)
Definition in_range (column : string) (v : num) : Prop :=
  match v with
  | Fin q =>
      (inject_Z (fst (sensor_range column)) <= q)%Q
      ∧ (q <= inject_Z (snd (sensor_range column)))%Q
  | _ => False
  end.

Definition always (c : string) (l : list num) : bool := true.

Definition enough_values (c : string) (l : list num) : bool :=
  (4 <? length (dropna l))%nat.

Definition mask_invalid (c : string) (l : list num) : list num :=
  mask_nan (out_of_range c) l.

Definition mask_outliers (c : string) (l : list num) : list num :=
  mask_nan (outside (iqr_bounds l)) l.

(** Every sensor column of the frame is held by the rows, has no gap and
    lies within the valid range of its sensor. *)
Definition scrubbed (d : DataFrame) : Prop :=
  ∀ c, c ∈ sensor_columns → has_column c d = true →
       holds c d ∧ Forall (in_range c) (get_col c d).

(** The frame the pipeline hands to its smoothing stage. *)
Definition before_smoothing (data : DataFrame)
    (remove_outliers fill_missing : bool) : DataFrame :=
  let d := if fill_missing then _fill_missing_values data else data in
  let d := _remove_invalid_values d in
  if remove_outliers then _remove_outliers d else d.

(** The column has at least three values that are there. *)
Definition eligible (data : DataFrame) (column : string) : bool :=
  has_column column data
  && (3 <=? length (dropna (get_col column data)))%nat.

(** A float that is not negative: NaN and the positive infinity count. *)
Definition not_negative (a : num) : Prop :=
  match a with
  | Fin q => (0 <= q)%Q
  | NInf => False
  | _ => True
  end.

(** The float is the rational [t], up to its representation. *)
Definition is_fin (a : num) (t : Q) : Prop := ∃ q, a = Fin q ∧ q == t.

(** A column without missing values and without variance: every value is
    the rational [c]. *)
Definition constant_column (c : Q) (l : list num) : Prop :=
  Forall (λ v, is_fin v c) l.

(** What one turn of the loop of [analyze_trends] computes for a column:
    nothing when the column is absent or has fewer than three values, else
    the record of the regression, or the exception [linregress] raised. *)
Definition trend_entry (data : DataFrame) (rows : list Row) (column : string)
  : option (result TrendRecord) :=
  if has_column column data then
    let pairs := values_with_time column rows in
    if (length pairs <? 3)%nat then None
    else
      Some
        match linregress (map fst pairs) (map snd pairs) with
        | Raise e => Raise e
        | Ok lr =>
            let r2 := fsquare (lr_rvalue lr) in
            Ok (mkTrend (lr_slope lr) (lr_intercept lr) r2 (lr_pvalue lr)
                  (lr_stderr lr)
                  (trend_direction (lr_slope lr) (lr_stderr lr))
                  (trend_confidence r2))
        end
  else None.

(** The direction and the confidence of a record, as the specification
    words them. *)
Definition classified (t : TrendRecord) : Prop :=
  (fltb (fabs (slope t)) (std_error t) = true →
   direction t = "Stable"%string)
  ∧ (fltb (fabs (slope t)) (std_error t) = false →
     fgtb (slope t) (Fin 0) = true → direction t = "Increasing"%string)
  ∧ (fltb (fabs (slope t)) (std_error t) = false →
     fltb (slope t) (Fin 0) = true → direction t = "Decreasing"%string)
  ∧ (confidence t = "High"%string ↔ fgtb (r_squared t) (Fin (7 # 10)) = true)
  ∧ (confidence t = "Medium"%string
     ↔ fgtb (r_squared t) (Fin (3 # 10)) = true
       ∧ fleb (r_squared t) (Fin (7 # 10)) = true).

(** The rows of a column that have a value. *)
Definition rows_with (column : string) (rows : list Row) : list Row :=
  List.filter (λ r, notna (cell column r)) rows.

End Vocabulary.

Section RationalVocabulary.

#[local] Open Scope Q_scope.

Definition Qsum (l : list Q) : Q := foldr Qplus 0 l.

Definition Qmean (l : list Q) : Q := Qsum l / inject_Z (Z.of_nat (length l)).

(** The line of slope 2 and intercept [c]. *)
Definition line (c : Q) (x : Q) : Q := 2 * x + c.

Definition sqdev (m : Q) (x : Q) : Q := (x - m) * (x - m).

(** Values on the line [2 * x + c], paired with their [x]. *)
Definition on_line (c : Q) (p : num * num) (x : Q) : Prop :=
  is_fin (fst p) x ∧ is_fin (snd p) (line c x).

(** The time of a row in seconds, as a rational. *)
Definition seconds_of (r : Row) : Q :=
  inject_Z (r_timestamp r) / inject_Z (10 ^ 9).

(** The values of the column lie on the line [2 * t + c], [t] the time of
    the row in seconds: with [c = 5] when [t] is counted from the epoch, as
    the regression does, and with [c = 5 - 2 * t0] when the series is
    [2 * (t - t0) + 5] on the time elapsed since the first reading. *)
Definition column_on_line (column : string) (c : Q) (rows : list Row) : Prop :=
  Forall (λ r, is_fin (cell column r) (2 * seconds_of r + c)) rows.

End RationalVocabulary.

(* ===================================================================== *)
(** * Vocabulary of the histories *)
(* ===================================================================== *)

Section HistoryVocabulary.

Import DataStorage.

(** What a client can do to the store. *)
Inductive operation : Type :=
  | AddReading (reading : Reading)
  | ClearData.

Variable parse_datetime : string → option Z.

Definition perform (s : Store) (o : operation) : Store :=
  match o with
  | AddReading reading => (add_reading parse_datetime reading s).2
  | ClearData => (clear_data s).2
  end.

(** The store after a sequence of operations on a fresh one. *)
Definition history (ops : list operation) : Store :=
  foldl perform init ops.

(** The timestamps of the readings of a sequence that the store accepts. *)
Definition accepted_timestamps (readings : list Reading) : list Z :=
  r ← readings; map r_timestamp (new_rows parse_datetime r).

End HistoryVocabulary.

(** A timestamp put at its place in an ascending list. *)
Fixpoint insert_timestamp (t : Z) (l : list Z) : list Z :=
  match l with
  | [] => [t]
  | x :: rest =>
      if (t <=? x)%Z then t :: x :: rest else x :: insert_timestamp t rest
  end.

Section CleaningVocabulary.

(** What the smoothing stage puts in the place of a column. *)
Definition smooth (c : string) (l : list num) : list num := savgol_5_2 l.

(** What identifies a reading among the rows: its time and its sensor. *)
Definition row_key (r : Row) : Z * option string :=
  (r_timestamp r, r_sensor_id r).

(** The float is a rational: neither missing nor infinite. *)
Definition finite (v : num) : Prop := ∃ q, v = Fin q.

(** The coefficients of the five quadratic fits of [savgol_5_2]. *)
Definition savgol_coefficients : list (Z * Z * Z * Z * Z) :=
  [(31, 9, -3, -5, 3); (9, 13, 12, 6, -5); (-3, 12, 17, 12, -3);
   (-5, 6, 12, 13, 9); (3, -5, -3, 9, 31)]%Z.

End CleaningVocabulary.

(* ===================================================================== *)
(** * Sample readings *)
(* ===================================================================== *)

Module ReadingSamples.

Import DataStorage Utils.

(** A reading as the simulator builds it. *)
Definition simulated_reading : gmap string pyvalue :=
  <["timestamp" := PyDatetime 0]>
    (<["temperature" := PyNumber (of_Z 21)]>
       (<["weight" := PyNumber (of_Z 50)]>
          (<["moisture" := PyNumber (of_Z 45)]>
             (<["pressure" := PyNumber (of_Z 101325)]>
                (<["sensor_id" := PyText "SIM_001"]> ∅))))).

(** The same reading stamped [datetime(3000, 1, 1)], which is 32503680000
    seconds after the epoch. *)
Definition year_3000_reading : gmap string pyvalue :=
  <["timestamp" := PyDatetime (32503680000 * Samples.second)]>
    simulated_reading.

(** One reading, then a second one a second later. *)
Definition one_reading : list operation :=
  [AddReading (Samples.reading_at Samples.second 20)].

Definition two_readings : list operation :=
  [AddReading (Samples.reading_at Samples.second 20);
   AddReading (Samples.reading_at (2 * Samples.second) 21)].

(** A store with room for two readings, and full. *)
Definition full_store : Store :=
  add_readings Samples.epoch_parser
    [Samples.reading_at 20 21; Samples.reading_at 30 22] Samples.tiny_store.

End ReadingSamples.

(* ===================================================================== *)
(** * Properties *)
(* ===================================================================== *)

(** ** Sorting rows by timestamp *)

Section SortRows.

Lemma insert_row_perm r l : Permutation (insert_row r l) (r :: l).
Proof.
  induction l as [|x t IH]; simpl; [reflexivity|].
  destruct (r_timestamp r <=? r_timestamp x)%Z; [reflexivity|].
  rewrite IH. apply perm_swap.
Qed.

Lemma sort_rows_perm l : Permutation (sort_rows l) l.
Proof.
  induction l as [|x t IH]; simpl; [reflexivity|].
  rewrite insert_row_perm. by constructor.
Qed.

Lemma sort_rows_length l : length (sort_rows l) = length l.
Proof. apply Permutation_length, sort_rows_perm. Qed.

#[local] Instance ts_le_trans : Transitive ts_le.
Proof. unfold ts_le. intros a b c. lia. Qed.

Lemma insert_row_sorted r l :
  StronglySorted ts_le l → StronglySorted ts_le (insert_row r l).
Proof.
  induction 1 as [|x t Ht IH Hx]; simpl.
  - repeat constructor.
  - destruct (Z.leb_spec (r_timestamp r) (r_timestamp x)) as [Hle|Hgt].
    + constructor; [by constructor|].
      constructor; [exact Hle|].
      eapply Forall_impl; [exact Hx|]. unfold ts_le in *. intros; simpl in *; lia.
    + constructor; [exact IH|].
      rewrite (Forall_forall (ts_le x)). intros y Hy.
      rewrite insert_row_perm in Hy.
      apply elem_of_cons in Hy as [->|Hy].
      * unfold ts_le. lia.
      * rewrite Forall_forall in Hx. by apply Hx.
Qed.

Lemma sort_rows_sorted l : StronglySorted ts_le (sort_rows l).
Proof.
  induction l as [|x t IH]; simpl; [constructor|].
  by apply insert_row_sorted.
Qed.

#[local] Instance ts_lt_antisymm : AntiSymm (=) ts_lt.
Proof. unfold ts_lt. intros a b ??. lia. Qed.

Lemma strictly_sorted_timestamps l :
  Sorted Z.lt (map r_timestamp l) ↔ StronglySorted ts_lt l.
Proof.
  split.
  - intros H. apply Sorted_StronglySorted in H; [|intros ???; lia].
    induction l as [|x t IH]; [constructor|].
    cbn [map] in H. apply StronglySorted_inv in H as [Ht Hx].
    constructor; [by apply IH|].
    rewrite Forall_map in Hx. exact Hx.
  - intros H. apply StronglySorted_Sorted.
    induction H as [|x t Ht IH Hx]; [constructor|].
    cbn [map]. constructor; [exact IH|]. by rewrite Forall_map.
Qed.

(** Rows in ascending order of pairwise different timestamps are in strictly
    ascending order. *)
Lemma sorted_NoDup_strictly l :
  StronglySorted ts_le l → NoDup (map r_timestamp l) → StronglySorted ts_lt l.
Proof.
  induction 1 as [|x t Ht IH Hx]; intros Hnd; [constructor|].
  cbn [map] in Hnd. apply NoDup_cons in Hnd as [Hnotin Hnd].
  constructor; [by apply IH|].
  rewrite Forall_forall in Hx. rewrite Forall_forall. intros y Hy.
  specialize (Hx y Hy). unfold ts_le in Hx. unfold ts_lt.
  destruct (decide (r_timestamp x = r_timestamp y)) as [Heq|Hne]; [|lia].
  destruct Hnotin. rewrite Heq. apply list_elem_of_fmap. by exists y.
Qed.

Lemma strictly_sorted_NoDup l :
  StronglySorted ts_lt l → NoDup (map r_timestamp l).
Proof.
  induction 1 as [|x t Ht IH Hx]; cbn [map]; [constructor|].
  apply NoDup_cons. split; [|exact IH].
  intros Hin. apply list_elem_of_fmap in Hin as (y & Heq & Hy).
  rewrite Forall_forall in Hx. specialize (Hx y Hy). unfold ts_lt in Hx. lia.
Qed.

Lemma strictly_sorted_le l : StronglySorted ts_lt l → Sorted ts_le l.
Proof.
  intros H. apply StronglySorted_Sorted.
  induction H as [|x t Ht IH Hx]; [constructor|].
  constructor; [exact IH|].
  eapply Forall_impl; [exact Hx|]. unfold ts_lt, ts_le. intros; lia.
Qed.

(** Rows of pairwise different timestamps have one ascending order: any
    sort, stable or not, returns the same list on them. *)
Lemma sorted_rows_unique l l' :
  NoDup (map r_timestamp l) →
  Sorted ts_le l → Sorted ts_le l' → l' ≡ₚ l → l' = l.
Proof.
  intros Hnd Hl Hl' Hp.
  apply (StronglySorted_unique ts_lt); [| |exact Hp].
  - apply sorted_NoDup_strictly.
    + by apply Sorted_StronglySorted; [apply _|].
    + by rewrite Hp.
  - apply sorted_NoDup_strictly; [|done].
    by apply Sorted_StronglySorted; [apply _|].
Qed.

(** Sorting rows that are in strictly ascending order changes nothing. *)
Lemma sort_rows_fixed l :
  Sorted Z.lt (map r_timestamp l) → sort_rows l = l.
Proof.
  intros H. apply strictly_sorted_timestamps in H.
  apply sorted_rows_unique.
  - by apply strictly_sorted_NoDup.
  - by apply strictly_sorted_le.
  - apply StronglySorted_Sorted, sort_rows_sorted.
  - apply sort_rows_perm.
Qed.

End SortRows.

(** ** The store *)

Section StoreProperties.

Import DataStorage.

Variable parse_datetime : string → option Z.

#[local] Abbreviation add_reading := (DataStorage.add_reading parse_datetime).
#[local] Abbreviation add_readings := (DataStorage.add_readings parse_datetime).
#[local] Abbreviation to_datetime := (DataStorage.to_datetime parse_datetime).
#[local] Abbreviation new_rows := (DataStorage.new_rows parse_datetime).

Lemma add_reading_ok s reading ns :
  to_datetime (rd_timestamp reading) = Ok ns →
  add_reading reading s = (true, mkStore (appended s reading ns) (_max_records s)).
Proof.
  intros H. unfold add_reading, add_reading_body, appended.
  unfold mbind, M_bind, lift. rewrite H. simpl.
  destruct (_ <? _)%nat; reflexivity.
Qed.

Lemma add_reading_raise s reading e :
  to_datetime (rd_timestamp reading) = Raise e →
  add_reading reading s = (false, s).
Proof.
  intros H. unfold add_reading, add_reading_body.
  unfold mbind, M_bind, lift. by rewrite H.
Qed.

Lemma add_reading_max_records s reading :
  _max_records (add_reading reading s).2 = _max_records s.
Proof.
  destruct (to_datetime (rd_timestamp reading)) as [ns|e] eqn:H.
  - by rewrite (add_reading_ok _ _ _ H).
  - by rewrite (add_reading_raise _ _ _ H).
Qed.

Lemma tail_rows_split n l :
  l = take (length l - n) l ++ tail_rows n l.
Proof. unfold tail_rows. by rewrite take_drop. Qed.

Lemma tail_rows_length n l : length (tail_rows n l) = Nat.min n (length l).
Proof. unfold tail_rows. rewrite length_drop. lia. Qed.

Lemma StronglySorted_app_r {A} (R : A → A → Prop) l1 l2 :
  StronglySorted R (l1 ++ l2) → StronglySorted R l2.
Proof.
  induction l1 as [|x l1 IH]; simpl; [done|].
  intros H. apply StronglySorted_inv in H as [H _]. auto.
Qed.

Lemma StronglySorted_app_le {A} (R : A → A → Prop) l1 l2 :
  StronglySorted R (l1 ++ l2) →
  Forall (λ a, Forall (R a) l2) l1.
Proof.
  induction l1 as [|x l1 IH]; simpl; [constructor|].
  intros H. apply StronglySorted_inv in H as [H Hx].
  constructor; [|auto].
  apply Forall_app in Hx. tauto.
Qed.

Lemma tail_rows_sorted n l :
  StronglySorted ts_le l → StronglySorted ts_le (tail_rows n l).
Proof.
  intros H. rewrite (tail_rows_split n l) in H.
  by apply StronglySorted_app_r in H.
Qed.

(** The rows of the buffer after a successful append: the newest
    [_max_records] of the old rows and the new one. *)
Lemma appended_rows s reading ns :
  df_rows (appended s reading ns)
  = tail_rows (_max_records s)
      (sort_rows (store_rows s ++ df_rows (new_row_frame reading ns))).
Proof.
  unfold appended, df_len, store_rows, sort_values, df_concat, df_tail.
  cbn [df_rows df_columns new_row_frame].
  destruct (Nat.ltb_spec (_max_records s)
    (length (sort_rows (df_rows (_data s) ++
       [mkRow ns (rd_values reading) (rd_sensor_id reading)]))))
    as [Hlt|Hge]; cbn [df_rows]; [reflexivity|].
  unfold tail_rows.
  match goal with |- _ = drop ?n _ => replace n with 0%nat by lia end.
  reflexivity.
Qed.

Lemma init_inv : store_inv init.
Proof. split; simpl; [constructor|lia]. Qed.

Lemma add_reading_inv s reading :
  store_inv s → store_inv (add_reading reading s).2.
Proof.
  intros [Hs Hl].
  destruct (to_datetime (rd_timestamp reading)) as [ns|e] eqn:H.
  - rewrite (add_reading_ok _ _ _ H). unfold store_inv, store_rows. simpl.
    rewrite (appended_rows s reading ns). split.
    + apply tail_rows_sorted, sort_rows_sorted.
    + rewrite tail_rows_length. lia.
  - by rewrite (add_reading_raise _ _ _ H).
Qed.

Lemma add_readings_snoc readings reading s :
  add_readings (readings ++ [reading]) s
  = (add_reading reading (add_readings readings s)).2.
Proof. unfold DataStorage.add_readings. by rewrite foldl_app. Qed.

Lemma add_readings_inv readings s :
  store_inv s → store_inv (add_readings readings s).
Proof.
  revert s. induction readings as [|r rs IH]; intros s Hs; simpl; [done|].
  apply IH. by apply add_reading_inv.
Qed.

Lemma add_readings_max_records readings s :
  _max_records (add_readings readings s) = _max_records s.
Proof.
  revert s. induction readings as [|r rs IH]; intros s; simpl; [done|].
  unfold DataStorage.add_readings in *. simpl. rewrite IH.
  apply add_reading_max_records.
Qed.

(** C2.  After any sequence of appends to a fresh store the snapshot is
    sorted by timestamp ascending and holds at most 10000 records; and one
    more append keeps, of the old rows and the new one, all but the rows in
    excess of the capacity, the dropped rows being no newer than any row
    kept (the oldest are evicted). *)
Theorem store_sorted_bounded_evicts_oldest
    (readings : list Reading) (reading : Reading) :
  let s := add_readings readings init in
  let s' := add_readings (readings ++ [reading]) init in
  Sorted ts_le (df_rows (get_all_data s)) ∧
  (Z.of_nat (get_total_readings s) <= 10000)%Z ∧
  ∃ evicted : list Row,
    Permutation (df_rows (get_all_data s) ++ new_rows reading)
                (evicted ++ df_rows (get_all_data s')) ∧
    Z.of_nat (length evicted)
    = Z.max 0 (Z.of_nat (length (df_rows (get_all_data s) ++ new_rows reading))
               - 10000) ∧
    Forall (λ e, Forall (ts_le e) (df_rows (get_all_data s'))) evicted.
Proof.
  intros s s'.
  assert (Hinv : store_inv s) by apply add_readings_inv, init_inv.
  assert (Hmax : _max_records s = Z.to_nat 10000)
    by apply add_readings_max_records.
  destruct Hinv as [Hsorted Hlen]. unfold store_rows in *.
  split; [by apply StronglySorted_Sorted|].
  split; [unfold get_total_readings, df_len; lia|].
  unfold s', get_all_data. rewrite add_readings_snoc. fold s.
  unfold DataStorage.new_rows.
  destruct (to_datetime (rd_timestamp reading)) as [ns|e] eqn:H.
  - rewrite (add_reading_ok _ _ _ H). simpl.
    rewrite (appended_rows s reading ns). unfold store_rows.
    cbn [new_row_frame df_rows].
    set (d := sort_rows (df_rows (_data s) ++
                [mkRow ns (rd_values reading) (rd_sensor_id reading)])).
    exists (take (length d - _max_records s) d).
    rewrite <- (tail_rows_split (_max_records s) d).
    split; [|split].
    + unfold d. symmetry. apply sort_rows_perm.
    + rewrite length_take. unfold d. rewrite sort_rows_length.
      rewrite !length_app. simpl. lia.
    + apply StronglySorted_app_le.
      rewrite <- (tail_rows_split (_max_records s) d). apply sort_rows_sorted.
  - rewrite (add_reading_raise _ _ _ H). exists []. simpl.
    rewrite app_nil_r. split; [reflexivity|]. split; [|constructor].
    lia.
Qed.

(** Three appends out of order to a store of capacity two: the reading
    with the oldest timestamp is the one that is dropped. *)
Example tiny_store_evicts_oldest :
  timestamps
    (get_all_data
       (add_readings
          [Samples.reading_at 30 21; Samples.reading_at 10 20;
           Samples.reading_at 20 22]
          Samples.tiny_store))
  = [20; 30]%Z.
Proof. reflexivity. Qed.

(** C8.  A reading whose timestamp cannot be normalised (the key is absent,
    or the string does not parse) is refused: [add_reading] returns [False]
    and the store is exactly what it was. *)
Theorem add_reading_unparsable_unchanged
    (s : Store) (reading : Reading) (e : exn) :
  to_datetime (rd_timestamp reading) = Raise e →
  add_reading reading s = (false, s).
Proof. apply add_reading_raise. Qed.

End StoreProperties.

(** ** Columns of a frame *)

Section FrameColumns.

Implicit Types (c column : string) (d data : DataFrame) (vs : list num).

Lemma cell_set_cell_eq c v r : cell c (set_cell c v r) = v.
Proof. unfold cell, set_cell. simpl. by rewrite lookup_insert_eq. Qed.

Lemma cell_set_cell_ne c c' v r : c ≠ c' → cell c (set_cell c' v r) = cell c r.
Proof. intros H. unfold cell, set_cell. simpl. by rewrite lookup_insert_ne. Qed.

Lemma get_col_length c d : length (get_col c d) = df_len d.
Proof. apply length_map. Qed.

Lemma set_col_rows_length c vs d :
  length vs = df_len d → df_len (set_col c vs d) = df_len d.
Proof.
  unfold df_len, set_col. simpl. intros H.
  rewrite length_zip_with. lia.
Qed.

Lemma get_col_set_col_eq c vs d :
  length vs = df_len d → get_col c (set_col c vs d) = vs.
Proof.
  unfold get_col, set_col, df_len. simpl.
  generalize (df_rows d). intros rows. revert rows.
  induction vs as [|v vs IH]; intros [|r rows] H; simpl in *; try done.
  rewrite cell_set_cell_eq. f_equal. apply IH. lia.
Qed.

Lemma get_col_set_col_ne c c' vs d :
  c ≠ c' → length vs = df_len d →
  get_col c (set_col c' vs d) = get_col c d.
Proof.
  intros Hne. unfold get_col, set_col, df_len. simpl.
  generalize (df_rows d). intros rows. revert rows.
  induction vs as [|v vs IH]; intros [|r rows] H; simpl in *; try done.
  rewrite cell_set_cell_ne by done. f_equal. apply IH. lia.
Qed.

Lemma timestamps_set_col c vs d :
  length vs = df_len d → timestamps (set_col c vs d) = timestamps d.
Proof.
  unfold timestamps, set_col, df_len. simpl.
  generalize (df_rows d). intros rows. revert rows.
  induction vs as [|v vs IH]; intros [|r rows] H; simpl in *; try done.
  f_equal. apply IH. lia.
Qed.

Lemma columns_set_col c vs d :
  has_column c d = true → df_columns (set_col c vs d) = df_columns d.
Proof.
  unfold has_column. intros H%bool_decide_eq_true. simpl. set_solver.
Qed.

Lemma has_column_set_col c c' vs d :
  has_column c' d = true →
  has_column c (set_col c' vs d) = has_column c d.
Proof. intros H. unfold has_column. by rewrite columns_set_col. Qed.

Lemma holds_set_col_eq c vs d : holds c (set_col c vs d).
Proof.
  unfold holds, set_col. simpl.
  generalize (df_rows d). intros rows. revert rows.
  induction vs as [|v vs IH]; intros [|r rows]; simpl; try constructor.
  - simpl. rewrite lookup_insert_eq. by eexists.
  - apply IH.
Qed.

Lemma holds_set_col_ne c c' vs d : holds c d → holds c (set_col c' vs d).
Proof.
  unfold holds, set_col. simpl.
  generalize (df_rows d). intros rows. revert rows.
  induction vs as [|v vs IH]; intros [|r rows] H; simpl; try constructor.
  - apply Forall_cons in H as [[x Hx] _]. simpl.
    destruct (decide (c' = c)) as [->|Hne].
    + rewrite lookup_insert_eq. by eexists.
    + rewrite lookup_insert_ne by done. by eexists.
  - apply Forall_cons in H as [_ H]. by apply IH.
Qed.

(** Writing a column back onto itself changes nothing, when the rows hold
    the column. *)
Lemma set_col_get_col c d :
  has_column c d = true → holds c d → set_col c (get_col c d) d = d.
Proof.
  intros Hc Hh. destruct d as [cols rows].
  unfold set_col, get_col, holds in *. simpl in *. f_equal.
  - apply bool_decide_eq_true in Hc. simpl in Hc. set_solver.
  - clear Hc. induction rows as [|r rows IH]; simpl; [done|].
    apply Forall_cons in Hh as [[x Hx] Hh]. f_equal; [|by apply IH].
    destruct r as [ts vals sid]. unfold set_cell, cell. simpl in *.
    rewrite Hx. simpl. f_equal. by apply insert_id.
Qed.

Lemma get_col_sort_values c d :
  Permutation (get_col c (sort_values d)) (get_col c d).
Proof. unfold get_col, sort_values. simpl. apply Permutation_map, sort_rows_perm. Qed.

Lemma holds_sort_values c d : holds c d → holds c (sort_values d).
Proof.
  unfold holds, sort_values. simpl. intros H.
  by rewrite sort_rows_perm.
Qed.

Lemma sort_values_sorted d : Sorted Z.lt (timestamps d) → sort_values d = d.
Proof.
  intros H. destruct d as [cols rows]. unfold sort_values, timestamps in *.
  cbn [df_rows df_columns] in *. f_equal. by apply sort_rows_fixed.
Qed.

Lemma sort_values_len d : df_len (sort_values d) = df_len d.
Proof. apply sort_rows_length. Qed.

End FrameColumns.

(** ** The loop over the sensor columns *)

Section ColumnLoop.

Variable cond : string → list num → bool.
Variable f : string → list num → list num.
Hypothesis f_length : ∀ c l, length (f c l) = length l.

#[local] Abbreviation column_step := (column_step cond f).
#[local] Abbreviation column_loop := (column_loop cond f).

Lemma column_step_len d c : df_len (column_step d c) = df_len d.
Proof.
  unfold column_step. destruct (_ && _); [|done].
  apply set_col_rows_length. by rewrite f_length, get_col_length.
Qed.

Lemma column_step_columns d c : df_columns (column_step d c) = df_columns d.
Proof.
  unfold column_step. destruct (has_column c d) eqn:H; simpl; [|done].
  destruct (cond _ _); [|done]. by apply columns_set_col.
Qed.

Lemma column_step_has_column d c c' :
  has_column c' (column_step d c) = has_column c' d.
Proof. unfold has_column. by rewrite column_step_columns. Qed.

Lemma column_step_timestamps d c : timestamps (column_step d c) = timestamps d.
Proof.
  unfold column_step. destruct (_ && _); [|done].
  apply timestamps_set_col. by rewrite f_length, get_col_length.
Qed.

Lemma column_step_get_col_ne d c c' :
  c' ≠ c → get_col c' (column_step d c) = get_col c' d.
Proof.
  intros H. unfold column_step. destruct (_ && _); [|done].
  apply get_col_set_col_ne; [done|]. by rewrite f_length, get_col_length.
Qed.

Lemma column_step_get_col_eq d c :
  get_col c (column_step d c)
  = if has_column c d && cond c (get_col c d) then f c (get_col c d)
    else get_col c d.
Proof.
  unfold column_step. destruct (_ && _); [|done].
  apply get_col_set_col_eq. by rewrite f_length, get_col_length.
Qed.

Lemma column_step_holds d c c' : holds c' d → holds c' (column_step d c).
Proof.
  intros H. unfold column_step. destruct (_ && _); [|done].
  by apply holds_set_col_ne.
Qed.

Lemma column_loop_len cols d : df_len (column_loop d cols) = df_len d.
Proof.
  revert d. induction cols as [|c cols IH]; intros d; simpl; [done|].
  unfold column_loop in *. simpl. by rewrite IH, column_step_len.
Qed.

Lemma column_loop_columns cols d :
  df_columns (column_loop d cols) = df_columns d.
Proof.
  revert d. induction cols as [|c cols IH]; intros d; simpl; [done|].
  unfold column_loop in *. simpl. by rewrite IH, column_step_columns.
Qed.

Lemma column_loop_has_column cols d c :
  has_column c (column_loop d cols) = has_column c d.
Proof. unfold has_column. by rewrite column_loop_columns. Qed.

Lemma column_loop_timestamps cols d :
  timestamps (column_loop d cols) = timestamps d.
Proof.
  revert d. induction cols as [|c cols IH]; intros d; simpl; [done|].
  unfold column_loop in *. simpl. by rewrite IH, column_step_timestamps.
Qed.

Lemma column_loop_get_col_other cols d c :
  c ∉ cols → get_col c (column_loop d cols) = get_col c d.
Proof.
  revert d. induction cols as [|x cols IH]; intros d Hc; simpl; [done|].
  apply not_elem_of_cons in Hc as [Hne Hc].
  unfold column_loop in *. simpl. rewrite IH by done.
  by apply column_step_get_col_ne.
Qed.

Lemma column_loop_get_col cols d c :
  NoDup cols → c ∈ cols →
  get_col c (column_loop d cols)
  = if has_column c d && cond c (get_col c d) then f c (get_col c d)
    else get_col c d.
Proof.
  revert d. induction cols as [|x cols IH]; intros d Hnd Hc.
  - by apply elem_of_nil in Hc.
  - apply NoDup_cons in Hnd as [Hx Hnd].
    unfold column_loop in *. simpl.
    destruct (decide (c = x)) as [->|Hne].
    + fold (column_loop (column_step d x) cols).
      rewrite column_loop_get_col_other by done.
      apply column_step_get_col_eq.
    + apply elem_of_cons in Hc as [?|Hc]; [done|].
      rewrite IH by done.
      by rewrite column_step_has_column, column_step_get_col_ne.
Qed.

Lemma column_loop_holds cols d c :
  holds c d → holds c (column_loop d cols).
Proof.
  revert d. induction cols as [|x cols IH]; intros d H; simpl; [done|].
  unfold column_loop in *. simpl. by apply IH, column_step_holds.
Qed.

Lemma column_loop_sets cols d c :
  c ∈ cols → has_column c d = true → (∀ l, cond c l = true) →
  holds c (column_loop d cols).
Proof.
  revert d. induction cols as [|x cols IH]; intros d Hc Hp Hcond.
  - by apply elem_of_nil in Hc.
  - unfold column_loop in *. simpl.
    destruct (decide (c = x)) as [->|Hne].
    + apply (column_loop_holds cols). unfold column_step.
      rewrite Hp, Hcond. simpl. apply holds_set_col_eq.
    + apply elem_of_cons in Hc as [?|Hc]; [done|].
      apply IH; [done| |done]. by rewrite column_step_has_column.
Qed.

(** A frame on which no turn of the loop changes anything is left as it
    is. *)
Lemma column_loop_fixed cols d :
  (∀ c, c ∈ cols → column_step d c = d) → column_loop d cols = d.
Proof.
  induction cols as [|x cols IH]; intros H; [done|].
  unfold column_loop in *. simpl. rewrite H by left.
  apply IH. intros c Hc. apply H. by right.
Qed.

End ColumnLoop.

Lemma sensor_columns_NoDup : NoDup sensor_columns.
Proof.
  unfold sensor_columns.
  repeat (apply NoDup_cons; split; [set_solver|]). apply NoDup_nil_2.
Qed.

(** ** Filling the gaps of a column *)

Section FillColumn.

Import DataProcessor.

Lemma isnull_true v : isnull v = true → v = NaN.
Proof. by destruct v. Qed.

Lemma ffill_from_length last l : length (ffill_from last l) = length l.
Proof.
  revert last. induction l as [|x t IH]; intros last; simpl; [done|].
  destruct (isnull x); simpl; by rewrite IH.
Qed.

Lemma bfill_length l : length (bfill l) = length l.
Proof. induction l as [|x t IH]; simpl; [done|]. by rewrite IH. Qed.

Lemma interpolate_from_length prev k l :
  length (interpolate_from prev k l) = length l.
Proof.
  revert prev k. induction l as [|x t IH]; intros prev k; simpl; [done|].
  destruct (isnull x); simpl; by rewrite IH.
Qed.

Lemma fillna_length v l : length (fillna v l) = length l.
Proof. apply length_map. Qed.

Lemma mask_nan_length m l : length (mask_nan m l) = length l.
Proof. apply length_map. Qed.

Lemma fill_column_length c l : length (fill_column c l) = length l.
Proof.
  unfold fill_column, interpolate, ffill.
  destruct (any_null _);
    by rewrite ?fillna_length, interpolate_from_length, bfill_length,
               ffill_from_length.
Qed.

Lemma ffill_from_nan_free last l : nan_free l → ffill_from last l = l.
Proof.
  intros H. revert last. induction H as [|x t Hx Ht IH]; intros last; simpl.
  - done.
  - rewrite Hx. by rewrite IH.
Qed.

Lemma bfill_nan_free l : nan_free l → bfill l = l.
Proof.
  induction 1 as [|x t Hx Ht IH]; simpl; [done|]. by rewrite Hx, IH.
Qed.

Lemma interpolate_from_nan_free prev k l :
  nan_free l → interpolate_from prev k l = l.
Proof.
  intros H. revert prev k.
  induction H as [|x t Hx Ht IH]; intros prev k; simpl; [done|].
  by rewrite Hx, IH.
Qed.

Lemma any_null_nan_free l : nan_free l → any_null l = false.
Proof.
  induction 1 as [|x t Hx Ht IH]; simpl; [done|]. by rewrite Hx, IH.
Qed.

(** A column without gaps is left as it is. *)
Lemma fill_column_nan_free c l : nan_free l → fill_column c l = l.
Proof.
  intros H. unfold fill_column, ffill, interpolate.
  rewrite (ffill_from_nan_free _ _ H), (bfill_nan_free _ H),
          (interpolate_from_nan_free _ _ _ H), (any_null_nan_free _ H).
  done.
Qed.

Section Valid.

Variable P : num → Prop.
Hypothesis P_present : ∀ v, P v → isnull v = false.

Lemma Forall_P_nan_free l : Forall P l → nan_free l.
Proof. intros H. eapply Forall_impl; [exact H|exact P_present]. Qed.

Lemma ffill_from_valid last l :
  P last → where_present P l → Forall P (ffill_from last l).
Proof.
  intros Hlast H. revert last Hlast.
  induction H as [|x t Hx Ht IH]; intros last Hlast; simpl; [constructor|].
  destruct Hx as [Hx|Hx].
  - rewrite Hx. constructor; [done|]. by apply IH.
  - rewrite (P_present _ Hx). constructor; [done|]. by apply IH.
Qed.

(** Forward fill leaves gaps only at the head of the column. *)
Lemma ffill_shape l :
  where_present P l →
  ∃ k rest, ffill l = replicate k NaN ++ rest ∧ Forall P rest.
Proof.
  unfold ffill. induction 1 as [|x t Hx Ht IH]; simpl.
  - by exists 0%nat, [].
  - destruct Hx as [Hx|Hx].
    + rewrite Hx. destruct IH as (k & rest & -> & Hrest).
      by exists (S k), rest.
    + rewrite (P_present _ Hx). exists 0%nat, (x :: ffill_from x t).
      split; [done|]. constructor; [done|]. by apply ffill_from_valid.
Qed.

Lemma bfill_replicate_nan k : bfill (replicate k NaN) = replicate k NaN.
Proof.
  induction k as [|k IH]; simpl; [done|]. rewrite IH. by destruct k.
Qed.

Lemma bfill_head k x rest :
  isnull x = false → nan_free rest →
  bfill (replicate k NaN ++ x :: rest) = replicate k x ++ x :: rest.
Proof.
  intros Hx Hrest. induction k as [|k IH]; simpl.
  - by rewrite Hx, (bfill_nan_free _ Hrest).
  - rewrite IH. by destruct k.
Qed.

Lemma interpolate_from_all_nan k n :
  interpolate_from NaN k (replicate n NaN) = replicate n NaN.
Proof.
  revert k. induction n as [|n IH]; intros k; simpl; [done|]. by rewrite IH.
Qed.

Lemma any_null_replicate_nan k : any_null (replicate (S k) NaN) = true.
Proof. done. Qed.

Lemma fillna_replicate_nan v k :
  fillna v (replicate k NaN) = replicate k v.
Proof. induction k as [|k IH]; simpl; [done|]. by f_equal. Qed.

(** After the fill every value is there and satisfies [P], when the values
    that were there did and the midpoint does. *)
Lemma fill_column_valid c l :
  P (midpoint c) → where_present P l → Forall P (fill_column c l).
Proof.
  intros Hmid H. destruct (ffill_shape l H) as (k & rest & Hff & Hrest).
  unfold fill_column. rewrite Hff. destruct rest as [|x rest].
  - rewrite app_nil_r, bfill_replicate_nan. unfold interpolate.
    rewrite interpolate_from_all_nan. destruct k as [|k]; [constructor|].
    rewrite any_null_replicate_nan, fillna_replicate_nan.
    by apply Forall_replicate.
  - apply Forall_cons in Hrest as [Hx Hrest].
    rewrite (bfill_head k x rest (P_present _ Hx) (Forall_P_nan_free _ Hrest)).
    assert (Hall : Forall P (replicate k x ++ x :: rest)).
    { apply Forall_app. split; [by apply Forall_replicate|by constructor]. }
    unfold interpolate.
    rewrite (interpolate_from_nan_free _ _ _ (Forall_P_nan_free _ Hall)).
    by rewrite (any_null_nan_free _ (Forall_P_nan_free _ Hall)).
Qed.

Lemma where_present_mask_nan (m : num → bool) l :
  Forall (λ v, m v = false → isnull v = true ∨ P v) l →
  where_present P (mask_nan m l).
Proof.
  unfold where_present, mask_nan.
  induction 1 as [|v t Hv Ht IH]; simpl; constructor; [|exact IH].
  destruct (m v); [by left|by apply Hv].
Qed.

End Valid.

End FillColumn.

(** ** The stages of the cleaning pipeline *)

Section CleaningStages.

Import DataProcessor.

Lemma in_range_present c v : in_range c v → isnull v = false.
Proof. by destruct v. Qed.

Lemma Qltb_false x y : Qltb x y = false → (y <= x)%Q.
Proof.
  unfold Qltb. intros H. apply negb_false_iff in H. by apply Qle_bool_iff.
Qed.

Lemma Qltb_true x y : Qltb x y = true → (x < y)%Q.
Proof.
  unfold Qltb. intros H. apply negb_true_iff in H.
  apply Qnot_le_lt. intros Hle. apply Qle_bool_iff in Hle. congruence.
Qed.

Lemma Qltb_lt x y : (x < y)%Q → Qltb x y = true.
Proof.
  intros H. destruct (Qltb x y) eqn:E; [done|].
  apply Qltb_false in E. exfalso. by apply (Qlt_not_le x y).
Qed.

Lemma Qltb_ge x y : (y <= x)%Q → Qltb x y = false.
Proof.
  intros H. destruct (Qltb x y) eqn:E; [|done].
  apply Qltb_true in E. exfalso. by apply (Qlt_not_le x y).
Qed.

Lemma out_of_range_false c v :
  out_of_range c v = false → isnull v = true ∨ in_range c v.
Proof.
  unfold out_of_range, in_range. destruct (sensor_range c) as [lo hi].
  destruct v as [| | |q]; simpl; try done; [by left|].
  unfold fgtb, of_Z. simpl. intros [H1 H2]%orb_false_elim. right.
  split; by apply Qltb_false.
Qed.

Lemma in_range_not_out c v : in_range c v → out_of_range c v = false.
Proof.
  unfold out_of_range, in_range. destruct (sensor_range c) as [lo hi].
  destruct v as [| | |q]; simpl; try done. intros [H1 H2].
  unfold fgtb, of_Z. simpl. apply orb_false_intro; by apply Qltb_ge.
Qed.

Lemma midpoint_in_range c : c ∈ sensor_columns → in_range c (midpoint c).
Proof.
  unfold sensor_columns. rewrite !elem_of_cons, elem_of_nil.
  intros [->|[->|[->|[->|[]]]]]; by vm_compute.
Qed.

Lemma mask_in_range_id c l :
  Forall (in_range c) l → mask_nan (out_of_range c) l = l.
Proof.
  induction 1 as [|v t Hv Ht IH]; simpl; [done|].
  by rewrite (in_range_not_out _ _ Hv), IH.
Qed.

Lemma foldl_step_ext {A B} (g h : A → B → A) (l : list B) (a : A) :
  (∀ a b, g a b = h a b) → foldl g a l = foldl h a l.
Proof.
  intros H. revert a. induction l as [|b l IH]; intros a; simpl; [done|].
  by rewrite H, IH.
Qed.

Lemma fill_as_loop d :
  _fill_missing_values d = column_loop always fill_column d sensor_columns.
Proof.
  unfold _fill_missing_values, for_sensor_columns, column_loop.
  apply foldl_step_ext. intros a b. unfold column_step, always.
  by rewrite andb_true_r.
Qed.

Lemma invalid_as_loop d :
  _remove_invalid_values d
  = _fill_missing_values (column_loop always mask_invalid d sensor_columns).
Proof.
  unfold _remove_invalid_values, for_sensor_columns, column_loop. f_equal.
  apply foldl_step_ext. intros a b. unfold column_step, always.
  by rewrite andb_true_r.
Qed.

Lemma outliers_as_loop d :
  _remove_outliers d
  = _fill_missing_values
      (column_loop enough_values mask_outliers d sensor_columns).
Proof. reflexivity. Qed.

Lemma mask_invalid_length c l : length (mask_invalid c l) = length l.
Proof. apply mask_nan_length. Qed.

Lemma mask_outliers_length c l : length (mask_outliers c l) = length l.
Proof. apply mask_nan_length. Qed.

(** *** What each stage does to a sensor column *)

Lemma fill_len d : df_len (_fill_missing_values d) = df_len d.
Proof. rewrite fill_as_loop. apply column_loop_len, fill_column_length. Qed.

Lemma fill_has_column c d :
  has_column c (_fill_missing_values d) = has_column c d.
Proof. rewrite fill_as_loop. apply column_loop_has_column. Qed.

Lemma fill_get_col c d :
  c ∈ sensor_columns → has_column c d = true →
  get_col c (_fill_missing_values d) = fill_column c (get_col c d).
Proof.
  intros Hc Hp. rewrite fill_as_loop.
  rewrite (column_loop_get_col always fill_column fill_column_length)
    by (done || apply sensor_columns_NoDup).
  by rewrite Hp.
Qed.

Lemma fill_holds c d :
  c ∈ sensor_columns → has_column c d = true →
  holds c (_fill_missing_values d).
Proof. intros Hc Hp. rewrite fill_as_loop. by apply column_loop_sets. Qed.

Lemma invalid_len d : df_len (_remove_invalid_values d) = df_len d.
Proof.
  rewrite invalid_as_loop, fill_len.
  apply column_loop_len, mask_invalid_length.
Qed.

Lemma invalid_has_column c d :
  has_column c (_remove_invalid_values d) = has_column c d.
Proof.
  rewrite invalid_as_loop, fill_has_column. apply column_loop_has_column.
Qed.

Lemma invalid_get_col c d :
  c ∈ sensor_columns → has_column c d = true →
  get_col c (_remove_invalid_values d)
  = fill_column c (mask_invalid c (get_col c d)).
Proof.
  intros Hc Hp. rewrite invalid_as_loop.
  rewrite fill_get_col by (done || by rewrite column_loop_has_column).
  rewrite (column_loop_get_col always mask_invalid mask_invalid_length)
    by (done || apply sensor_columns_NoDup).
  by rewrite Hp.
Qed.

Lemma outliers_len d : df_len (_remove_outliers d) = df_len d.
Proof.
  rewrite outliers_as_loop, fill_len.
  apply column_loop_len, mask_outliers_length.
Qed.

Lemma outliers_has_column c d :
  has_column c (_remove_outliers d) = has_column c d.
Proof.
  rewrite outliers_as_loop, fill_has_column. apply column_loop_has_column.
Qed.

Lemma outliers_get_col c d :
  c ∈ sensor_columns → has_column c d = true →
  get_col c (_remove_outliers d)
  = fill_column c
      (if enough_values c (get_col c d) then mask_outliers c (get_col c d)
       else get_col c d).
Proof.
  intros Hc Hp. rewrite outliers_as_loop.
  rewrite fill_get_col by (done || by rewrite column_loop_has_column).
  rewrite (column_loop_get_col enough_values mask_outliers
             mask_outliers_length) by (done || apply sensor_columns_NoDup).
  by rewrite Hp.
Qed.

(** *** Scrubbed frames *)

Lemma invalid_scrubbed d : scrubbed (_remove_invalid_values d).
Proof.
  intros c Hc Hp. rewrite invalid_has_column in Hp. split.
  - rewrite invalid_as_loop. apply fill_holds; [done|].
    by rewrite column_loop_has_column.
  - rewrite invalid_get_col by done.
    apply (fill_column_valid _ (in_range_present c));
      [by apply midpoint_in_range|].
    apply where_present_mask_nan, Forall_forall. intros v _.
    apply out_of_range_false.
Qed.

Lemma outliers_scrubbed d : scrubbed d → scrubbed (_remove_outliers d).
Proof.
  intros Hd c Hc Hp. rewrite outliers_has_column in Hp.
  destruct (Hd c Hc Hp) as [_ Hr]. split.
  - rewrite outliers_as_loop. apply fill_holds; [done|].
    by rewrite column_loop_has_column.
  - rewrite outliers_get_col by done.
    apply (fill_column_valid _ (in_range_present c));
      [by apply midpoint_in_range|].
    destruct (enough_values _ _).
    + apply where_present_mask_nan.
      eapply Forall_impl; [exact Hr|]. intros v Hv _. by right.
    + eapply Forall_impl; [exact Hr|]. intros v Hv. by right.
Qed.

Lemma sort_scrubbed d : scrubbed d → scrubbed (sort_values d).
Proof.
  intros Hd c Hc Hp. destruct (Hd c Hc Hp) as [Hh Hr]. split.
  - by apply holds_sort_values.
  - by rewrite get_col_sort_values.
Qed.

(** On a scrubbed frame the fill and the scrub change nothing. *)
Lemma fill_fixed d : scrubbed d → _fill_missing_values d = d.
Proof.
  intros Hd. rewrite fill_as_loop. apply column_loop_fixed.
  intros c Hc. unfold column_step, always. rewrite andb_true_r.
  destruct (has_column c d) eqn:Hp; [|done].
  destruct (Hd c Hc Hp) as [Hh Hr].
  rewrite fill_column_nan_free.
  - by apply set_col_get_col.
  - eapply Forall_impl; [exact Hr|]. apply in_range_present.
Qed.

Lemma invalid_fixed d : scrubbed d → _remove_invalid_values d = d.
Proof.
  intros Hd. rewrite invalid_as_loop.
  rewrite (column_loop_fixed always mask_invalid); [by apply fill_fixed|].
  intros c Hc. unfold column_step, always. rewrite andb_true_r.
  destruct (has_column c d) eqn:Hp; [|done].
  destruct (Hd c Hc Hp) as [Hh Hr].
  unfold mask_invalid. rewrite mask_in_range_id by done.
  by apply set_col_get_col.
Qed.

(** With at most four rows no column has enough values for the outlier
    test: the stage only fills. *)
Lemma outliers_small d :
  (df_len d ≤ 4)%nat → _remove_outliers d = _fill_missing_values d.
Proof.
  intros Hlen. rewrite outliers_as_loop. f_equal.
  apply column_loop_fixed. intros c Hc. unfold column_step, enough_values.
  assert (Hn : (length (dropna (get_col c d)) ≤ 4)%nat).
  { unfold dropna. etransitivity; [apply List.filter_length_le|].
    by rewrite get_col_length. }
  apply Nat.ltb_ge in Hn. rewrite Hn. by rewrite andb_false_r.
Qed.

End CleaningStages.

(** ** The cleaning pipeline *)

Section CleaningPipeline.

Import DataProcessor.

Lemma df_empty_len d : df_empty d = true ↔ df_len d = 0%nat.
Proof. unfold df_empty, df_len. by destruct (df_rows d). Qed.

Lemma df_empty_false_len d : df_empty d = false ↔ df_len d ≠ 0%nat.
Proof. unfold df_empty, df_len. by destruct (df_rows d). Qed.

Lemma before_smoothing_len d ro fm :
  df_len (before_smoothing d ro fm) = df_len d.
Proof.
  unfold before_smoothing.
  destruct ro, fm; by rewrite ?outliers_len, ?invalid_len, ?fill_len.
Qed.

Lemma before_smoothing_has_column c d ro fm :
  has_column c (before_smoothing d ro fm) = has_column c d.
Proof.
  unfold before_smoothing.
  destruct ro, fm;
    by rewrite ?outliers_has_column, ?invalid_has_column, ?fill_has_column.
Qed.

Lemma before_smoothing_scrubbed d ro fm : scrubbed (before_smoothing d ro fm).
Proof.
  unfold before_smoothing.
  destruct ro; [apply outliers_scrubbed|]; apply invalid_scrubbed.
Qed.

(** When the smoothing stage does not run, the pipeline is the three first
    stages and the final sort. *)
Lemma clean_data_unsmoothed d ro fm sm :
  df_empty d = false →
  sm = false ∨ (df_len d ≤ 5)%nat →
  clean_data d ro fm sm = sort_values (before_smoothing d ro fm).
Proof.
  intros Hne Hsm. unfold clean_data. rewrite Hne.
  fold (before_smoothing d ro fm). rewrite before_smoothing_len.
  destruct Hsm as [->|Hlen]; [done|].
  apply Nat.ltb_ge in Hlen. rewrite Hlen. by rewrite andb_false_r.
Qed.

Lemma clean_data_len d ro fm sm :
  sm = false ∨ (df_len d ≤ 5)%nat →
  df_len (clean_data d ro fm sm) = df_len d.
Proof.
  intros Hsm. destruct (df_empty d) eqn:Hne.
  - unfold clean_data. by rewrite Hne.
  - rewrite clean_data_unsmoothed by done.
    by rewrite sort_values_len, before_smoothing_len.
Qed.

Lemma clean_data_scrubbed d ro fm sm :
  df_empty d = false →
  sm = false ∨ (df_len d ≤ 5)%nat →
  scrubbed (clean_data d ro fm sm).
Proof.
  intros Hne Hsm. rewrite clean_data_unsmoothed by done.
  apply sort_scrubbed, before_smoothing_scrubbed.
Qed.

Lemma fill_timestamps d : timestamps (_fill_missing_values d) = timestamps d.
Proof. rewrite fill_as_loop. apply column_loop_timestamps, fill_column_length. Qed.

Lemma before_smoothing_timestamps d ro fm :
  timestamps (before_smoothing d ro fm) = timestamps d.
Proof.
  assert (Hi : ∀ x, timestamps (_remove_invalid_values x) = timestamps x).
  { intros x. rewrite invalid_as_loop, fill_timestamps.
    apply column_loop_timestamps, mask_invalid_length. }
  assert (Ho : ∀ x, timestamps (_remove_outliers x) = timestamps x).
  { intros x. rewrite outliers_as_loop, fill_timestamps.
    apply column_loop_timestamps, mask_outliers_length. }
  unfold before_smoothing.
  destruct ro, fm; by rewrite ?Ho, ?Hi, ?fill_timestamps.
Qed.

(** Being scrubbed does not depend on the order of the rows. *)
Lemma scrubbed_reordered d d' :
  df_columns d' = df_columns d → df_rows d' ≡ₚ df_rows d →
  scrubbed d → scrubbed d'.
Proof.
  intros Hc Hr Hd c Hs Hp.
  assert (Hp' : has_column c d = true).
  { unfold has_column in *. by rewrite <- Hc. }
  destruct (Hd c Hs Hp') as [Hh Hv]. split.
  - unfold holds in *. by rewrite Hr.
  - unfold get_col in *. by rewrite Hr.
Qed.

Lemma same_values_refl l : Samples.same_values l l = true.
Proof.
  induction l as [|x t IH]; simpl; [done|]. rewrite IH, andb_true_r.
  destruct x; simpl; try done. by apply Qeq_bool_iff.
Qed.

(** C3, as the code has it.  Whenever the smoothing stage does not run
    (smoothing not asked for, or at most five readings), every value of
    every sensor column of the cleaned snapshot is there and lies within the
    valid range of its sensor, whatever the other options: the scrub runs
    also when [fill_missing] is false.  In particular, of the temperatures
    20, 1000, 22 the middle one is replaced by the value before it, under
    every combination of the options. *)
Theorem clean_values_in_range :
  (∀ (data : DataFrame) (remove_outliers fill_missing smooth_data : bool)
     (column : string),
     smooth_data = false ∨ (df_len data ≤ 5)%nat →
     column ∈ sensor_columns →
     has_column column data = true →
     Forall (in_range column)
       (get_col column
          (clean_data data remove_outliers fill_missing smooth_data)))
  ∧ (∀ remove_outliers fill_missing smooth_data : bool,
       get_col "temperature"
         (clean_data Samples.invalid_middle
            remove_outliers fill_missing smooth_data)
       = [Fin 20; Fin 20; Fin 22]).
Proof.
  split.
  - intros data remove_outliers fill_missing smooth_data column Hsm Hc Hp.
    destruct (df_empty data) eqn:Hne.
    + unfold clean_data. rewrite Hne. unfold get_col.
      apply df_empty_len in Hne. unfold df_len in Hne.
      apply length_zero_iff_nil in Hne. rewrite Hne. constructor.
    + apply clean_data_scrubbed; [done..|].
      rewrite clean_data_unsmoothed by done.
      change (has_column column (before_smoothing data remove_outliers
                                   fill_missing) = true).
      by rewrite before_smoothing_has_column.
  - intros ro fm sm. destruct ro, fm, sm; vm_compute; reflexivity.
Qed.

End CleaningPipeline.

Section CleaningIdempotence.

Import DataProcessor.

(** A scrubbed frame goes through the stages before the smoothing
    unchanged, when the outlier stage has nothing to test. *)
Lemma before_smoothing_fixed d ro fm :
  scrubbed d →
  ro = false ∨ (df_len d ≤ 4)%nat →
  before_smoothing d ro fm = d.
Proof.
  intros Hd Hro. unfold before_smoothing.
  assert (H1 : (if fm then _fill_missing_values d else d) = d).
  { destruct fm; [by apply fill_fixed|done]. }
  rewrite H1, (invalid_fixed d Hd).
  destruct ro; [|done]. destruct Hro as [?|Hlen]; [done|].
  rewrite outliers_small by done. by apply fill_fixed.
Qed.

(** With pairwise different timestamps, the cleaned snapshot is in strictly
    ascending order of time. *)
Lemma clean_data_strictly_sorted d ro fm sm :
  df_empty d = false →
  sm = false ∨ (df_len d ≤ 5)%nat →
  NoDup (timestamps d) →
  Sorted Z.lt (timestamps (clean_data d ro fm sm)).
Proof.
  intros Hne Hsm Hnd. rewrite clean_data_unsmoothed by done.
  unfold timestamps, sort_values. cbn [df_rows].
  apply strictly_sorted_timestamps, sorted_NoDup_strictly;
    [apply sort_rows_sorted|].
  rewrite sort_rows_perm.
  fold (timestamps (before_smoothing d ro fm)).
  by rewrite before_smoothing_timestamps.
Qed.

(** On a scrubbed snapshot, in whatever order, the pipeline without its
    outlier and smoothing stages is its final sort. *)
Lemma clean_data_of_scrubbed d ro fm sm :
  scrubbed d →
  ro = false ∨ (df_len d ≤ 4)%nat →
  sm = false ∨ (df_len d ≤ 5)%nat →
  clean_data d ro fm sm = sort_values d.
Proof.
  intros Hd Hro Hsm. destruct (df_empty d) eqn:Hne.
  - unfold clean_data. rewrite Hne.
    apply df_empty_len in Hne. unfold df_len in Hne.
    apply length_zero_iff_nil in Hne.
    destruct d as [cols rows]. unfold sort_values. cbn [df_rows] in *.
    by subst rows.
  - rewrite clean_data_unsmoothed by done.
    by rewrite before_smoothing_fixed.
Qed.

(** C1, as the code has it.  Let neither the outlier stage nor the smoothing
    stage have anything to act on: outlier removal not asked for or at most
    four readings, and smoothing not asked for or at most five readings.
    (1) On a snapshot with pairwise different timestamps cleaning is
    idempotent.  (2) On every snapshot a second pass changes no reading:
    whatever order the first pass left the rows of equal timestamp in
    ([once] is the cleaned snapshot in any order of its rows), the second
    pass returns the same columns and the same rows, in ascending order of
    time, and it returns [once] itself when the timestamps of [once] ascend
    strictly.  Only the order among rows of equal timestamp, which the sort
    of pandas does not fix, can differ between the two passes. *)
Theorem clean_idempotent_without_outliers_and_smoothing
    (data : DataFrame) (remove_outliers fill_missing smooth_data : bool) :
  remove_outliers = false ∨ (df_len data ≤ 4)%nat →
  smooth_data = false ∨ (df_len data ≤ 5)%nat →
  let clean d := clean_data d remove_outliers fill_missing smooth_data in
  (NoDup (timestamps data) → clean (clean data) = clean data)
  ∧ ∀ once : DataFrame,
      df_columns once = df_columns (clean data) →
      df_rows once ≡ₚ df_rows (clean data) →
      df_columns (clean once) = df_columns once
      ∧ df_rows (clean once) ≡ₚ df_rows once
      ∧ Sorted ts_le (df_rows (clean once))
      ∧ (Sorted Z.lt (timestamps once) → clean once = once).
Proof.
  intros Hro Hsm clean.
  assert (Hsecond : ∀ once,
            df_columns once = df_columns (clean data) →
            df_rows once ≡ₚ df_rows (clean data) →
            clean once = sort_values once).
  { intros once Hc Hr. subst clean. cbv beta in *.
    assert (Hlen : df_len once = df_len data).
    { unfold df_len at 1. rewrite Hr.
      by apply (clean_data_len data remove_outliers fill_missing
                  smooth_data). }
    destruct (df_empty data) eqn:Hne.
    - assert (Hn : df_empty once = true).
      { apply df_empty_len. rewrite Hlen. by apply df_empty_len. }
      unfold clean_data at 1. rewrite Hn.
      apply df_empty_len in Hn. unfold df_len in Hn.
      apply length_zero_iff_nil in Hn.
      destruct once as [cols rows]. unfold sort_values. cbn [df_rows] in *.
      by subst rows.
    - apply clean_data_of_scrubbed; [|by rewrite Hlen..].
      eapply scrubbed_reordered; [exact Hc|exact Hr|].
      by apply clean_data_scrubbed. }
  assert (Hall : ∀ once : DataFrame,
      df_columns once = df_columns (clean data) →
      df_rows once ≡ₚ df_rows (clean data) →
      df_columns (clean once) = df_columns once
      ∧ df_rows (clean once) ≡ₚ df_rows once
      ∧ Sorted ts_le (df_rows (clean once))
      ∧ (Sorted Z.lt (timestamps once) → clean once = once)).
  { intros once Hc Hr. rewrite (Hsecond once Hc Hr).
    split; [done|]. split; [apply sort_rows_perm|].
    split; [apply StronglySorted_Sorted, sort_rows_sorted|].
    apply sort_values_sorted. }
  split; [|exact Hall].
  intros Hnd. destruct (df_empty data) eqn:Hne.
  - subst clean. cbv beta. unfold clean_data. by rewrite Hne, Hne.
  - destruct (Hall (clean data) eq_refl (reflexivity _)) as (_ & _ & _ & H).
    apply H. subst clean. cbv beta. by apply clean_data_strictly_sorted.
Qed.

Lemma invalid_middle_NoDup : NoDup (timestamps Samples.invalid_middle).
Proof.
  vm_compute. repeat (apply NoDup_cons; split; [set_solver|]).
  apply NoDup_nil. done.
Qed.

Lemma clean_idempotent_without_outliers_and_smoothing_witness :
  let data := Samples.invalid_middle in
  (true = false ∨ (df_len data ≤ 4)%nat) ∧
  (true = false ∨ (df_len data ≤ 5)%nat) ∧
  NoDup (timestamps data) ∧
  clean_data (clean_data data true false true) true false true
  = clean_data data true false true.
Proof.
  assert (H4 : (df_len Samples.invalid_middle ≤ 4)%nat) by (vm_compute; lia).
  assert (H5 : (df_len Samples.invalid_middle ≤ 5)%nat) by (vm_compute; lia).
  split; [by right|]. split; [by right|]. split; [exact invalid_middle_NoDup|].
  exact (proj1 (clean_idempotent_without_outliers_and_smoothing
                  Samples.invalid_middle true false true
                  (or_intror H4) (or_intror H5))
               invalid_middle_NoDup).
Defined.

(** C1 fails as stated.  With outlier removal on (the default options), the
    repair of one outlier narrows the quartiles and turns another value into
    an outlier of the second pass; with smoothing on, the filter is applied
    again to the already smoothed values. *)
Lemma clean_not_idempotent :
  clean_data (clean_data Samples.drifting_outlier true true false)
             true true false
  ≠ clean_data Samples.drifting_outlier true true false
  ∧ clean_data (clean_data Samples.temperature_peak false true true)
               false true true
    ≠ clean_data Samples.temperature_peak false true true.
Proof.
  split; intros H.
  - assert (Hd : Samples.same_values
      (get_col "temperature"
         (clean_data (clean_data Samples.drifting_outlier true true false)
                     true true false))
      (get_col "temperature"
         (clean_data Samples.drifting_outlier true true false)) = false)
      by (vm_compute; reflexivity).
    rewrite H, same_values_refl in Hd. discriminate.
  - assert (Hd : Samples.same_values
      (get_col "temperature"
         (clean_data (clean_data Samples.temperature_peak false true true)
                     false true true))
      (get_col "temperature"
         (clean_data Samples.temperature_peak false true true)) = false)
      by (vm_compute; reflexivity).
    rewrite H, same_values_refl in Hd. discriminate.
Qed.

(** The two passes on the drifting outlier, value by value. *)
Example clean_drifting_outlier_passes :
  get_col "temperature" (clean_data Samples.drifting_outlier true true false)
  = [Fin 0; Fin 0; Fin 1; Fin 0; Fin 0]
  ∧ get_col "temperature"
      (clean_data (clean_data Samples.drifting_outlier true true false)
                  true true false)
    = [Fin 0; Fin 0; Fin 0; Fin 0; Fin 0].
Proof. split; vm_compute; reflexivity. Qed.

Lemma clean_values_in_range_witness :
  let data := Samples.invalid_middle in
  (true = false ∨ (df_len data ≤ 5)%nat) ∧
  "temperature" ∈ sensor_columns ∧
  has_column "temperature" data = true ∧
  Forall (in_range "temperature")
    (get_col "temperature" (clean_data data true false true)).
Proof.
  assert (H5 : (df_len Samples.invalid_middle ≤ 5)%nat) by (vm_compute; lia).
  assert (Hc : "temperature" ∈ sensor_columns) by (unfold sensor_columns; set_solver).
  assert (Hp : has_column "temperature" Samples.invalid_middle = true)
    by (vm_compute; reflexivity).
  split; [by right|]. split; [exact Hc|]. split; [exact Hp|].
  apply (proj1 clean_values_in_range Samples.invalid_middle true false true
           "temperature"); [by right|exact Hc|exact Hp].
Defined.

(** C3 fails as stated.  Smoothing runs after the scrub and its quadratic fit
    overshoots: next to a weight peak of 1000 the smoothed weight is
    negative, outside [0, 1000]. *)
Lemma smoothing_leaves_valid_range :
  ¬ Forall (in_range "weight")
      (get_col "weight" (clean_data Samples.weight_peak false true true)).
Proof.
  intros H.
  assert (Hv : get_col "weight"
                 (clean_data Samples.weight_peak false true true) !! 2%nat
               = Some (Fin (-3000 # 35))) by (vm_compute; reflexivity).
  rewrite Forall_lookup in H. specialize (H _ _ Hv).
  destruct H as [H _]. vm_compute in H. by apply H.
Qed.

End CleaningIdempotence.

(** ** Refused readings and exports *)

Section StoreFailures.

Import DataStorage.

Lemma add_reading_unparsable_unchanged_witness :
  to_datetime Samples.epoch_parser (rd_timestamp Samples.unparsable_reading)
  = Raise ValueError
  ∧ add_reading Samples.epoch_parser Samples.unparsable_reading
      Samples.small_store
    = (false, Samples.small_store).
Proof.
  split; [reflexivity|].
  apply (add_reading_unparsable_unchanged Samples.epoch_parser
           Samples.small_store Samples.unparsable_reading ValueError).
  reflexivity.
Defined.

(** C9 fails as stated.  On the empty store the export returns the empty
    string before it looks at the format: an unsupported format name gets
    the very answer a supported one gets, and no error. *)
Lemma export_unknown_format_on_empty_store :
  lower "xml" ≠ "csv"%string ∧ lower "xml" ≠ "json"%string ∧
  get_data_for_export "xml" init = Ok (Literal "") ∧
  get_data_for_export "csv" init = Ok (Literal "").
Proof. repeat split; try discriminate; reflexivity. Qed.

(** C9, as the code has it.  A format name that is neither "csv" nor "json"
    (in any letter case) raises [ValueError] on every store that holds a
    reading; on the empty store the export is the empty string whatever the
    format name. *)
Theorem export_unsupported_format (s : Store) (format_type : string) :
  lower format_type ≠ "csv"%string →
  lower format_type ≠ "json"%string →
  get_data_for_export format_type s
  = if has_data s then Raise ValueError else Ok (Literal "").
Proof.
  intros Hcsv Hjson. unfold get_data_for_export, has_data.
  destruct (df_empty (_data s)); simpl; [reflexivity|].
  apply String.eqb_neq in Hcsv, Hjson. by rewrite Hcsv, Hjson.
Qed.

Lemma export_unsupported_format_witness :
  lower "XML" ≠ "csv"%string ∧ lower "XML" ≠ "json"%string ∧
  get_data_for_export "XML" Samples.small_store = Raise ValueError.
Proof.
  assert (H1 : lower "XML" ≠ "csv"%string) by discriminate.
  assert (H2 : lower "XML" ≠ "json"%string) by discriminate.
  split; [exact H1|]. split; [exact H2|].
  exact (export_unsupported_format Samples.small_store "XML" H1 H2).
Defined.

End StoreFailures.

(** ** Anomaly detection *)

Section Anomalies.

Import Analytics.

Lemma filter_imap_length {A} (p : A → bool) (l : list A) (k : nat) :
  length (List.filter (λ q, p (snd q)) (imap (λ i v, (k + i, v)%nat) l))
  = length (List.filter p l).
Proof.
  revert k. induction l as [|x t IH]; intros k; [done|].
  cbn [imap List.filter]. simpl snd.
  assert (Ht : imap ((λ i v, ((k + i)%nat, v)) ∘ S) t
               = imap (λ i v, ((S k + i)%nat, v)) t).
  { apply imap_ext. intros i v _. simpl. f_equal. lia. }
  rewrite Ht. destruct (p x); cbn [length]; by rewrite IH.
Qed.

Lemma indexed_values_length l :
  length (indexed_values l) = length (dropna l).
Proof. apply (filter_imap_length notna l 0). Qed.

Lemma anomaly_step_raise data method e cols :
  foldl (anomaly_step data method) (Raise e) cols = Raise e.
Proof. induction cols as [|c cols IH]; [done|]. simpl. exact IH. Qed.

(** With a supported method the record of a column is always built. *)
Lemma anomaly_record_supported method values :
  method = "zscore"%string ∨ method = "iqr"%string →
  ∃ entry, anomaly_record values (anomaly_indices_of method values) = Ok entry.
Proof.
  intros [-> | ->]; unfold anomaly_indices_of, anomaly_record; simpl;
    eexists; reflexivity.
Qed.

(** With any other method [anomaly_indices] is a plain list, and the record
    cannot be built: the list has no [tolist]. *)
Lemma anomaly_record_unsupported method values :
  method ≠ "zscore"%string → method ≠ "iqr"%string →
  anomaly_record values (anomaly_indices_of method values)
  = Raise AttributeError.
Proof.
  intros H1 H2. unfold anomaly_indices_of.
  apply String.eqb_neq in H1, H2. by rewrite H1, H2.
Qed.

Lemma anomaly_step_supported data method anomalies c :
  method = "zscore"%string ∨ method = "iqr"%string →
  ∃ anomalies',
    anomaly_step data method (Ok anomalies) c = Ok anomalies' ∧
    ∀ c', is_Some (anomalies' !! c')
          ↔ is_Some (anomalies !! c') ∨ (c' = c ∧ eligible data c = true).
Proof.
  intros Hm. unfold anomaly_step, eligible.
  destruct (has_column c data); cbn [andb].
  - rewrite indexed_values_length.
    destruct (Nat.ltb_spec (length (dropna (get_col c data))) 3) as [Hlt|Hge].
    + exists anomalies. split; [done|]. intros c'.
      apply Nat.leb_gt in Hlt. rewrite Hlt. naive_solver.
    + destruct (anomaly_record_supported method
                  (indexed_values (get_col c data)) Hm) as [entry ->].
      exists (<[c := entry]> anomalies). split; [done|]. intros c'.
      apply Nat.leb_le in Hge. rewrite Hge.
      destruct (decide (c' = c)) as [->|Hne].
      * rewrite lookup_insert_eq. split; [by right|by eexists].
      * rewrite lookup_insert_ne by done. naive_solver.
  - exists anomalies. split; [done|]. naive_solver.
Qed.

Lemma anomaly_loop_supported data method cols anomalies :
  method = "zscore"%string ∨ method = "iqr"%string →
  ∃ anomalies',
    foldl (anomaly_step data method) (Ok anomalies) cols = Ok anomalies' ∧
    ∀ c, is_Some (anomalies' !! c)
         ↔ is_Some (anomalies !! c) ∨ (c ∈ cols ∧ eligible data c = true).
Proof.
  intros Hm. revert anomalies.
  induction cols as [|x cols IH]; intros anomalies.
  - exists anomalies. split; [done|]. intros c. rewrite elem_of_nil. tauto.
  - destruct (anomaly_step_supported data method anomalies x Hm)
      as (a1 & Hstep & H1).
    destruct (IH a1) as (a2 & Hloop & H2).
    exists a2. cbn [foldl]. rewrite Hstep. split; [exact Hloop|].
    intros c. rewrite H2, H1, elem_of_cons. naive_solver.
Qed.

Lemma anomaly_loop_unsupported data method cols anomalies :
  method ≠ "zscore"%string → method ≠ "iqr"%string →
  foldl (anomaly_step data method) (Ok anomalies) cols
  = if existsb (eligible data) cols then Raise AttributeError
    else Ok anomalies.
Proof.
  intros H1 H2. induction cols as [|x cols IH]; [done|].
  cbn [foldl existsb].
  unfold anomaly_step at 2, eligible at 1.
  destruct (has_column x data); cbn [andb orb]; [|exact IH].
  rewrite indexed_values_length.
  destruct (Nat.ltb_spec (length (dropna (get_col x data))) 3) as [Hlt|Hge].
  - apply Nat.leb_gt in Hlt. rewrite Hlt. exact IH.
  - apply Nat.leb_le in Hge. rewrite Hge. cbn [orb].
    rewrite anomaly_record_unsupported by done.
    apply anomaly_step_raise.
Qed.

(** C10.  On a non-empty snapshot and with a supported method, the result of
    [detect_anomalies] has an entry for a column exactly when the column is
    a sensor column present in the snapshot with at least three values that
    are not missing: a column with fewer is left out, not reported with zero
    anomalies. *)
Theorem detect_anomalies_entries (data : DataFrame) (method : string) :
  df_empty data = false →
  method = "zscore"%string ∨ method = "iqr"%string →
  ∃ anomalies,
    detect_anomalies data method = Ok anomalies ∧
    ∀ column,
      is_Some (anomalies !! column)
      ↔ column ∈ sensor_columns
        ∧ has_column column data = true
        ∧ (3 ≤ length (dropna (get_col column data)))%nat.
Proof.
  intros Hne Hm. unfold detect_anomalies. rewrite Hne.
  destruct (anomaly_loop_supported data method sensor_columns ∅ Hm)
    as (anomalies & Hloop & H).
  exists anomalies. split; [exact Hloop|]. intros column.
  rewrite H, lookup_empty. unfold eligible.
  rewrite andb_true_iff, Nat.leb_le.
  split.
  - intros [[? ?]|?]; [done|tauto].
  - intros ?. right. tauto.
Qed.

(** C7, what the code does.  With a method name other than "zscore" and
    "iqr", [detect_anomalies] raises [AttributeError] as soon as one sensor
    column has three values: the branch for an unknown method binds
    [anomaly_indices] to a plain list, and the record that follows calls
    [tolist] on it. *)
Theorem detect_anomalies_unknown_method_raises
    (data : DataFrame) (method column : string) :
  method ≠ "zscore"%string → method ≠ "iqr"%string →
  column ∈ sensor_columns →
  has_column column data = true →
  (3 ≤ length (dropna (get_col column data)))%nat →
  detect_anomalies data method = Raise AttributeError.
Proof.
  intros H1 H2 Hc Hp Hlen. unfold detect_anomalies.
  assert (Hne : df_empty data = false).
  { apply df_empty_false_len. rewrite <- (get_col_length column).
    pose proof (List.filter_length_le notna (get_col column data)) as Hle.
    unfold dropna in Hlen. lia. }
  rewrite Hne, anomaly_loop_unsupported by done.
  assert (He : existsb (eligible data) sensor_columns = true).
  { apply existsb_exists. exists column. split.
    - by apply list_elem_of_In.
    - unfold eligible. rewrite Hp. cbn [andb]. by apply Nat.leb_le. }
  by rewrite He.
Qed.

End Anomalies.

Section AnomalyExamples.

Import Analytics.

Lemma detect_anomalies_entries_witness :
  df_empty Samples.linear_temperature = false ∧
  ("iqr" = "zscore" ∨ "iqr" = "iqr")%string ∧
  ∃ anomalies,
    detect_anomalies Samples.linear_temperature "iqr" = Ok anomalies ∧
    ∀ column,
      is_Some (anomalies !! column)
      ↔ column ∈ sensor_columns
        ∧ has_column column Samples.linear_temperature = true
        ∧ (3 ≤ length (dropna (get_col column Samples.linear_temperature)))%nat.
Proof.
  split; [reflexivity|]. split; [by right|].
  apply (detect_anomalies_entries Samples.linear_temperature "iqr");
    [reflexivity|by right].
Defined.

(** The pressure column of the sample has two values only: it has no entry,
    the other three columns have one. *)
Example detect_anomalies_sparse_column :
  match detect_anomalies Samples.linear_temperature "zscore" with
  | Ok anomalies => Some (map fst (items anomalies))
  | Raise _ => None
  end
  = Some ["temperature"; "weight"; "moisture"]%string.
Proof. vm_compute. reflexivity. Qed.

Lemma detect_anomalies_unknown_method_raises_witness :
  "isolation" ≠ "zscore"%string ∧ "isolation" ≠ "iqr"%string ∧
  "temperature" ∈ sensor_columns ∧
  has_column "temperature" Samples.linear_temperature = true ∧
  (3 ≤ length (dropna (get_col "temperature" Samples.linear_temperature)))%nat ∧
  detect_anomalies Samples.linear_temperature "isolation"
  = Raise AttributeError.
Proof.
  assert (H1 : "isolation" ≠ "zscore"%string) by discriminate.
  assert (H2 : "isolation" ≠ "iqr"%string) by discriminate.
  assert (Hc : "temperature" ∈ sensor_columns)
    by (unfold sensor_columns; set_solver).
  assert (Hp : has_column "temperature" Samples.linear_temperature = true)
    by reflexivity.
  assert (Hl : (3 ≤ length (dropna (get_col "temperature"
                                      Samples.linear_temperature)))%nat)
    by (vm_compute; lia).
  repeat (split; [assumption|]).
  exact (detect_anomalies_unknown_method_raises Samples.linear_temperature
           "isolation" "temperature" H1 H2 Hc Hp Hl).
Defined.

End AnomalyExamples.

(** ** The empty snapshot *)

Section EmptySnapshot.

Import Analytics.

(** C4 fails as stated: on the empty snapshot [generate_insights] returns a
    list of one message, "No data available for analysis", not an empty
    list. *)
Lemma generate_insights_empty_not_empty :
  generate_insights Samples.empty_snapshot = Ok [NoData]
  ∧ generate_insights Samples.empty_snapshot ≠ Ok [].
Proof. split; [reflexivity|discriminate]. Qed.

(** C4, as the code has it.  On a snapshot without rows no operation of the
    analytics raises; the six that return a dict return the empty dict, and
    [generate_insights] returns the single message "No data available for
    analysis". *)
Theorem analytics_on_empty_snapshot (columns : gset string) (method : string) :
  let data := mkDF columns [] in
  calculate_statistics data = ∅
  ∧ analyze_trends data = Ok ∅
  ∧ detect_anomalies data method = Ok ∅
  ∧ calculate_sensor_health data = ∅
  ∧ analyze_correlations data = None
  ∧ generate_insights data = Ok [NoData]
  ∧ get_performance_metrics data = Ok ∅.
Proof. repeat split. Qed.

End EmptySnapshot.

(** ** Sensor health *)

Section SensorHealth.

Import Analytics.

Lemma health_loop_lookup data cols (m : gmap string HealthRecord) c :
  foldl (λ acc column,
           if has_column column data
           then <[column := health_record (get_col column data)]> acc
           else acc) m cols !! c
  = if bool_decide (c ∈ cols) && has_column c data
    then Some (health_record (get_col c data))
    else m !! c.
Proof.
  revert m. induction cols as [|x cols IH]; intros m; [done|].
  cbn [foldl]. rewrite IH.
  destruct (decide (c = x)) as [->|Hne].
  - rewrite (bool_decide_eq_true_2 (x ∈ x :: cols)) by left.
    destruct (has_column x data) eqn:Hp.
    + rewrite lookup_insert_eq. by destruct (bool_decide _).
    + by rewrite !andb_false_r.
  - assert (Hin : bool_decide (c ∈ x :: cols) = bool_decide (c ∈ cols)).
    { apply bool_decide_ext. rewrite elem_of_cons. naive_solver. }
    rewrite Hin. destruct (_ && _); [done|].
    destruct (has_column x data); [|done]. by rewrite lookup_insert_ne.
Qed.

(** The entry of a column in the result of [calculate_sensor_health]. *)
Lemma calculate_sensor_health_lookup data c :
  calculate_sensor_health data !! c
  = if negb (df_empty data) && bool_decide (c ∈ sensor_columns)
       && has_column c data
    then Some (health_record (get_col c data))
    else None.
Proof.
  unfold calculate_sensor_health. destruct (df_empty data); [done|].
  unfold for_sensor_columns. rewrite health_loop_lookup. simpl.
  by destruct (_ && _).
Qed.

Lemma not_negative_fadd a b :
  not_negative a → not_negative b → not_negative (fadd a b).
Proof.
  destruct a as [| | |x], b as [| | |y]; simpl; try done.
  intros. lra.
Qed.

(** The share of a stability in the score is never negative. *)
Lemma stability_share_not_negative cv :
  not_negative
    (fmul (fsub (of_Z 100) (py_min cv (of_Z 100))) (Fin (3 # 10))).
Proof.
  destruct cv as [| | |q]; try (vm_compute; done).
  unfold py_min, of_Z. cbn [fltb].
  destruct (Qltb (inject_Z 100) q) eqn:E; cbn [fsub fopp fadd fmul not_negative].
  - vm_compute. discriminate.
  - apply Qltb_false in E.
    assert (H100 : inject_Z 100 == 100) by reflexivity. lra.
Qed.

Lemma py_min_100_range a :
  not_negative a →
  ∃ q, py_min (of_Z 100) a = Fin q ∧ (0 <= q)%Q ∧ (q <= 100)%Q.
Proof.
  destruct a as [| | |x]; simpl; try done; intros H.
  - exists (inject_Z 100). split; [done|]. split; by vm_compute.
  - exists (inject_Z 100). split; [done|]. split; by vm_compute.
  - unfold py_min, of_Z. cbn [fltb].
    destruct (Qltb x (inject_Z 100)) eqn:E.
    + exists x. split; [done|]. split; [done|].
      apply Qltb_true in E. apply Qlt_le_weak. exact E.
    + exists (inject_Z 100). split; [done|]. split; by vm_compute.
Qed.

Lemma availability_not_negative (values : list num) :
  not_negative
    (fmul (fmul (fdiv (of_nat (length (dropna values)))
                      (of_nat (length values))) (of_Z 100))
          (Fin (4 # 10))).
Proof.
  unfold of_nat, of_Z.
  set (a := inject_Z (Z.of_nat (length (dropna values)))).
  set (b := inject_Z (Z.of_nat (length values))).
  assert (Ha : (0 <= a)%Q).
  { unfold a. rewrite <- (Zle_Qle 0). lia. }
  assert (Hb : (0 <= b)%Q).
  { unfold b. rewrite <- (Zle_Qle 0). lia. }
  cbn [fdiv].
  destruct (Qeq_bool b 0) eqn:Eb.
  - destruct (Qeq_bool a 0) eqn:Ea; [by vm_compute|].
    destruct (Qltb 0 a) eqn:El; [by vm_compute|].
    apply Qltb_false in El. apply Qeq_bool_neq in Ea.
    exfalso. apply Ea. lra.
  - cbn [fmul not_negative].
    apply Qeq_bool_neq in Eb.
    assert (Hpos : (0 < b)%Q) by lra.
    assert (Hq : (0 <= a / b)%Q).
    { apply Qle_shift_div_l; [done|]. lra. }
    assert (H100 : inject_Z 100 == 100) by reflexivity.
    nra.
Qed.

(** The score before rounding is a number between 0 and 100. *)
Lemma raw_health_score_range values :
  ∃ q, raw_health_score values = Fin q ∧ (0 <= q)%Q ∧ (q <= 100)%Q.
Proof.
  unfold raw_health_score. apply py_min_100_range.
  repeat apply not_negative_fadd.
  - apply availability_not_negative.
  - apply stability_share_not_negative.
  - apply stability_share_not_negative.
Qed.

End SensorHealth.

Section Rounding.

Lemma Qrint_range (a b : Z) (x : Q) :
  (inject_Z a <= x)%Q → (x <= inject_Z b)%Q → (a ≤ Qrint x ≤ b)%Z.
Proof.
  intros Ha Hb. unfold Qrint.
  pose proof (Qfloor_le x) as Hf. pose proof (Qlt_floor x) as Hc.
  assert (Hlo : (a ≤ Qfloor x)%Z).
  { assert (H : (inject_Z a < inject_Z (Qfloor x + 1))%Q) by lra.
    rewrite <- Zlt_Qlt in H. lia. }
  assert (Hhi : (Qfloor x ≤ b)%Z).
  { assert (H : (inject_Z (Qfloor x) <= inject_Z b)%Q) by lra.
    by rewrite <- Zle_Qle in H. }
  assert (Hup : (1 # 2 <= x - inject_Z (Qfloor x))%Q → (Qfloor x + 1 ≤ b)%Z).
  { intros Hd.
    assert (H : (inject_Z (Qfloor x) < inject_Z b)%Q) by lra.
    rewrite <- Zlt_Qlt in H. lia. }
  destruct (Qltb (x - inject_Z (Qfloor x)) (1 # 2)) eqn:E1; [lia|].
  apply Qltb_false in E1. specialize (Hup E1).
  destruct (Qltb (1 # 2) (x - inject_Z (Qfloor x))); [lia|].
  destruct (Z.even (Qfloor x)); lia.
Qed.

(** Rounding to two decimals stays between 0 and 100. *)
Lemma fround2_range q :
  (0 <= q)%Q → (q <= 100)%Q →
  ∃ q', fround 2 (Fin q) = Fin q' ∧ (0 <= q')%Q ∧ (q' <= 100)%Q.
Proof.
  intros H0 H100. unfold fround. eexists. split; [reflexivity|].
  change (inject_Z (10 ^ Z.of_nat 2)) with (inject_Z 100).
  assert (Hs : inject_Z 100 == 100) by reflexivity.
  destruct (Qrint_range 0 10000 (q * inject_Z 100)) as [Hlo Hhi].
  - change (inject_Z 0) with 0%Q. nra.
  - assert (Hs' : inject_Z 10000 == 10000) by reflexivity. nra.
  - rewrite Zle_Qle in Hlo, Hhi.
    set (r := inject_Z (Qrint (q * inject_Z 100))) in *.
    change (inject_Z 0) with 0%Q in Hlo.
    assert (Hs' : inject_Z 10000 == 10000) by reflexivity.
    split.
    + apply Qle_shift_div_l; lra.
    + apply Qle_shift_div_r; lra.
Qed.

End Rounding.

(** ** Arithmetic on floats that are rationals *)

Section FiniteArithmetic.

Lemma is_fin_Fin q : is_fin (Fin q) q.
Proof. by exists q. Qed.

Lemma is_fin_eq a t t' : is_fin a t → t == t' → is_fin a t'.
Proof. intros (q & -> & Hq) Ht. exists q. split; [done|]. by rewrite Hq. Qed.

Lemma is_fin_notna a t : is_fin a t → notna a = true.
Proof. by intros (q & -> & _). Qed.

Lemma is_fin_of_nat n : is_fin (of_nat n) (inject_Z (Z.of_nat n)).
Proof. apply is_fin_Fin. Qed.

Lemma is_fin_of_Z z : is_fin (of_Z z) (inject_Z z).
Proof. apply is_fin_Fin. Qed.

Lemma is_fin_fadd a b x y :
  is_fin a x → is_fin b y → is_fin (fadd a b) (x + y).
Proof.
  intros (p & -> & Hp) (q & -> & Hq). exists (p + q)%Q.
  split; [done|]. by rewrite Hp, Hq.
Qed.

Lemma is_fin_fsub a b x y :
  is_fin a x → is_fin b y → is_fin (fsub a b) (x - y).
Proof.
  intros (p & -> & Hp) (q & -> & Hq). exists (p + - q)%Q.
  split; [done|]. rewrite Hp, Hq. reflexivity.
Qed.

Lemma is_fin_fmul a b x y :
  is_fin a x → is_fin b y → is_fin (fmul a b) (x * y).
Proof.
  intros (p & -> & Hp) (q & -> & Hq). exists (p * q)%Q.
  split; [done|]. by rewrite Hp, Hq.
Qed.

Lemma is_fin_fsquare a x : is_fin a x → is_fin (fsquare a) (x * x).
Proof. intros H. by apply is_fin_fmul. Qed.

Lemma is_fin_fdiv a b x y :
  is_fin a x → is_fin b y → ¬ y == 0 → is_fin (fdiv a b) (x / y).
Proof.
  intros (p & -> & Hp) (q & -> & Hq) Hy. exists (p / q)%Q.
  split; [|by rewrite Hp, Hq].
  cbn [fdiv]. destruct (Qeq_bool q 0) eqn:E; [|done].
  apply Qeq_bool_iff in E. exfalso. apply Hy. by rewrite <- Hq.
Qed.

Lemma Qsqrt_zero x : x == 0 → Qsqrt x == 0.
Proof.
  unfold Qeq. simpl. intros H. unfold Qsqrt.
  assert (Hn : Qnum x = 0%Z) by lia. rewrite Hn. reflexivity.
Qed.

Lemma is_fin_fsqrt_zero a : is_fin a 0 → is_fin (fsqrt a) 0.
Proof.
  intros (q & -> & Hq). exists (Qsqrt q). cbn [fsqrt].
  rewrite (Qltb_ge q 0) by (rewrite Hq; apply Qle_refl).
  split; [done|]. by apply Qsqrt_zero.
Qed.

Lemma is_fin_fsum_zero l :
  Forall (λ v, is_fin v 0) l → is_fin (fsum l) 0.
Proof.
  induction 1 as [|v t Hv Ht IH]; simpl.
  - apply is_fin_Fin.
  - eapply is_fin_eq; [by apply is_fin_fadd|]. lra.
Qed.

Lemma is_fin_fsum_const l c :
  Forall (λ v, is_fin v c) l →
  is_fin (fsum l) (inject_Z (Z.of_nat (length l)) * c).
Proof.
  induction 1 as [|v t Hv Ht IH].
  - simpl. eapply is_fin_eq; [apply is_fin_Fin|].
    change (inject_Z (Z.of_nat 0)) with 0%Q. ring.
  - cbn [fsum foldr length]. fold (fsum t).
    eapply is_fin_eq; [by apply is_fin_fadd|].
    rewrite Nat2Z.inj_succ, <- Z.add_1_r, inject_Z_plus.
    change (inject_Z 1) with 1%Q. ring.
Qed.

Lemma dropna_all_fin l c : Forall (λ v, is_fin v c) l → dropna l = l.
Proof.
  induction 1 as [|v t Hv Ht IH]; simpl; [done|].
  rewrite (is_fin_notna _ _ Hv). by f_equal.
Qed.

Lemma inject_Z_of_nat_pos n : (0 < n)%nat → ¬ inject_Z (Z.of_nat n) == 0.
Proof.
  intros Hn H. unfold Qeq in H. simpl in H. lia.
Qed.

(** The mean of a constant column is the constant. *)
Lemma mean_const l c :
  l ≠ [] → Forall (λ v, is_fin v c) l → is_fin (mean l) c.
Proof.
  intros Hne Hl. unfold mean. rewrite (dropna_all_fin l c Hl).
  destruct l as [|v t]; [done|].
  assert (Hn : ¬ inject_Z (Z.of_nat (length (v :: t))) == 0)
    by (apply inject_Z_of_nat_pos; simpl; lia).
  eapply is_fin_eq.
  - apply is_fin_fdiv; [by apply is_fin_fsum_const|apply is_fin_of_nat|done].
  - field. exact Hn.
Qed.

(** The standard deviation of a constant column is missing when the column
    has one value, and zero otherwise. *)
Lemma pd_std_const l c :
  Forall (λ v, is_fin v c) l →
  pd_std l = NaN ∨ is_fin (pd_std l) 0.
Proof.
  intros Hl. unfold pd_std, var. rewrite (dropna_all_fin l c Hl).
  destruct (Nat.leb_spec (length l) 1) as [Hle|Hgt]; [by left|]. right.
  apply is_fin_fsqrt_zero.
  assert (Hne : l ≠ []) by (destruct l; [simpl in Hgt; lia|done]).
  pose proof (mean_const l c Hne Hl) as Hm.
  eapply is_fin_eq.
  - apply is_fin_fdiv; [|apply is_fin_of_nat|apply inject_Z_of_nat_pos; lia].
    apply is_fin_fsum_zero. apply Forall_map.
    eapply Forall_impl; [exact Hl|]. intros v Hv. simpl.
    eapply is_fin_eq; [apply is_fin_fsquare, is_fin_fsub; [exact Hv|exact Hm]|].
    ring.
  - field. apply inject_Z_of_nat_pos. lia.
Qed.

End FiniteArithmetic.

Section ConstantColumns.

Import Analytics.

Lemma stability_const_nonzero l c :
  l ≠ [] → constant_column c l → ¬ c == 0 →
  stability l = NaN ∨ is_fin (stability l) 0.
Proof.
  intros Hne Hl Hc. unfold stability.
  destruct (mean_const l c Hne Hl) as (m & Hm & Hmc). rewrite Hm.
  assert (Hm0 : ¬ m == 0) by (by rewrite Hmc).
  unfold fneb. cbn [feqb].
  destruct (Qeq_bool m 0) eqn:E; [by apply Qeq_bool_iff in E|]. cbn [negb].
  destruct (pd_std_const l c Hl) as [->|Hs]; [by left|]. right.
  eapply is_fin_eq.
  - apply is_fin_fmul; [|apply is_fin_of_Z].
    apply is_fin_fdiv; [exact Hs|by exists m|exact Hc].
  - field. exact Hc.
Qed.

Lemma stability_const_zero l c :
  l ≠ [] → constant_column c l → c == 0 → stability l = of_Z 100.
Proof.
  intros Hne Hl Hc. unfold stability.
  destruct (mean_const l c Hne Hl) as (m & Hm & Hmc). rewrite Hm.
  unfold fneb. cbn [feqb].
  assert (E : Qeq_bool m 0 = true) by (apply Qeq_bool_iff; by rewrite Hmc).
  by rewrite E.
Qed.

(** The share of a stability that is zero (or missing) in the score. *)
Lemma share_of_zero cv :
  cv = NaN ∨ is_fin cv 0 →
  let share := fmul (fsub (of_Z 100) (py_min cv (of_Z 100))) (Fin (3 # 10)) in
  share = NaN ∨ is_fin share 30.
Proof.
  intros [->|(z & -> & Hz)]; [by left|]. right.
  unfold py_min, of_Z. cbn [fltb].
  rewrite (Qltb_ge (inject_Z 100) z)
    by (rewrite Hz; by vm_compute).
  eapply is_fin_eq.
  - apply is_fin_fmul; [|apply is_fin_Fin].
    apply is_fin_fsub; [apply is_fin_Fin|by exists z].
  - reflexivity.
Qed.

Lemma share_of_hundred :
  is_fin (fmul (fsub (of_Z 100) (py_min (of_Z 100) (of_Z 100))) (Fin (3 # 10)))
         0.
Proof. eapply is_fin_eq; [apply is_fin_Fin|]. reflexivity. Qed.

Lemma availability_full l c :
  l ≠ [] → constant_column c l →
  is_fin (fmul (fmul (fdiv (of_nat (length (dropna l))) (of_nat (length l)))
                     (of_Z 100)) (Fin (4 # 10))) 40.
Proof.
  intros Hne Hl. rewrite (dropna_all_fin l c Hl).
  assert (Hn : ¬ inject_Z (Z.of_nat (length l)) == 0).
  { apply inject_Z_of_nat_pos. destruct l; [done|simpl; lia]. }
  eapply is_fin_eq.
  - apply is_fin_fmul; [|apply is_fin_Fin].
    apply is_fin_fmul; [|apply is_fin_of_Z].
    apply is_fin_fdiv; [apply is_fin_of_nat|apply is_fin_of_nat|exact Hn].
  - change (inject_Z 100) with 100%Q. field. exact Hn.
Qed.

Lemma tail_values_const n l c :
  constant_column c l → constant_column c (tail_values n l).
Proof. intros H. unfold tail_values. by apply Forall_drop. Qed.

Lemma tail_values_nonempty n l :
  l ≠ [] → (0 < n)%nat → tail_values n l ≠ [].
Proof.
  intros Hl Hn H. apply (f_equal length) in H.
  unfold tail_values in H. rewrite length_drop in H. simpl in H.
  destruct l; [done|]. simpl in H. lia.
Qed.

Lemma py_min_100_of a b c :
  is_fin a 40 → b = NaN ∨ is_fin b 30 → c = NaN ∨ is_fin c 30 →
  py_min (of_Z 100) (fadd (fadd a b) c) = of_Z 100.
Proof.
  intros (x & -> & Hx) [->|(y & -> & Hy)] [->|(z & -> & Hz)]; try done.
  unfold py_min, of_Z. cbn [fadd fltb].
  rewrite Qltb_ge; [done|]. rewrite Hx, Hy, Hz. by vm_compute.
Qed.

(** The score of a constant column whose value is not zero is 100. *)
Lemma raw_health_score_const_nonzero l c :
  l ≠ [] → constant_column c l → ¬ c == 0 →
  raw_health_score l = of_Z 100.
Proof.
  intros Hne Hl Hc. unfold raw_health_score.
  apply py_min_100_of.
  - by apply (availability_full l c).
  - by apply share_of_zero, (stability_const_nonzero l c).
  - apply share_of_zero, (stability_const_nonzero _ c); [|by apply tail_values_const|done].
    apply tail_values_nonempty; [done|lia].
Qed.

(** The score of a column that is constantly zero is 40: both stabilities
    are taken to be 100. *)
Lemma raw_health_score_const_zero l c :
  l ≠ [] → constant_column c l → c == 0 →
  is_fin (raw_health_score l) 40.
Proof.
  intros Hne Hl Hc. unfold raw_health_score.
  rewrite (stability_const_zero l c) by done.
  rewrite (stability_const_zero (tail_values _ l) c);
    [|apply tail_values_nonempty; [done|lia]|by apply tail_values_const|done].
  destruct (availability_full l c Hne Hl) as (a & -> & Ha).
  destruct share_of_hundred as (s & -> & Hs).
  unfold py_min, of_Z. cbn [fadd fltb].
  rewrite Qltb_lt by (rewrite Ha, Hs; by vm_compute).
  eexists. split; [reflexivity|]. rewrite Ha, Hs. reflexivity.
Qed.

Lemma Qrint_comp x y : x == y → Qrint x = Qrint y.
Proof.
  intros H. unfold Qrint. rewrite (Qfloor_comp x y H).
  assert (Hd : x - inject_Z (Qfloor y) == y - inject_Z (Qfloor y))
    by (by rewrite H).
  unfold Qltb. by rewrite !(Qleb_comp _ _ (reflexivity _) _ _ Hd),
                          !(Qleb_comp _ _ Hd _ _ (reflexivity _)).
Qed.

Lemma fround2_is_fin a (t : Z) :
  is_fin a (inject_Z t) → is_fin (fround 2 a) (inject_Z t).
Proof.
  intros (q & -> & Hq). unfold fround. eexists. split; [reflexivity|].
  change (inject_Z (10 ^ Z.of_nat 2)) with (inject_Z 100).
  assert (Hr : Qrint (q * inject_Z 100) = (t * 100)%Z).
  { rewrite (Qrint_comp _ (inject_Z (t * 100))).
    - unfold Qrint. rewrite Qfloor_Z.
      assert (Hd : inject_Z (t * 100) - inject_Z (t * 100) == 0) by ring.
      unfold Qltb.
      rewrite (Qleb_comp _ _ (reflexivity (1 # 2)) _ _ Hd). done.
    - rewrite Hq, inject_Z_mult. reflexivity. }
  rewrite Hr, inject_Z_mult. field.
Qed.

Lemma health_status_comp q t :
  q == t → health_status (Fin q) = health_status (Fin t).
Proof.
  intros H. unfold health_status, fgeb, of_Z. cbn [fleb].
  by rewrite !(Qleb_comp _ _ (reflexivity _) _ _ H).
Qed.

(** C5, as the code has it.  Every present sensor column of a non-empty
    snapshot has a health score, and the score lies within [0, 100].  For a
    column without missing values and without variance the score is exactly
    100 and the status "Excellent" when the constant value is not zero; when
    it is zero, the guard on a zero mean sets both stabilities to 100 and
    the score is 40, the status "Poor". *)
Theorem sensor_health_range_and_constant_columns
    (data : DataFrame) (column : string) :
  df_empty data = false →
  column ∈ sensor_columns →
  has_column column data = true →
  ∃ h,
    calculate_sensor_health data !! column = Some h
    ∧ (∃ q, health_score h = Fin q ∧ (0 <= q)%Q ∧ (q <= 100)%Q)
    ∧ ∀ c, constant_column c (get_col column data) →
           if Qeq_bool c 0
           then is_fin (health_score h) 40 ∧ status h = "Poor"%string
           else is_fin (health_score h) 100 ∧ status h = "Excellent"%string.
Proof.
  intros Hne Hc Hp. rewrite calculate_sensor_health_lookup.
  rewrite Hne, Hp, (bool_decide_eq_true_2 _ Hc). cbn [negb andb].
  eexists. split; [reflexivity|].
  set (l := get_col column data).
  assert (Hl : l ≠ []).
  { intros H. apply (f_equal length) in H. unfold l in H.
    rewrite get_col_length in H. by apply df_empty_false_len in Hne. }
  unfold health_record. cbn [health_score status]. split.
  - destruct (raw_health_score_range l) as (q & -> & H0 & H100).
    by apply fround2_range.
  - intros c Hconst. destruct (Qeq_bool c 0) eqn:E.
    + apply Qeq_bool_iff in E.
      pose proof (raw_health_score_const_zero l c Hl Hconst E) as Hs.
      split; [by apply (fround2_is_fin _ 40)|].
      destruct Hs as (q & -> & Hq). by rewrite (health_status_comp q 40).
    + apply Qeq_bool_neq in E.
      rewrite (raw_health_score_const_nonzero l c Hl Hconst E).
      split; [|reflexivity].
      apply (fround2_is_fin _ 100), is_fin_of_Z.
Qed.

End ConstantColumns.

Section ConstantColumnExamples.

Import Analytics.

Lemma sensor_health_range_and_constant_columns_witness :
  df_empty Samples.linear_temperature = false ∧
  "weight" ∈ sensor_columns ∧
  has_column "weight" Samples.linear_temperature = true ∧
  ∃ h,
    calculate_sensor_health Samples.linear_temperature !! "weight" = Some h
    ∧ (∃ q, health_score h = Fin q ∧ (0 <= q)%Q ∧ (q <= 100)%Q)
    ∧ ∀ c, constant_column c (get_col "weight" Samples.linear_temperature) →
           if Qeq_bool c 0
           then is_fin (health_score h) 40 ∧ status h = "Poor"%string
           else is_fin (health_score h) 100 ∧ status h = "Excellent"%string.
Proof.
  assert (Hc : "weight" ∈ sensor_columns)
    by (unfold sensor_columns; set_solver).
  split; [reflexivity|]. split; [exact Hc|]. split; [reflexivity|].
  exact (sensor_health_range_and_constant_columns Samples.linear_temperature
           "weight" eq_refl Hc eq_refl).
Defined.

(** C5 fails as stated for a column that is constantly zero: the moisture of
    the sample has no missing value and no variance, and its health score
    is 40, its status "Poor". *)
Lemma zero_column_health_is_poor :
  constant_column 0 (get_col "moisture" Samples.linear_temperature)
  ∧ ∃ h,
      calculate_sensor_health Samples.linear_temperature !! "moisture" = Some h
      ∧ is_fin (health_score h) 40
      ∧ status h = "Poor"%string.
Proof.
  split.
  - repeat constructor; apply is_fin_Fin.
  - eexists. split; [vm_compute; reflexivity|]. split; [|reflexivity].
    eexists. split; [reflexivity|]. reflexivity.
Qed.

End ConstantColumnExamples.

(** ** Sums of rationals and the square root *)

Section RationalSums.

#[local] Open Scope Q_scope.

Lemma Qsum_map_ext {A} (f g : A → Q) (l : list A) :
  Forall (λ a, f a == g a) l → Qsum (map f l) == Qsum (map g l).
Proof.
  induction 1 as [|a t Ha Ht IH]; simpl; [reflexivity|].
  fold (Qsum (map f t)) (Qsum (map g t)). by rewrite Ha, IH.
Qed.

Lemma Qsum_map_scale {A} (k : Q) (f : A → Q) (l : list A) :
  Qsum (map (λ a, k * f a) l) == k * Qsum (map f l).
Proof.
  induction l as [|a t IH]; simpl; [ring|].
  fold (Qsum (map (λ a, k * f a) t)) (Qsum (map f t)). rewrite IH. ring.
Qed.

Lemma Qsum_map_affine (k c : Q) (l : list Q) :
  Qsum (map (λ x, k * x + c) l)
  == k * Qsum l + inject_Z (Z.of_nat (length l)) * c.
Proof.
  induction l as [|a t IH].
  - simpl. change (inject_Z (Z.of_nat 0)) with 0. ring.
  - cbn [map Qsum foldr length].
    fold (Qsum (map (λ x, k * x + c) t)) (Qsum t). rewrite IH.
    rewrite Nat2Z.inj_succ, <- Z.add_1_r, inject_Z_plus.
    change (inject_Z 1) with 1. ring.
Qed.

Lemma Qsum_nonneg (l : list Q) : Forall (λ q, 0 <= q) l → 0 <= Qsum l.
Proof.
  induction 1 as [|a t Ha Ht IH]; simpl; [apply Qle_refl|].
  fold (Qsum t). lra.
Qed.

Lemma Qsum_pos (l : list Q) :
  Forall (λ q, 0 <= q) l → Exists (λ q, 0 < q) l → 0 < Qsum l.
Proof.
  intros Hl He. induction He as [a t Ha|a t He IH]; simpl; fold (Qsum t).
  - apply Forall_cons in Hl as [_ Hl]. pose proof (Qsum_nonneg t Hl). lra.
  - apply Forall_cons in Hl as [Ha Hl]. specialize (IH Hl). lra.
Qed.

(** The square root is rounded down, and is zero only at zero. *)
Lemma Qsqrt_square_le (x : Q) : 0 <= x → Qsqrt x * Qsqrt x <= x.
Proof.
  destruct x as [n d]. unfold Qle, Qsqrt, Qmult. simpl. intros Hn.
  assert (Hn' : (0 ≤ n)%Z) by lia.
  set (S := Zpos sqrt_scale).
  assert (HS : (0 < S)%Z) by done.
  assert (Hd : (0 < Zpos d)%Z) by done.
  pose proof (Z.sqrt_spec (n * Zpos d * (S * S))) as Hs.
  assert (Hm : (0 ≤ n * Zpos d * (S * S))%Z) by nia.
  specialize (Hs Hm). simpl in Hs. destruct Hs as [Hs _].
  set (s := Z.sqrt (n * Zpos d * (S * S))) in *.
  rewrite !Pos2Z.inj_mul. fold S. nia.
Qed.

Lemma Qsqrt_nonneg (x : Q) : 0 <= Qsqrt x.
Proof.
  unfold Qle, Qsqrt. simpl. rewrite Z.mul_1_r. apply Z.sqrt_nonneg.
Qed.

Lemma Qsqrt_pos (x : Q) : 0 < x → 0 < Qsqrt x.
Proof.
  destruct x as [n d]. unfold Qlt, Qsqrt. simpl. intros Hn.
  rewrite Z.mul_1_r in *. apply Z.sqrt_pos.
  assert (HS : (0 < Zpos sqrt_scale)%Z) by done.
  assert (Hd : (0 < Zpos d)%Z) by done. nia.
Qed.

End RationalSums.

(** ** Columns of rationals *)

Section RationalColumns.

#[local] Open Scope Q_scope.

Lemma is_fin_fsum l ts : Forall2 is_fin l ts → is_fin (fsum l) (Qsum ts).
Proof.
  induction 1 as [|a t l ts Ha Hl IH]; simpl.
  - apply is_fin_Fin.
  - by apply is_fin_fadd.
Qed.

Lemma is_fin_np_mean l ts :
  Forall2 is_fin l ts → l ≠ [] → is_fin (np_mean l) (Qmean ts).
Proof.
  intros Hl Hne. unfold np_mean, Qmean.
  rewrite <- (Forall2_length _ _ _ Hl).
  apply is_fin_fdiv; [by apply is_fin_fsum|apply is_fin_of_nat|].
  apply inject_Z_of_nat_pos. destruct l; [done|simpl; lia].
Qed.

Lemma Forall2_map_both {A B C D} (R : A → B → Prop) (R' : C → D → Prop)
    (f : A → C) (g : B → D) l ts :
  (∀ a b, R a b → R' (f a) (g b)) →
  Forall2 R l ts → Forall2 R' (map f l) (map g ts).
Proof.
  intros Hfg. induction 1; simpl; constructor; auto.
Qed.

Lemma dropna_fin l ts : Forall2 is_fin l ts → dropna l = l.
Proof.
  induction 1 as [|a t l ts Ha Hl IH]; simpl; [done|].
  rewrite (is_fin_notna _ _ Ha). by f_equal.
Qed.

(** The largest and the smallest value of a column of rationals bound every
    value of the column. *)
Lemma foldl_max_bound (l : list num) (ts : list Q) (m0 : Q) :
  Forall2 is_fin l ts →
  ∃ m, foldl (λ m v, if fgtb v m then v else m) (Fin m0) l = Fin m
       ∧ m0 <= m ∧ Forall (λ t, t <= m) ts.
Proof.
  intros Hl. revert m0.
  induction Hl as [|a t l ts (q & -> & Hq) Hl IH]; intros m0.
  - exists m0. split; [done|]. split; [apply Qle_refl|constructor].
  - cbn [foldl]. change (fgtb (Fin q) (Fin m0)) with (Qltb m0 q).
    destruct (Qltb m0 q) eqn:E.
    + apply Qltb_true in E. destruct (IH q) as (m & -> & Hm & Hall).
      exists m. split; [done|]. split; [lra|].
      constructor; [lra|done].
    + apply Qltb_false in E. destruct (IH m0) as (m & -> & Hm & Hall).
      exists m. split; [done|]. split; [done|].
      constructor; [lra|done].
Qed.

Lemma foldl_min_bound (l : list num) (ts : list Q) (m0 : Q) :
  Forall2 is_fin l ts →
  ∃ m, foldl (λ m v, if fltb v m then v else m) (Fin m0) l = Fin m
       ∧ m <= m0 ∧ Forall (λ t, m <= t) ts.
Proof.
  intros Hl. revert m0.
  induction Hl as [|a t l ts (q & -> & Hq) Hl IH]; intros m0.
  - exists m0. split; [done|]. split; [apply Qle_refl|constructor].
  - cbn [foldl fltb].
    destruct (Qltb q m0) eqn:E.
    + apply Qltb_true in E. destruct (IH q) as (m & -> & Hm & Hall).
      exists m. split; [done|]. split; [lra|].
      constructor; [lra|done].
    + apply Qltb_false in E. destruct (IH m0) as (m & -> & Hm & Hall).
      exists m. split; [done|]. split; [done|].
      constructor; [lra|done].
Qed.

(** A column of rationals with two different values has different extremes:
    [linregress] does not reject it. *)
Lemma extremes_differ l ts a b :
  Forall2 is_fin l ts → a ∈ ts → b ∈ ts → ¬ a == b →
  feqb (pd_max l) (pd_min l) = false.
Proof.
  intros Hl Ha Hb Hab. unfold pd_max, pd_min.
  rewrite (dropna_fin l ts Hl).
  destruct Hl as [|v t l ts (q & -> & Hq) Hl]; [by apply elem_of_nil in Ha|].
  cbv beta iota.
  destruct (foldl_max_bound l ts q Hl) as (M & -> & HM & HMall).
  destruct (foldl_min_bound l ts q Hl) as (m & -> & Hm & Hmall).
  cbn [feqb]. destruct (Qeq_bool M m) eqn:E; [|done].
  apply Qeq_bool_iff in E. exfalso. apply Hab.
  assert (Hbound : ∀ x, x ∈ t :: ts → m <= x ∧ x <= M).
  { intros x [->|Hx]%elem_of_cons; [lra|].
    rewrite Forall_forall in HMall, Hmall.
    split; [by apply Hmall|by apply HMall]. }
  destruct (Hbound a Ha), (Hbound b Hb). lra.
Qed.

End RationalColumns.

(** ** Regression on a straight line *)

Section LinearRegression.

#[local] Open Scope Q_scope.

#[local] Instance Qltb_comp : Proper (Qeq ==> Qeq ==> eq) Qltb.
Proof. intros x x' Hx y y' Hy. unfold Qltb. by rewrite Hx, Hy. Qed.

Lemma length_pos_nonzero (l : list Q) :
  l ≠ [] → ¬ inject_Z (Z.of_nat (length l)) == 0.
Proof.
  intros H. apply inject_Z_of_nat_pos. destruct l; [done|simpl; lia].
Qed.

Lemma Qmean_line c xs :
  xs ≠ [] → Qmean (map (line c) xs) == 2 * Qmean xs + c.
Proof.
  intros Hne. unfold Qmean, line. rewrite Qsum_map_affine, length_map.
  field. by apply length_pos_nonzero.
Qed.

Lemma Qmean_ext {A} (f g : A → Q) (l : list A) :
  Forall (λ a, f a == g a) l → Qmean (map f l) == Qmean (map g l).
Proof.
  intros H. unfold Qmean. by rewrite (Qsum_map_ext f g l H), !length_map.
Qed.

Lemma Qmean_scale {A} (k : Q) (f : A → Q) (l : list A) :
  l ≠ [] → Qmean (map (λ a, k * f a) l) == k * Qmean (map f l).
Proof.
  intros Hne. unfold Qmean. rewrite Qsum_map_scale, !length_map.
  field. apply inject_Z_of_nat_pos. destruct l; [done|simpl; lia].
Qed.

Lemma covariance_line c xs mx my :
  xs ≠ [] → my == 2 * mx + c →
  Qmean (map (λ x, (x - mx) * (line c x - my)) xs)
  == 2 * Qmean (map (sqdev mx) xs).
Proof.
  intros Hne Hmy. rewrite <- (Qmean_scale 2 (sqdev mx)) by done.
  apply Qmean_ext, Forall_forall. intros x _.
  unfold line, sqdev. rewrite Hmy. ring.
Qed.

Lemma variance_line c xs mx my :
  xs ≠ [] → my == 2 * mx + c →
  Qmean (map (λ x, (line c x - my) * (line c x - my)) xs)
  == 4 * Qmean (map (sqdev mx) xs).
Proof.
  intros Hne Hmy. rewrite <- (Qmean_scale 4 (sqdev mx)) by done.
  apply Qmean_ext, Forall_forall. intros x _.
  unfold line, sqdev. rewrite Hmy. ring.
Qed.

Lemma sqdev_nonneg m x : 0 <= sqdev m x.
Proof.
  unfold sqdev. destruct (Qlt_le_dec (x - m) 0) as [Hlt|Hge].
  - assert (E : (x - m) * (x - m) == (m - x) * (m - x)) by ring.
    rewrite E. apply Qmult_le_0_compat; lra.
  - by apply Qmult_le_0_compat.
Qed.

Lemma sqdev_pos m x : ¬ x == m → 0 < sqdev m x.
Proof.
  intros H. unfold sqdev.
  destruct (Qlt_le_dec x m) as [Hlt|Hge].
  - assert (E : (x - m) * (x - m) == (m - x) * (m - x)) by ring.
    rewrite E. apply Qmult_lt_0_compat; lra.
  - destruct (Qlt_le_dec m x) as [Hlt|Hle].
    + apply Qmult_lt_0_compat; lra.
    + exfalso. apply H. lra.
Qed.

(** Two different values give a positive variance. *)
Lemma variance_pos xs m a b :
  a ∈ xs → b ∈ xs → ¬ a == b → 0 < Qmean (map (sqdev m) xs).
Proof.
  intros Ha Hb Hab. unfold Qmean. rewrite length_map.
  assert (Hne : xs ≠ []) by (intros ->; by apply elem_of_nil in Ha).
  assert (Hn : 0 < inject_Z (Z.of_nat (length xs))).
  { change 0 with (inject_Z 0). rewrite <- Zlt_Qlt.
    destruct xs; [done|simpl; lia]. }
  apply Qlt_shift_div_l; [done|]. rewrite Qmult_0_l.
  apply Qsum_pos.
  - apply Forall_map, Forall_forall. intros x _. apply sqdev_nonneg.
  - assert (Hc : ∃ c, c ∈ xs ∧ ¬ c == m).
    { destruct (Qeq_dec a m) as [Ham|Ham]; [|by exists a].
      exists b. split; [done|]. intros Hbm. apply Hab. by rewrite Ham, Hbm. }
    destruct Hc as (c & Hc & Hcm).
    apply Exists_exists. exists (sqdev m c). split.
    + apply list_elem_of_In, in_map, list_elem_of_In, Hc.
    + by apply sqdev_pos.
Qed.

Lemma Qeq_bool_false x y : ¬ x == y → Qeq_bool x y = false.
Proof.
  intros H. destruct (Qeq_bool x y) eqn:E; [|done].
  by apply Qeq_bool_iff in E.
Qed.

Lemma zip_map_fst_snd {A B} (l : list (A * B)) :
  zip (map fst l) (map snd l) = l.
Proof. induction l as [|[a b] t IH]; simpl; [done|]. by f_equal. Qed.

(** The correlation coefficient of points on the line is 1: the quotient
    is at least 1 since the square root is rounded down, and it is clipped
    to 1. *)
Lemma rvalue_line (sxy p : Q) :
  0 < sxy → p == sxy * sxy →
  is_fin (clip_unit (fdiv (Fin sxy) (fsqrt (Fin p)))) 1.
Proof.
  intros Hpos Hp.
  assert (Hp0 : 0 < p) by (rewrite Hp; nra).
  cbn [fsqrt]. rewrite (Qltb_ge p 0) by lra.
  pose proof (Qsqrt_pos p Hp0) as Hs. pose proof (Qsqrt_square_le p) as Hle.
  set (s := Qsqrt p) in *.
  assert (Hs1 : s <= sxy).
  { destruct (Qlt_le_dec sxy s) as [Hlt|Hge]; [|done].
    exfalso. assert (sxy * sxy < s * s) by nra. lra. }
  cbn [fdiv]. destruct (Qeq_bool s 0) eqn:E.
  { apply Qeq_bool_iff in E. lra. }
  assert (Hq : 1 <= sxy / s) by (apply Qle_shift_div_l; lra).
  unfold clip_unit, fgtb. cbn [fltb].
  destruct (Qltb 1 (sxy / s)) eqn:E1; [apply is_fin_Fin|].
  apply Qltb_false in E1. rewrite Qltb_ge by lra.
  exists (sxy / s). split; [done|]. lra.
Qed.

(** [linregress] on at least three points of the line, with two different
    abscissas. *)
Lemma linregress_line (c : Q) (pairs : list (num * num)) (xs : list Q)
    (a b : Q) :
  Forall2 (on_line c) pairs xs →
  (3 ≤ length xs)%nat →
  a ∈ xs → b ∈ xs → ¬ a == b →
  ∃ lr,
    linregress (map fst pairs) (map snd pairs) = Ok lr
    ∧ is_fin (lr_slope lr) 2
    ∧ is_fin (lr_intercept lr) c
    ∧ is_fin (lr_rvalue lr) 1
    ∧ is_fin (lr_stderr lr) 0.
Proof.
  intros Hpairs Hlen Ha Hb Hab.
  assert (Hx : Forall2 is_fin (map fst pairs) xs).
  { rewrite <- (map_id xs).
    apply (Forall2_map_both (on_line c)); [|done]. by intros p x [H _]. }
  assert (Hy : Forall2 is_fin (map snd pairs) (map (line c) xs)).
  { apply (Forall2_map_both (on_line c)); [|done]. by intros p x [_ H]. }
  assert (Hn : length (map fst pairs) = length xs)
    by exact (Forall2_length _ _ _ Hx).
  assert (Hxs : xs ≠ []) by (intros ->; simpl in Hlen; lia).
  assert (Hxne : map fst pairs ≠ []).
  { intros H. rewrite H in Hn. simpl in Hn. lia. }
  assert (Hyne : map snd pairs ≠ []).
  { intros H. apply (f_equal length) in H. rewrite length_map in H.
    rewrite length_map in Hn. simpl in H. lia. }
  unfold linregress. rewrite zip_map_fst_snd, Hn.
  replace (length xs =? 0)%nat with false by (symmetry; apply Nat.eqb_neq; lia).
  replace (1 <? length xs)%nat with true by (symmetry; apply Nat.ltb_lt; lia).
  replace (length xs =? 2)%nat with false by (symmetry; apply Nat.eqb_neq; lia).
  rewrite (extremes_differ _ xs a b Hx Ha Hb Hab). cbn [andb].
  set (mx := Qmean xs). set (my := Qmean (map (line c) xs)).
  assert (Hmy : my == 2 * mx + c) by (by apply Qmean_line).
  pose proof (is_fin_np_mean _ _ Hx Hxne) as Hxmean.
  pose proof (is_fin_np_mean _ _ Hy Hyne) as Hymean.
  fold mx in Hxmean. fold my in Hymean.
  set (xmean := np_mean (map fst pairs)) in *.
  set (ymean := np_mean (map snd pairs)) in *.
  set (vx := Qmean (map (sqdev mx) xs)).
  assert (Hvx : 0 < vx) by (by apply (variance_pos xs mx a b)).
  (* the three second moments *)
  assert (Hssxm : is_fin (np_mean (map (λ a, fsquare (fsub a xmean))
                                       (map fst pairs))) vx).
  { apply is_fin_np_mean; [|by destruct (map fst pairs)].
    apply (Forall2_map_both is_fin); [|done].
    intros v x Hv. by apply is_fin_fsquare, is_fin_fsub. }
  assert (Hssxym : is_fin (np_mean (map (λ p, fmul (fsub (fst p) xmean)
                                                  (fsub (snd p) ymean)) pairs))
                          (2 * vx)).
  { eapply is_fin_eq; [|by apply (covariance_line c xs mx my)].
    apply is_fin_np_mean.
    - apply (Forall2_map_both (on_line c)); [|done].
      intros p x [H1 H2]. by apply is_fin_fmul; apply is_fin_fsub.
    - destruct pairs; [done|done]. }
  assert (Hssym : is_fin (np_mean (map (λ b, fsquare (fsub b ymean))
                                       (map snd pairs))) (4 * vx)).
  { eapply is_fin_eq; [|by apply (variance_line c xs mx my)].
    rewrite <- (map_map (line c) (λ y, (y - my) * (y - my))).
    apply is_fin_np_mean; [|by destruct (map snd pairs)].
    apply (Forall2_map_both is_fin); [|done].
    intros v y Hv. by apply is_fin_fsquare, is_fin_fsub. }
  set (ssxm := np_mean (map (λ a, fsquare (fsub a xmean)) (map fst pairs))) in *.
  set (ssxym := np_mean (map (λ p, fmul (fsub (fst p) xmean)
                                        (fsub (snd p) ymean)) pairs)) in *.
  set (ssym := np_mean (map (λ b, fsquare (fsub b ymean)) (map snd pairs))) in *.
  (* the correlation coefficient *)
  assert (Hr : is_fin
    (if feqb ssxm (Fin 0) || feqb ssym (Fin 0) then Fin 0
     else clip_unit (fdiv ssxym (fsqrt (fmul ssxm ssym)))) 1).
  { destruct Hssxm as (sx & -> & Hsx), Hssym as (sy & -> & Hsy),
             Hssxym as (sxy & -> & Hsxy).
    cbn [feqb fmul].
    rewrite (Qeq_bool_false sx 0), (Qeq_bool_false sy 0) by lra.
    cbn [orb]. apply rvalue_line; [lra|]. rewrite Hsx, Hsy, Hsxy. ring. }
  set (r := if feqb ssxm (Fin 0) || feqb ssym (Fin 0) then Fin 0
            else clip_unit (fdiv ssxym (fsqrt (fmul ssxm ssym)))) in *.
  assert (Hslope : is_fin (fdiv ssxym ssxm) 2).
  { eapply is_fin_eq; [apply is_fin_fdiv; [exact Hssxym|exact Hssxm|lra]|].
    field. lra. }
  eexists. split; [reflexivity|]. cbn [lr_slope lr_intercept lr_rvalue lr_stderr].
  split; [exact Hslope|]. split; [|split; [exact Hr|]].
  - eapply is_fin_eq.
    + apply is_fin_fsub; [exact Hymean|].
      apply is_fin_fmul; [exact Hslope|exact Hxmean].
    + rewrite Hmy. ring.
  - apply is_fin_fsqrt_zero.
    assert (Hdf : ¬ inject_Z (Z.of_nat (length xs - 2)) == 0)
      by (apply inject_Z_of_nat_pos; lia).
    eapply is_fin_eq.
    + apply is_fin_fdiv; [|apply is_fin_of_nat|exact Hdf].
      apply is_fin_fdiv; [|exact Hssxm|lra].
      apply is_fin_fmul; [|exact Hssym].
      apply is_fin_fsub; [apply is_fin_Fin|by apply is_fin_fsquare].
    + field. split; [lra|exact Hdf].
Qed.

End LinearRegression.

(** ** Trend analysis *)

Section Trends.

Import Analytics.

#[local] Open Scope Q_scope.

Lemma trend_step_entry data rows trends c :
  trend_step data rows (Ok trends) c
  = match trend_entry data rows c with
    | None => Ok trends
    | Some (Ok t) => Ok (<[c := t]> trends)
    | Some (Raise e) => Raise e
    end.
Proof.
  unfold trend_step, trend_entry. destruct (has_column c data); [|done].
  destruct (_ <? _)%nat; [done|]. by destruct (linregress _ _).
Qed.

Lemma trend_loop_raise data rows e cols :
  foldl (trend_step data rows) (Raise e) cols = Raise e.
Proof. induction cols as [|c cols IH]; [done|]. exact IH. Qed.

(** Every record of a result was computed by a turn of the loop. *)
Lemma trend_loop_entries data rows cols trends trends' :
  foldl (trend_step data rows) (Ok trends) cols = Ok trends' →
  ∀ c t, trends' !! c = Some t →
         trends !! c = Some t ∨ trend_entry data rows c = Some (Ok t).
Proof.
  revert trends. induction cols as [|x cols IH]; intros trends H c t Ht.
  - injection H as <-. by left.
  - cbn [foldl] in H. rewrite trend_step_entry in H.
    destruct (trend_entry data rows x) as [[tx|e]|] eqn:Ex.
    + destruct (IH _ H c t Ht) as [Hc|Hc]; [|by right].
      destruct (decide (c = x)) as [->|Hne].
      * rewrite lookup_insert_eq in Hc. injection Hc as <-. by right.
      * rewrite lookup_insert_ne in Hc by done. by left.
    + by rewrite trend_loop_raise in H.
    + eauto.
Qed.

(** When no turn raises, the loop returns, and its result holds the record
    of every column that has one. *)
Lemma trend_loop_ok data rows cols trends :
  (∀ c e, c ∈ cols → trend_entry data rows c ≠ Some (Raise e)) →
  ∃ trends',
    foldl (trend_step data rows) (Ok trends) cols = Ok trends' ∧
    ∀ c, trends' !! c
         = match (if bool_decide (c ∈ cols) then trend_entry data rows c
                  else None) with
           | Some (Ok t) => Some t
           | _ => trends !! c
           end.
Proof.
  revert trends. induction cols as [|x cols IH]; intros trends Hok.
  - exists trends. split; [done|]. intros c.
    by rewrite bool_decide_eq_false_2 by apply not_elem_of_nil.
  - cbn [foldl]. rewrite trend_step_entry.
    assert (Hok' : ∀ c e, c ∈ cols → trend_entry data rows c ≠ Some (Raise e)).
    { intros c e Hc. apply Hok. by right. }
    destruct (trend_entry data rows x) as [[tx|e]|] eqn:Ex.
    + destruct (IH (<[x := tx]> trends) Hok') as (m & -> & Hm).
      exists m. split; [done|]. intros c. rewrite Hm.
      destruct (decide (c = x)) as [->|Hne].
      * rewrite (bool_decide_eq_true_2 (x ∈ x :: cols)) by left.
        rewrite Ex. destruct (bool_decide (x ∈ cols)); [done|].
        by rewrite lookup_insert_eq.
      * assert (Hin : bool_decide (c ∈ x :: cols) = bool_decide (c ∈ cols)).
        { apply bool_decide_ext. rewrite elem_of_cons. naive_solver. }
        rewrite Hin. destruct (bool_decide (c ∈ cols)).
        -- destruct (trend_entry data rows c) as [[?|?]|]; [done|..];
             by rewrite lookup_insert_ne.
        -- by rewrite lookup_insert_ne.
    + exfalso. by apply (Hok x e); [left|].
    + destruct (IH trends Hok') as (m & -> & Hm).
      exists m. split; [done|]. intros c. rewrite Hm.
      destruct (decide (c = x)) as [->|Hne].
      * rewrite (bool_decide_eq_true_2 (x ∈ x :: cols)) by left.
        rewrite Ex. by destruct (bool_decide (x ∈ cols)).
      * assert (Hin : bool_decide (c ∈ x :: cols) = bool_decide (c ∈ cols)).
        { apply bool_decide_ext. rewrite elem_of_cons. naive_solver. }
        by rewrite Hin.
Qed.

Lemma fltb_asym a b : fltb a b = true → fltb b a = false.
Proof.
  destruct a as [| | |x], b as [| | |y]; simpl; try done.
  intros H%Qltb_true. apply Qltb_ge. lra.
Qed.

Lemma trend_direction_spec s e :
  (fltb (fabs s) e = true → trend_direction s e = "Stable"%string)
  ∧ (fltb (fabs s) e = false → fgtb s (Fin 0) = true →
     trend_direction s e = "Increasing"%string)
  ∧ (fltb (fabs s) e = false → fltb s (Fin 0) = true →
     trend_direction s e = "Decreasing"%string).
Proof.
  unfold trend_direction. repeat split.
  - by intros ->.
  - by intros -> ->.
  - intros -> H. unfold fgtb. by rewrite (fltb_asym _ _ H).
Qed.

Lemma trend_confidence_spec r2 :
  (trend_confidence r2 = "High"%string ↔ fgtb r2 (Fin (7 # 10)) = true)
  ∧ (trend_confidence r2 = "Medium"%string
     ↔ fgtb r2 (Fin (3 # 10)) = true ∧ fleb r2 (Fin (7 # 10)) = true).
Proof.
  unfold trend_confidence, fgtb.
  destruct r2 as [| | |q]; cbn [fltb fleb]; try (split; split; naive_solver).
  destruct (Qltb (7 # 10) q) eqn:E7, (Qltb (3 # 10) q) eqn:E3;
    (split; split; try naive_solver).
  - intros [_ H]. apply Qle_bool_iff in H. apply Qltb_true in E7. lra.
  - intros _. split; [done|]. apply Qle_bool_iff. by apply Qltb_false.
Qed.

Lemma trend_entry_classified data rows c t :
  trend_entry data rows c = Some (Ok t) → classified t.
Proof.
  unfold trend_entry. destruct (has_column c data); [|done].
  destruct (_ <? _)%nat; [done|].
  destruct (linregress _ _) as [lr|]; [|done]. intros [= <-].
  unfold classified. cbn [slope std_error direction confidence r_squared].
  destruct (trend_direction_spec (lr_slope lr) (lr_stderr lr)) as (? & ? & ?).
  destruct (trend_confidence_spec (fsquare (lr_rvalue lr))) as (? & ?).
  done.
Qed.

End Trends.

Section TrendsOfSnapshots.

Import Analytics.

#[local] Open Scope Q_scope.

Lemma time_numeric_fin r : time_numeric r = Fin (seconds_of r).
Proof. reflexivity. Qed.

Lemma times_are_fin rows :
  Forall2 is_fin (map time_numeric rows) (map seconds_of rows).
Proof.
  induction rows as [|r rows IH]; simpl; constructor; [|done].
  rewrite time_numeric_fin. apply is_fin_Fin.
Qed.

Lemma seconds_of_inj r1 r2 :
  seconds_of r1 == seconds_of r2 → r_timestamp r1 = r_timestamp r2.
Proof.
  unfold seconds_of. intros H.
  assert (Hk : ¬ inject_Z (10 ^ 9) == 0) by done.
  assert (H' : inject_Z (r_timestamp r1) == inject_Z (r_timestamp r2)).
  { apply (Qmult_inj_r _ _ (/ inject_Z (10 ^ 9))); [|exact H].
    intros Hinv. apply Hk.
    rewrite <- (Qinv_involutive (inject_Z (10 ^ 9))), Hinv. reflexivity. }
  unfold Qeq in H'. simpl in H'. lia.
Qed.

Lemma filter_map_commute {A B} (p : B → bool) (g : A → B) (l : list A) :
  List.filter p (map g l) = map g (List.filter (λ a, p (g a)) l).
Proof.
  induction l as [|a t IH]; simpl; [done|].
  destruct (p (g a)); simpl; by rewrite IH.
Qed.

Lemma filter_Permutation {A} (p : A → bool) (l l' : list A) :
  Permutation l l' → Permutation (List.filter p l) (List.filter p l').
Proof.
  induction 1 as [|x l l' H IH|x y l|l l' l'' H1 IH1 H2 IH2]; simpl.
  - done.
  - destruct (p x); [by constructor|done].
  - destruct (p x), (p y); try done. apply perm_swap.
  - by etransitivity.
Qed.

Lemma filter_all {A} (p : A → bool) (l : list A) :
  Forall (λ a, p a = true) l → List.filter p l = l.
Proof. induction 1 as [|a t Ha Ht IH]; simpl; [done|]. by rewrite Ha, IH. Qed.

Lemma NoDup_map_filter {A B} `{EqDecision B} (f : A → B) (p : A → bool) l :
  NoDup (map f l) → NoDup (map f (List.filter p l)).
Proof.
  induction l as [|a t IH]; simpl; [done|].
  intros [Ha Ht]%NoDup_cons. destruct (p a); simpl; [|by apply IH].
  apply NoDup_cons. split; [|by apply IH].
  intros Hin. apply Ha. apply list_elem_of_In, in_map_iff in Hin.
  destruct Hin as (b & Hb & Hin). apply filter_In in Hin as [Hin _].
  apply list_elem_of_In, in_map_iff. by exists b.
Qed.

Lemma values_with_time_rows c rows :
  values_with_time c rows
  = map (λ r, (time_numeric r, cell c r)) (rows_with c rows).
Proof.
  exact (filter_map_commute (λ p, notna (snd p))
           (λ r, (time_numeric r, cell c r)) rows).
Qed.

Lemma values_with_time_length c rows :
  length (values_with_time c rows) = length (dropna (map (cell c) rows)).
Proof.
  rewrite values_with_time_rows, length_map. unfold dropna, rows_with.
  by rewrite (filter_map_commute notna (cell c)), length_map.
Qed.

Lemma values_with_time_sorted_length c data :
  length (values_with_time c (df_rows (sort_values data)))
  = length (dropna (get_col c data)).
Proof.
  rewrite values_with_time_length. unfold dropna, get_col. simpl.
  apply Permutation_length, filter_Permutation, Permutation_map,
    sort_rows_perm.
Qed.

Lemma linregress_ok x y :
  x ≠ [] → feqb (pd_max x) (pd_min x) = false →
  ∃ lr, linregress x y = Ok lr.
Proof.
  intros Hx Hd. unfold linregress.
  replace (length x =? 0)%nat with false
    by (symmetry; apply Nat.eqb_neq; by destruct x).
  rewrite Hd, andb_false_r. destruct (length x =? 2)%nat; by eexists.
Qed.

(** With pairwise different timestamps the regression of a column with at
    least three values is not rejected. *)
Lemma trend_entry_no_raise data rows c e :
  NoDup (map r_timestamp rows) →
  trend_entry data rows c ≠ Some (Raise e).
Proof.
  intros Hnd. unfold trend_entry. destruct (has_column c data); [|done].
  destruct (Nat.ltb_spec (length (values_with_time c rows)) 3) as [|Hlen];
    [done|].
  rewrite values_with_time_rows in *. rewrite length_map in Hlen.
  pose proof (NoDup_map_filter r_timestamp (λ r, notna (cell c r)) rows Hnd)
    as Hnd'. fold (rows_with c rows) in Hnd'.
  destruct (rows_with c rows) as [|r1 [|r2 rs]] eqn:E;
    [simpl in Hlen; lia..|].
  rewrite !map_map. cbn [fst snd].
  destruct (linregress_ok (map time_numeric (r1 :: r2 :: rs))
              (map (cell c) (r1 :: r2 :: rs))) as [lr Hlr]; [done| |].
  - apply (extremes_differ _ (map seconds_of (r1 :: r2 :: rs))
             (seconds_of r1) (seconds_of r2)).
    + apply times_are_fin.
    + left.
    + right. left.
    + intros H%seconds_of_inj. simpl in Hnd'.
      apply NoDup_cons in Hnd' as [Hn _]. apply Hn. rewrite H. left.
  - change (map (λ x, time_numeric x)) with (map time_numeric).
    change (map (λ x, cell c x)) with (map (cell c)).
    by rewrite Hlr.
Qed.

End TrendsOfSnapshots.

Section TrendOfALine.

Import Analytics.

#[local] Open Scope Q_scope.

#[local] Existing Instance Qltb_comp.

Lemma direction_of_line s e :
  is_fin s 2 → is_fin e 0 → trend_direction s e = "Increasing"%string.
Proof.
  intros (qs & -> & Hs) (qe & -> & He). unfold trend_direction, fgtb.
  cbn [fabs fltb].
  assert (E1 : Qltb (Qabs qs) qe = false) by (by rewrite Hs, He).
  assert (E2 : Qltb 0 qs = true) by (by rewrite Hs).
  by rewrite E1, E2.
Qed.

Lemma confidence_of_line r :
  is_fin r 1 → trend_confidence (fsquare r) = "High"%string.
Proof.
  intros (q & -> & Hq). unfold trend_confidence, fgtb, fsquare.
  cbn [fmul fltb].
  assert (E : Qltb (7 # 10) (q * q) = true) by (by rewrite Hq).
  by rewrite E.
Qed.

Lemma trend_entry_line data rows column c :
  has_column column data = true →
  NoDup (map r_timestamp rows) →
  (3 ≤ length rows)%nat →
  column_on_line column c rows →
  ∃ t, trend_entry data rows column = Some (Ok t)
       ∧ is_fin (slope t) 2
       ∧ is_fin (intercept t) c
       ∧ is_fin (r_squared t) 1
       ∧ direction t = "Increasing"%string
       ∧ confidence t = "High"%string.
Proof.
  intros Hp Hnd Hlen Hline. unfold trend_entry. rewrite Hp.
  rewrite values_with_time_rows. unfold rows_with.
  rewrite filter_all
    by (eapply Forall_impl; [exact Hline|]; intros r Hr;
        by apply (is_fin_notna _ _ Hr)).
  rewrite length_map.
  replace (length rows <? 3)%nat with false
    by (symmetry; apply Nat.ltb_ge; lia).
  destruct rows as [|r1 [|r2 rs]] eqn:E; [simpl in Hlen; lia..|].
  rewrite <- E in *.
  destruct (linregress_line c
              (map (λ r, (time_numeric r, cell column r)) rows)
              (map seconds_of rows) (seconds_of r1) (seconds_of r2))
    as (lr & Hlr & Hslope & Hicpt & Hr & Hse).
  - clear -Hline. induction Hline as [|r rs Hr Hrs IH]; simpl; constructor.
    + split; simpl; [rewrite time_numeric_fin; apply is_fin_Fin|exact Hr].
    + exact IH.
  - by rewrite length_map.
  - rewrite E. left.
  - rewrite E. right. left.
  - intros H%seconds_of_inj. rewrite E in Hnd. simpl in Hnd.
    apply NoDup_cons in Hnd as [Hn _]. apply Hn. rewrite H. left.
  - rewrite Hlr. eexists. split; [reflexivity|].
    cbn [slope intercept r_squared direction confidence].
    split; [exact Hslope|]. split; [exact Hicpt|]. split.
    + eapply is_fin_eq; [by apply is_fin_fsquare|]. reflexivity.
    + split; [by apply direction_of_line|by apply confidence_of_line].
Qed.

Lemma sorted_timestamps_NoDup data :
  NoDup (timestamps data) →
  NoDup (map r_timestamp (df_rows (sort_values data))).
Proof.
  unfold timestamps, sort_values. simpl. intros H.
  assert (Hp : Permutation (map r_timestamp (sort_rows (df_rows data)))
                           (map r_timestamp (df_rows data)))
    by apply Permutation_map, sort_rows_perm.
  by rewrite Hp.
Qed.

(** C6.  (1) Every record that [analyze_trends] returns is classified as
    the specification says: "Stable" when [|slope| < std_error], else
    "Increasing" when the slope is positive and "Decreasing" when it is
    negative; "High" exactly when [R² > 0.7], "Medium" exactly when
    [0.3 < R² <= 0.7].  (2) On a snapshot with pairwise different
    timestamps the analysis returns, with a record for exactly the sensor
    columns that are present and have three values or more.  (3) For a
    column whose values lie on a line [2 * t + c] ([t] in seconds; [c] is 5
    for the series [2 * t + 5] on the time since the epoch, and
    [5 - 2 * t0] for the same series on the time elapsed since the first
    reading), with three readings or more, the record has slope 2,
    direction "Increasing" and confidence "High". *)
Theorem trend_classification_and_line :
  (∀ data trends column t,
     analyze_trends data = Ok trends → trends !! column = Some t →
     classified t)
  ∧ (∀ data,
       NoDup (timestamps data) →
       ∃ trends,
         analyze_trends data = Ok trends ∧
         ∀ column,
           is_Some (trends !! column)
           ↔ column ∈ sensor_columns
             ∧ has_column column data = true
             ∧ (3 ≤ length (dropna (get_col column data)))%nat)
  ∧ (∀ data column c,
       NoDup (timestamps data) →
       (3 ≤ df_len data)%nat →
       column ∈ sensor_columns →
       has_column column data = true →
       column_on_line column c (df_rows data) →
       ∃ trends t,
         analyze_trends data = Ok trends
         ∧ trends !! column = Some t
         ∧ is_fin (slope t) 2
         ∧ direction t = "Increasing"%string
         ∧ confidence t = "High"%string).
Proof.
  split; [|split].
  - intros data trends column t Hrun Ht. unfold analyze_trends in Hrun.
    destruct (df_empty data || (df_len data <? 3)%nat).
    + injection Hrun as <-. by rewrite lookup_empty in Ht.
    + destruct (trend_loop_entries _ _ _ _ _ Hrun column t Ht) as [H|H].
      * by rewrite lookup_empty in H.
      * by apply (trend_entry_classified _ _ _ _ H).
  - intros data Hnd. unfold analyze_trends.
    destruct (df_empty data || (df_len data <? 3)%nat) eqn:Hsmall.
    + exists ∅. split; [done|]. intros column. rewrite lookup_empty.
      split; [by intros [? ?]|]. intros (_ & _ & Hlen). exfalso.
      pose proof (List.filter_length_le notna (get_col column data)) as Hle.
      rewrite get_col_length in Hle. unfold dropna in Hlen.
      apply orb_true_iff in Hsmall as [He|Hl].
      * apply df_empty_len in He. lia.
      * apply Nat.ltb_lt in Hl. lia.
    + pose proof (sorted_timestamps_NoDup data Hnd) as Hnd'.
      destruct (trend_loop_ok data (df_rows (sort_values data))
                  sensor_columns ∅) as (trends & -> & Hlook).
      { intros c e _. by apply trend_entry_no_raise. }
      exists trends. split; [done|]. intros column. rewrite Hlook.
      rewrite lookup_empty.
      destruct (decide (column ∈ sensor_columns)) as [Hc|Hc].
      * rewrite (bool_decide_eq_true_2 _ Hc).
        pose proof (λ e, trend_entry_no_raise data
                          (df_rows (sort_values data)) column e Hnd') as Hnr.
        unfold trend_entry in *.
        rewrite values_with_time_sorted_length in *.
        destruct (has_column column data); [|naive_solver].
        destruct (Nat.ltb_spec (length (dropna (get_col column data))) 3).
        -- split; [by intros [? ?]|]. intros (_ & _ & ?). lia.
        -- destruct (linregress _ _) as [lr|e].
           ++ split; [done|]. by eexists.
           ++ by destruct (Hnr e).
      * rewrite (bool_decide_eq_false_2 _ Hc). naive_solver.
  - intros data column c Hnd Hlen Hc Hp Hline. unfold analyze_trends.
    replace (df_empty data) with false
      by (symmetry; apply df_empty_false_len; lia).
    replace (df_len data <? 3)%nat with false
      by (symmetry; apply Nat.ltb_ge; lia).
    cbn [orb].
    pose proof (sorted_timestamps_NoDup data Hnd) as Hnd'.
    destruct (trend_loop_ok data (df_rows (sort_values data))
                sensor_columns ∅) as (trends & -> & Hlook).
    { intros x e _. by apply trend_entry_no_raise. }
    destruct (trend_entry_line data (df_rows (sort_values data)) column c)
      as (t & Ht & Hs & _ & _ & Hd & Hconf); [done|done| | |].
    + simpl. rewrite sort_rows_length. exact Hlen.
    + unfold column_on_line, sort_values. simpl.
      by rewrite sort_rows_perm.
    + exists trends, t. split; [done|]. split; [|done].
      by rewrite Hlook, (bool_decide_eq_true_2 _ Hc), Ht.
Qed.

End TrendOfALine.

Section TrendExamples.

Import Analytics.

#[local] Open Scope Q_scope.

Lemma trend_classification_and_line_witness :
  let data := Samples.linear_temperature in
  NoDup (timestamps data)
  ∧ (3 ≤ df_len data)%nat
  ∧ "temperature" ∈ sensor_columns
  ∧ has_column "temperature" data = true
  ∧ column_on_line "temperature" 5 (df_rows data)
  ∧ ∃ trends t,
      analyze_trends data = Ok trends
      ∧ trends !! "temperature" = Some t
      ∧ is_fin (slope t) 2
      ∧ direction t = "Increasing"%string
      ∧ confidence t = "High"%string
      ∧ classified t.
Proof.
  intros data.
  assert (Hnd : NoDup (timestamps data)).
  { refine (bool_decide_unpack _ _). vm_compute. exact I. }
  assert (Hlen : (3 ≤ df_len data)%nat) by (vm_compute; lia).
  assert (Hc : "temperature" ∈ sensor_columns)
    by (unfold sensor_columns; set_solver).
  assert (Hp : has_column "temperature" data = true) by reflexivity.
  assert (Hline : column_on_line "temperature" 5 (df_rows data)).
  { repeat constructor; (eexists; split; [reflexivity|]);
      vm_compute; reflexivity. }
  repeat (split; [assumption|]).
  destruct (proj2 (proj2 trend_classification_and_line) data "temperature" 5
              Hnd Hlen Hc Hp Hline)
    as (trends & t & Hrun & Ht & Hs & Hd & Hconf).
  exists trends, t. repeat (split; [assumption|]).
  exact (proj1 trend_classification_and_line data trends "temperature" t
           Hrun Ht).
Defined.

(** A constant series has slope 0 and standard error 0: it is neither
    "Stable" nor "Increasing", and is reported as "Decreasing". *)
Example trend_of_constant_series :
  match analyze_trends Samples.linear_temperature with
  | Ok trends => direction <$> trends !! "weight"
  | Raise _ => None
  end
  = Some "Decreasing"%string.
Proof. vm_compute. reflexivity. Qed.

End TrendExamples.

(* ===================================================================== *)
(** * Further properties of the store, the pipeline and the analytics *)
(* ===================================================================== *)

(** ** Histories of the store *)

Section Histories.

Import DataStorage StoreQueries.

Variable parse_datetime : string → option Z.

#[local] Abbreviation add_reading := (DataStorage.add_reading parse_datetime).
#[local] Abbreviation add_readings := (DataStorage.add_readings parse_datetime).
#[local] Abbreviation to_datetime := (DataStorage.to_datetime parse_datetime).
#[local] Abbreviation new_rows := (DataStorage.new_rows parse_datetime).
#[local] Abbreviation history := (history parse_datetime).
#[local] Abbreviation perform := (perform parse_datetime).

Lemma history_snoc ops o : history (ops ++ [o]) = perform (history ops) o.
Proof. unfold history. by rewrite foldl_app. Qed.

Lemma perform_max_records s o : _max_records (perform s o) = _max_records s.
Proof. destruct o; simpl; [apply add_reading_max_records|done]. Qed.

Lemma perform_inv s o : store_inv s → store_inv (perform s o).
Proof.
  destruct o; simpl; [apply add_reading_inv|].
  intros _. split; simpl; [constructor|lia].
Qed.

Lemma history_max_records ops : _max_records (history ops) = max_records_default.
Proof.
  induction ops as [|o ops IH] using rev_ind; [done|].
  by rewrite history_snoc, perform_max_records.
Qed.

Lemma history_inv ops : store_inv (history ops).
Proof.
  induction ops as [|o ops IH] using rev_ind; [apply init_inv|].
  rewrite history_snoc. by apply perform_inv.
Qed.

Lemma history_sorted ops : StronglySorted ts_le (df_rows (_data (history ops))).
Proof. apply history_inv. Qed.

Lemma max_records_default_Z : Z.of_nat max_records_default = 10000%Z.
Proof. unfold max_records_default. by rewrite Z2Nat.id. Qed.

Lemma appended_len s reading ns :
  df_len (appended s reading ns)
  = Nat.min (_max_records s) (S (df_len (_data s))).
Proof.
  unfold df_len. rewrite appended_rows, tail_rows_length, sort_rows_length.
  rewrite length_app. unfold store_rows. simpl. lia.
Qed.

(** X1.  On a store reached from a fresh one by any appends and clears, an
    append of a reading whose timestamp normalises succeeds, leaves the
    store non-empty, and makes the number of readings grow by one until the
    capacity of 10000 is reached, where it stays. *)
Theorem add_reading_grows_until_full
    (ops : list operation) (reading : Reading) (ns : Z) :
  to_datetime (rd_timestamp reading) = Ok ns →
  let s := history ops in
  let s' := (add_reading reading s).2 in
  (add_reading reading s).1 = true
  ∧ has_data s' = true
  ∧ Z.of_nat (get_total_readings s')
    = Z.min (Z.of_nat (get_total_readings s) + 1) 10000.
Proof.
  intros H s s'. subst s'. rewrite (add_reading_ok _ _ _ _ H). simpl.
  pose proof (appended_len s reading ns) as Hl.
  unfold s in Hl at 2. rewrite history_max_records in Hl.
  pose proof max_records_default_Z as Hc.
  split; [done|]. split.
  - unfold has_data. simpl. apply negb_true_iff, df_empty_false_len. lia.
  - unfold get_total_readings. simpl. lia.
Qed.

(** *** The buffer holds the newest readings *)

Lemma insert_timestamp_perm t l : insert_timestamp t l ≡ₚ t :: l.
Proof.
  induction l as [|x l IH]; simpl; [done|].
  destruct (t <=? x)%Z; [done|]. rewrite IH. apply Permutation_swap.
Qed.

Lemma insert_timestamp_sorted t l :
  StronglySorted Z.le l → StronglySorted Z.le (insert_timestamp t l).
Proof.
  induction 1 as [|x l Hl IH Hx]; simpl; [repeat constructor|].
  destruct (Z.leb_spec t x) as [Hle|Hgt].
  - constructor; [by constructor|]. constructor; [done|].
    eapply Forall_impl; [exact Hx|]. simpl. lia.
  - constructor; [done|]. rewrite insert_timestamp_perm.
    constructor; [lia|done].
Qed.

Lemma insert_timestamp_head t l :
  Forall (Z.le t) l → insert_timestamp t l = t :: l.
Proof.
  destruct 1 as [|x l Hx Hl]; simpl; [done|].
  by destruct (Z.leb_spec t x); [|lia].
Qed.

(** Dropping the oldest [d] timestamps before the insertion and one more
    after it, or [d + 1] after the insertion, is the same. *)
Lemma insert_timestamp_drop t d l :
  StronglySorted Z.le l → (d ≤ length l)%nat →
  drop (S d) (insert_timestamp t l) = drop 1 (insert_timestamp t (drop d l)).
Proof.
  intros Hl. revert d. induction Hl as [|x l Hl IH Hx]; intros d Hd.
  - simpl in Hd. by replace d with 0%nat by lia.
  - destruct d as [|d]; [done|]. simpl in Hd.
    cbn [insert_timestamp drop].
    destruct (Z.leb_spec t x) as [Hle|Hgt].
    + cbn [drop]. rewrite insert_timestamp_head; [done|].
      apply Forall_drop. eapply Forall_impl; [exact Hx|]. simpl. lia.
    + cbn [drop]. apply IH. lia.
Qed.

Lemma sorted_timestamps rows :
  StronglySorted ts_le rows → StronglySorted Z.le (map r_timestamp rows).
Proof. by apply (StronglySorted_fmap r_timestamp ts_le Z.le). Qed.

(** The timestamps after a successful append. *)
Lemma appended_timestamps s reading ns :
  StronglySorted ts_le (store_rows s) →
  timestamps (appended s reading ns)
  = drop (S (length (store_rows s)) - _max_records s)
         (insert_timestamp ns (map r_timestamp (store_rows s))).
Proof.
  intros Hs. unfold timestamps. rewrite appended_rows. unfold tail_rows.
  rewrite <- skipn_map, sort_rows_length, length_app. simpl.
  replace (length (store_rows s) + 1)%nat with (S (length (store_rows s)))
    by lia.
  f_equal. apply (StronglySorted_unique Z.le).
  - apply sorted_timestamps, sort_rows_sorted.
  - by apply insert_timestamp_sorted, sorted_timestamps.
  - rewrite insert_timestamp_perm, sort_rows_perm, map_app. simpl.
    by rewrite <- Permutation_cons_append.
Qed.

Lemma merge_sort_snoc (l : list Z) t :
  merge_sort Z.le (l ++ [t]) = insert_timestamp t (merge_sort Z.le l).
Proof.
  apply (StronglySorted_unique Z.le).
  - apply StronglySorted_merge_sort; apply _.
  - apply insert_timestamp_sorted, StronglySorted_merge_sort; apply _.
  - rewrite insert_timestamp_perm, !merge_sort_Permutation.
    by rewrite <- Permutation_cons_append.
Qed.

Lemma accepted_timestamps_snoc readings reading :
  accepted_timestamps parse_datetime (readings ++ [reading])
  = accepted_timestamps parse_datetime readings
    ++ map r_timestamp (new_rows reading).
Proof.
  unfold accepted_timestamps. rewrite bind_app. simpl. by rewrite app_nil_r.
Qed.

(** X2.  After any sequence of appends to a fresh store, the buffer holds
    the newest 10000 of all the readings the store accepted: its timestamps
    are the last [max_records_default] entries of the accepted timestamps in
    ascending order. *)
Theorem store_keeps_newest (readings : list Reading) :
  let accepted :=
    merge_sort Z.le (accepted_timestamps parse_datetime readings) in
  timestamps (get_all_data (add_readings readings init))
  = drop (length accepted - max_records_default) accepted.
Proof.
  induction readings as [|reading readings IH] using rev_ind; [done|].
  cbn zeta in *. rewrite add_readings_snoc, accepted_timestamps_snoc.
  set (s := add_readings readings init) in *.
  set (acc := accepted_timestamps parse_datetime readings) in *.
  pose proof (add_readings_inv parse_datetime readings init init_inv)
    as [Hs Hl]. fold s in Hs, Hl.
  assert (Hcap : _max_records s = max_records_default)
    by apply add_readings_max_records.
  unfold DataStorage.new_rows.
  destruct (to_datetime (rd_timestamp reading)) as [ns|e] eqn:H.
  - rewrite (add_reading_ok _ _ _ _ H). unfold get_all_data. simpl.
    rewrite merge_sort_snoc, appended_timestamps by done.
    unfold get_all_data, timestamps in IH. fold (store_rows s) in IH.
    set (L := merge_sort Z.le acc) in *.
    assert (Hsorted : StronglySorted Z.le L)
      by (apply StronglySorted_merge_sort; apply _).
    assert (Hlen : length (store_rows s)
                   = (length L - (length L - max_records_default))%nat).
    { rewrite <- (length_map r_timestamp), IH. apply length_drop. }
    rewrite IH, Hcap. clear IH.
    assert (Hins : length (insert_timestamp ns L) = S (length L))
      by apply (Permutation_length (insert_timestamp_perm ns L)).
    rewrite Hins.
    destruct (Nat.le_gt_cases (length L) max_records_default) as [Hle|Hgt].
    + replace (length L - max_records_default)%nat with 0%nat in * by lia.
      rewrite Nat.sub_0_r in Hlen. rewrite Hlen. done.
    + replace (S (length (store_rows s)) - max_records_default)%nat
        with 1%nat by lia.
      replace (S (length L) - max_records_default)%nat
        with (S (length L - max_records_default)) by lia.
      symmetry. apply insert_timestamp_drop; [done|lia].
  - rewrite (add_reading_raise _ _ _ _ H). simpl. rewrite app_nil_r.
    exact IH.
Qed.

End Histories.

Section StoreQueryProperties.

Import DataStorage StoreQueries.

Variable parse_datetime : string → option Z.

#[local] Abbreviation add_reading := (DataStorage.add_reading parse_datetime).
#[local] Abbreviation to_datetime := (DataStorage.to_datetime parse_datetime).
#[local] Abbreviation history := (history parse_datetime).

Lemma last_timestamps rows : last (map r_timestamp rows) = r_timestamp <$> last rows.
Proof. apply (fmap_last r_timestamp). Qed.

Lemma sorted_last_newest rows r :
  StronglySorted ts_le rows → last rows = Some r →
  r ∈ rows ∧ Forall (λ a, ts_le a r) rows.
Proof.
  intros Hs El. apply last_Some in El as [l' ->]. split.
  - set_solver.
  - apply StronglySorted_app_le in Hs. apply Forall_app. split.
    + eapply Forall_impl; [exact Hs|]. simpl. intros a Ha.
      by inversion Ha.
    + apply Forall_singleton. unfold ts_le. lia.
Qed.

(** X5.  On a store reached from a fresh one by any appends and clears,
    [get_latest_reading] returns a stored reading that no stored reading is
    newer than, [get_latest_timestamp] returns its timestamp, and both
    return [None] exactly when the store is empty. *)
Theorem latest_reading_is_newest (ops : list operation) :
  let s := history ops in
  match get_latest_reading s with
  | None => get_total_readings s = 0%nat ∧ get_latest_timestamp s = None
  | Some r =>
      r ∈ df_rows (get_all_data s)
      ∧ get_latest_timestamp s = Some (r_timestamp r)
      ∧ Forall (λ r', (r_timestamp r' <= r_timestamp r)%Z)
               (df_rows (get_all_data s))
  end.
Proof.
  intros s. pose proof (history_sorted parse_datetime ops) as Hs. fold s in Hs.
  unfold get_latest_reading, get_latest_timestamp, get_total_readings,
    get_all_data, timestamps, df_empty, df_len.
  destruct (df_rows (_data s)) as [|x rows] eqn:E; [done|].
  rewrite last_timestamps.
  destruct (last (x :: rows)) as [r|] eqn:El.
  - destruct (sorted_last_newest _ _ Hs El) as [Hin Hall]. done.
  - by apply last_None in El.
Qed.

Lemma last_insert_timestamp t l :
  StronglySorted Z.le l →
  last (insert_timestamp t l)
  = Some (match last l with Some x => Z.max x t | None => t end).
Proof.
  induction 1 as [|x l Hl IH Hx]; [done|]. cbn [insert_timestamp].
  destruct (Z.leb_spec t x) as [Hle|Hgt].
  - rewrite (last_cons t). destruct (last (x :: l)) as [y|] eqn:Ey.
    + f_equal. apply last_Some in Ey as [l' Ey].
      assert (Hy : (x <= y)%Z).
      { destruct l' as [|a l']; simplify_eq/=; [lia|].
        apply Forall_app in Hx as [_ Hx]. by inversion Hx. }
      lia.
    + by apply last_None in Ey.
  - rewrite (last_cons x), IH. rewrite (last_cons x).
    destruct (last l) as [y|]; f_equal; lia.
Qed.

Lemma last_drop {A} (l : list A) n :
  (n < length l)%nat → last (drop n l) = last l.
Proof.
  intros Hn. rewrite <- (take_drop n l) at 2. rewrite last_app.
  destruct (last (drop n l)) eqn:E; [done|].
  apply last_None in E. apply (f_equal length) in E.
  rewrite length_drop in E. simpl in E. lia.
Qed.

(** X6.  On a store reached from a fresh one by any appends and clears, a
    successful append moves the latest timestamp to the maximum of the
    former latest timestamp and the timestamp of the new reading. *)
Theorem latest_timestamp_after_append
    (ops : list operation) (reading : Reading) (ns : Z) :
  to_datetime (rd_timestamp reading) = Ok ns →
  let s := history ops in
  get_latest_timestamp (add_reading reading s).2
  = Some (match get_latest_timestamp s with
          | Some t => Z.max t ns
          | None => ns
          end).
Proof.
  intros H s. rewrite (add_reading_ok _ _ _ _ H). simpl.
  destruct (history_inv parse_datetime ops) as [Hs Hl]. fold s in Hs, Hl.
  pose proof (appended_len s reading ns) as Hlen.
  pose proof (history_max_records parse_datetime ops) as Hcap. fold s in Hcap.
  pose proof max_records_default_Z as Hc.
  unfold get_latest_timestamp. cbn [_data].
  destruct (df_empty (appended s reading ns)) eqn:E.
  { apply df_empty_len in E. lia. }
  rewrite appended_timestamps by done.
  assert (Hins : length (insert_timestamp ns (map r_timestamp (store_rows s)))
                 = S (length (store_rows s))).
  { rewrite (Permutation_length (insert_timestamp_perm _ _)). simpl.
    by rewrite length_map. }
  rewrite last_drop by lia.
  rewrite last_insert_timestamp by by apply sorted_timestamps.
  f_equal. unfold timestamps, store_rows, df_empty.
  by destruct (df_rows (_data s)).
Qed.

Lemma filter_sorted {A} (R : A → A → Prop) (p : A → bool) l :
  StronglySorted R l → StronglySorted R (List.filter p l).
Proof.
  induction 1 as [|x l Hl IH Hx]; simpl; [constructor|].
  destruct (p x); [|done]. constructor; [done|].
  apply Forall_forall. intros y Hy. apply list_elem_of_In, filter_In in Hy.
  rewrite Forall_forall in Hx. apply Hx, list_elem_of_In. tauto.
Qed.

Lemma elem_of_filter {A} (p : A → bool) l x :
  x ∈ List.filter p l ↔ x ∈ l ∧ p x = true.
Proof. rewrite !list_elem_of_In. apply filter_In. Qed.

(** X7.  On a store reached from a fresh one by any appends and clears,
    [get_data_by_timerange] returns, in ascending order of time, exactly the
    stored readings whose timestamp lies between the two bounds (both
    included); a range that spans from the earliest to the latest stored
    timestamp returns the whole buffer. *)
Theorem timerange_query (ops : list operation) (start_time end_time : Z) :
  let s := history ops in
  let d := get_data_by_timerange start_time end_time s in
  Sorted ts_le (df_rows d)
  ∧ (∀ r, r ∈ df_rows d
          ↔ r ∈ df_rows (get_all_data s)
            ∧ (start_time <= r_timestamp r <= end_time)%Z)
  ∧ (∀ first latest,
       head (timestamps (get_all_data s)) = Some first →
       get_latest_timestamp s = Some latest →
       (start_time <= first)%Z → (latest <= end_time)%Z →
       d = get_all_data s).
Proof.
  intros s d. subst d.
  pose proof (history_sorted parse_datetime ops) as Hs. fold s in Hs.
  unfold get_data_by_timerange, get_all_data, get_latest_timestamp.
  destruct (df_empty (_data s)) eqn:E.
  - unfold df_empty in E. destruct (df_rows (_data s)) eqn:Er; [|done].
    simpl. repeat split; try constructor; try set_solver.
  - cbn [select_rows df_rows]. split; [|split].
    + by apply StronglySorted_Sorted, filter_sorted.
    + intros r. rewrite elem_of_filter, andb_true_iff, !Z.leb_le. tauto.
    + intros first latest Hf Hlast Hstart Hend.
      unfold timestamps in Hf, Hlast. rewrite last_timestamps in Hlast.
      destruct (_data s) as [cols rows]. unfold select_rows.
      cbn [df_rows df_columns] in *.
      f_equal. apply filter_all.
      destruct (last rows) as [r|] eqn:El; [|done].
      destruct (sorted_last_newest _ _ Hs El) as [_ Hall].
      destruct rows as [|x rows]; [done|]. simplify_eq/=.
      apply StronglySorted_inv in Hs as [_ Hx].
      apply Forall_cons. split.
      * apply Forall_cons in Hall as [Hxr _]. unfold ts_le in Hxr.
        apply andb_true_iff. rewrite !Z.leb_le. lia.
      * apply Forall_cons in Hall as [_ Hall].
        apply Forall_forall. intros a Ha.
        rewrite Forall_forall in Hx, Hall.
        specialize (Hx a Ha). specialize (Hall a Ha). unfold ts_le in *.
        apply andb_true_iff. rewrite !Z.leb_le. lia.
Qed.

(** X8.  When no stored reading is newer than the current time,
    [get_recent_data] is the time-range query from the cutoff
    [now - hours] to [now]. *)
Theorem recent_data_is_a_timerange
    (ops : list operation) (now hours : Z) :
  let s := history ops in
  (∀ latest, get_latest_timestamp s = Some latest → (latest <= now)%Z) →
  get_recent_data now hours s
  = get_data_by_timerange (now - hours * hour) now s.
Proof.
  intros s Hnow.
  pose proof (history_sorted parse_datetime ops) as Hs. fold s in Hs.
  unfold get_recent_data, get_data_by_timerange, get_latest_timestamp in *.
  destruct (df_empty (_data s)) eqn:E; [done|].
  unfold select_rows. f_equal. cbn zeta.
  unfold timestamps in Hnow. rewrite last_timestamps in Hnow.
  destruct (last (df_rows (_data s))) as [r|] eqn:El.
  - destruct (sorted_last_newest _ _ Hs El) as [_ Hall].
    specialize (Hnow _ eq_refl). revert Hall.
    generalize (df_rows (_data s)). clear -Hnow. intros l Hall.
    induction Hall as [|a l Ha Hall IH]; simpl; [done|].
    unfold ts_le in Ha.
    assert (Ht : (r_timestamp a <=? now)%Z = true) by (apply Z.leb_le; lia).
    rewrite Ht, andb_true_r. destruct (_ <=? _)%Z; by rewrite IH.
  - apply last_None in El. unfold df_empty in E. by rewrite El in E.
Qed.

End StoreQueryProperties.

Section StoreReports.

Import DataStorage StoreQueries.

Variable parse_datetime : string → option Z.

#[local] Abbreviation add_reading := (DataStorage.add_reading parse_datetime).
#[local] Abbreviation to_datetime := (DataStorage.to_datetime parse_datetime).
#[local] Abbreviation history := (history parse_datetime).

(** X10.  [clear_data] succeeds and leaves the store as a fresh one, whatever
    was appended before: the operations that precede a clear have no effect
    on what follows. *)
Theorem clear_data_forgets (before after : list operation) :
  clear_data (history before) = (true, init)
  ∧ history (before ++ ClearData :: after) = history after.
Proof.
  assert (H : clear_data (history before) = (true, init)).
  { unfold clear_data. by rewrite history_max_records. }
  split; [done|].
  unfold history. rewrite foldl_app. cbn [foldl perform].
  fold (history before). by rewrite H.
Qed.

(** X13.  On a store reached from a fresh one by any appends and clears,
    [get_memory_usage] does not raise, and reports a capacity of 10000, a
    number of records within the capacity and a usage between 0 and 100
    percent. *)
Theorem memory_usage_within_capacity (ops : list operation) :
  ∃ info q,
    get_memory_usage (history ops) = Some info
    ∧ records_count info = get_total_readings (history ops)
    ∧ Z.of_nat (max_records info) = 10000%Z
    ∧ (records_count info ≤ max_records info)%nat
    ∧ usage_percentage info = Fin q ∧ (0 <= q)%Q ∧ (q <= 100)%Q.
Proof.
  destruct (history_inv parse_datetime ops) as [_ Hl].
  pose proof (history_max_records parse_datetime ops) as Hcap.
  pose proof max_records_default_Z as Hc.
  unfold get_memory_usage, store_rows in *. rewrite Hcap in *.
  destruct (Nat.eqb_spec max_records_default 0) as [E|E]; [lia|].
  eexists _, _. split; [reflexivity|]. cbn.
  split; [done|]. split; [done|]. split; [done|].
  unfold of_nat, of_Z, fdiv.
  assert (Hz : Qeq_bool (inject_Z (Z.of_nat max_records_default)) 0 = false).
  { rewrite Hc. reflexivity. }
  rewrite Hz. cbn [fmul]. split; [reflexivity|].
  rewrite Hc. unfold df_len.
  assert (H0 : (0 <= Z.of_nat (length (df_rows (_data (history ops)))))%Z) by lia.
  assert (H1 : (Z.of_nat (length (df_rows (_data (history ops)))) <= 10000)%Z)
    by lia.
  revert H0 H1. generalize (Z.of_nat (length (df_rows (_data (history ops))))).
  intros z H0 H1.
  assert (Hq0 : (0 <= inject_Z z)%Q) by (unfold Qle; simpl; lia).
  assert (Hq1 : (inject_Z z <= 10000)%Q) by (unfold Qle; simpl; lia).
  assert (Hd : (inject_Z z / inject_Z 10000 * inject_Z 100
                == inject_Z z / 100)%Q) by (by field).
  rewrite Hd. split.
  - apply Qle_shift_div_l; lra.
  - apply Qle_shift_div_r; lra.
Qed.

Lemma min_timestamp_sorted x l :
  StronglySorted Z.le (x :: l) → min_timestamp (x :: l) = x.
Proof.
  unfold min_timestamp. cbn [hd].
  intros H. apply StronglySorted_inv in H as [_ H].
  cbn [foldr]. induction H as [|y l Hy Hl IH]; simpl; [lia|]. lia.
Qed.

Lemma max_timestamp_sorted l t :
  StronglySorted Z.le l → last l = Some t →
  Forall (λ a, (a <= t)%Z) l.
Proof.
  intros Hs El. apply last_Some in El as [l' ->].
  apply StronglySorted_app_le in Hs. apply Forall_app. split.
  - eapply Forall_impl; [exact Hs|]. simpl. intros a Ha. by inversion Ha.
  - apply Forall_singleton. lia.
Qed.

Lemma foldr_max_elem d l t : t ∈ l → (t <= foldr Z.max d l)%Z.
Proof.
  induction l as [|y l IH]; [set_solver|]. rewrite elem_of_cons.
  intros [-> | H]; simpl; [lia|]. specialize (IH H). lia.
Qed.

Lemma foldr_max_le d l b :
  (d <= b)%Z → Forall (λ t, (t <= b)%Z) l → (foldr Z.max d l <= b)%Z.
Proof. intros Hd. induction 1 as [|y l Hy Hl IH]; simpl; lia. Qed.

(** X11.  On a store reached from a fresh one by any appends and clears,
    [get_sensor_summary] returns the empty dict exactly when the store is
    empty; otherwise its metadata give the number of stored readings, and a
    time span that runs from the first row of the buffer to the latest
    timestamp. *)
Theorem sensor_summary_time_span (ops : list operation) :
  let s := history ops in
  match get_sensor_summary s with
  | None => has_data s = false
  | Some summary =>
      total_records (metadata summary) = get_total_readings s
      ∧ ∃ first latest,
          head (timestamps (get_all_data s)) = Some first
          ∧ get_latest_timestamp s = Some latest
          ∧ time_span (metadata summary) = Some (first, latest)
          ∧ (first <= latest)%Z
  end.
Proof.
  intros s. pose proof (history_sorted parse_datetime ops) as Hs. fold s in Hs.
  apply sorted_timestamps in Hs.
  unfold get_sensor_summary, has_data, get_latest_timestamp, get_all_data,
    get_total_readings.
  destruct (df_empty (_data s)) eqn:E; [done|]. cbn.
  split; [done|].
  unfold timestamps in *.
  destruct (map r_timestamp (df_rows (_data s))) as [|x l] eqn:El.
  { unfold df_empty in E. by destruct (df_rows (_data s)). }
  destruct (last (x :: l)) as [t|] eqn:Et; [|by apply last_None in Et].
  exists x, t. split; [done|]. split; [done|].
  pose proof (max_timestamp_sorted _ _ Hs Et) as Hall.
  assert (Hx : (x <= t)%Z) by by apply Forall_cons in Hall as [? _].
  split; [|done]. f_equal. f_equal.
  - by apply min_timestamp_sorted.
  - unfold max_timestamp. cbn [hd]. apply Z.le_antisymm.
    + by apply foldr_max_le.
    + apply foldr_max_elem. apply last_Some in Et as [l' ->]. set_solver.
Qed.

End StoreReports.

Section ColumnSummaries.

#[local] Open Scope Q_scope.

(** The loop that fills a per-sensor dict. *)
Lemma sensor_loop_lookup {A} (present : string → bool) (f : string → A)
    cols (m : gmap string A) c :
  foldl (λ acc column, if present column then <[column := f column]> acc
                       else acc) m cols !! c
  = if bool_decide (c ∈ cols) && present c then Some (f c) else m !! c.
Proof.
  revert m. induction cols as [|x cols IH]; intros m; [done|].
  cbn [foldl]. rewrite IH.
  destruct (decide (c = x)) as [->|Hne].
  - rewrite (bool_decide_eq_true_2 (x ∈ x :: cols)) by left.
    destruct (present x) eqn:Hp.
    + rewrite lookup_insert_eq. by destruct (bool_decide _).
    + by rewrite !andb_false_r.
  - assert (Hin : bool_decide (c ∈ x :: cols) = bool_decide (c ∈ cols)).
    { apply bool_decide_ext. rewrite elem_of_cons. naive_solver. }
    rewrite Hin. destruct (_ && _); [done|].
    destruct (present x); [|done]. by rewrite lookup_insert_ne.
Qed.

Lemma inject_Z_S n :
  inject_Z (Z.of_nat (S n)) == inject_Z (Z.of_nat n) + 1.
Proof. rewrite Nat2Z.inj_succ. unfold Z.succ. by rewrite inject_Z_plus. Qed.

Lemma Qsum_between lo hi ts :
  Forall (λ t, lo <= t ∧ t <= hi) ts →
  inject_Z (Z.of_nat (length ts)) * lo <= Qsum ts
  ∧ Qsum ts <= inject_Z (Z.of_nat (length ts)) * hi.
Proof.
  induction 1 as [|t ts [Hlo Hhi] Hts [IHlo IHhi]].
  - simpl. split; [apply Qle_lteq; right; ring|apply Qle_lteq; right; ring].
  - cbn [length Qsum foldr]. rewrite inject_Z_S.
    fold (Qsum ts). split.
    + assert (E : (inject_Z (Z.of_nat (length ts)) + 1) * lo
                  == lo + inject_Z (Z.of_nat (length ts)) * lo) by ring.
      rewrite E. lra.
    + assert (E : (inject_Z (Z.of_nat (length ts)) + 1) * hi
                  == hi + inject_Z (Z.of_nat (length ts)) * hi) by ring.
      rewrite E. lra.
Qed.

Lemma Qmean_between lo hi ts :
  ts ≠ [] → Forall (λ t, lo <= t ∧ t <= hi) ts →
  lo <= Qmean ts ∧ Qmean ts <= hi.
Proof.
  intros Hne Hall. destruct (Qsum_between _ _ _ Hall) as [Hlo Hhi].
  assert (Hn : 0 < inject_Z (Z.of_nat (length ts))).
  { destruct ts; [done|]. unfold Qlt. simpl. lia. }
  unfold Qmean. split.
  - apply Qle_shift_div_l; [done|]. by rewrite Qmult_comm.
  - apply Qle_shift_div_r; [done|]. by rewrite Qmult_comm.
Qed.

Lemma finite_values (v : list num) :
  Forall (λ x, ∃ q, x = Fin q) v → ∃ ts, Forall2 is_fin v ts.
Proof.
  induction 1 as [|x v [q ->] Hv [ts IH]].
  - exists []. constructor.
  - exists (q :: ts). constructor; [apply is_fin_Fin|done].
Qed.

Lemma dropna_finite l :
  Forall (λ v, v = NaN ∨ ∃ q, v = Fin q) l →
  Forall (λ x, ∃ q, x = Fin q) (dropna l).
Proof.
  induction 1 as [|x l [-> | [q ->]] Hl IH]; simpl; [done|done|].
  by constructor; [exists q|].
Qed.

(** The mean of a column of rationals lies between its minimum and its
    maximum. *)
Lemma mean_between_extremes l :
  Forall (λ v, v = NaN ∨ ∃ q, v = Fin q) l → dropna l ≠ [] →
  ∃ lo m hi,
    pd_min l = Fin lo ∧ mean l = Fin m ∧ pd_max l = Fin hi
    ∧ lo <= m ∧ m <= hi.
Proof.
  intros Hl Hne. apply dropna_finite in Hl.
  unfold pd_min, pd_max, mean.
  destruct (dropna l) as [|x v] eqn:E; [done|].
  apply Forall_cons in Hl as [[q0 ->] Hv].
  destruct (finite_values v Hv) as [ts Hts].
  destruct (foldl_min_bound v ts q0 Hts) as (lo & -> & Hlo0 & Hlo).
  destruct (foldl_max_bound v ts q0 Hts) as (hi & -> & Hhi0 & Hhi).
  assert (Hall : Forall2 is_fin (Fin q0 :: v) (q0 :: ts))
    by (constructor; [apply is_fin_Fin|done]).
  destruct (is_fin_np_mean _ _ Hall) as (m & Hm & Hmq); [done|].
  unfold np_mean in Hm. rewrite Hm.
  assert (Hb : Forall (λ t, lo <= t ∧ t <= hi) (q0 :: ts)).
  { constructor; [split; done|].
    rewrite Forall_forall in Hlo, Hhi. apply Forall_forall.
    intros t Ht. split; [by apply Hlo|by apply Hhi]. }
  destruct (Qmean_between lo hi (q0 :: ts)) as [H1 H2]; [done|done|].
  exists lo, m, hi. repeat split; try done; lra.
Qed.

End ColumnSummaries.

Section SensorSummaries.

Import DataStorage StoreQueries.

Lemma dropna_length_le l : (length (dropna l) ≤ length l)%nat.
Proof. unfold dropna. induction l as [|x l IH]; simpl; [done|].
  destruct (notna x); simpl; lia. Qed.

(** X12.  For a store with data and a sensor column of its buffer,
    [get_sensor_summary] has an entry: its count is at most the number of
    stored readings, its latest value is the cell of the latest reading, and
    when the values that are there are rationals and there is at least one,
    the mean lies between the minimum and the maximum. *)
Theorem sensor_summary_entry (s : Store) (column : string) :
  has_data s = true →
  column ∈ sensor_columns →
  has_column column (get_all_data s) = true →
  ∃ summary e,
    get_sensor_summary s = Some summary
    ∧ per_sensor summary !! column = Some e
    ∧ (sm_count e ≤ total_records (metadata summary))%nat
    ∧ Some (sm_latest e) = cell column <$> get_latest_reading s
    ∧ (Forall (λ v, v = NaN ∨ ∃ q, v = Fin q)
              (get_col column (get_all_data s)) →
       (0 < sm_count e)%nat →
       ∃ lo m hi,
         sm_min e = Fin lo ∧ sm_mean e = Fin m ∧ sm_max e = Fin hi
         ∧ (lo <= m)%Q ∧ (m <= hi)%Q).
Proof.
  unfold has_data, get_all_data, get_sensor_summary, get_latest_reading.
  intros Hd Hc Hp. apply negb_true_iff in Hd. rewrite Hd.
  eexists _, _. split; [reflexivity|]. cbn [per_sensor metadata total_records].
  unfold for_sensor_columns.
  rewrite (sensor_loop_lookup (λ c, has_column c (_data s))
             (λ c, mkSensorSummary _ _ _ _ _ _)).
  rewrite Hp, (bool_decide_eq_true_2 _ Hc). cbn [andb].
  split; [reflexivity|]. cbn.
  split; [|split].
  - rewrite <- (get_col_length column). apply dropna_length_le.
  - unfold get_col. rewrite (fmap_last (cell column)).
    destruct (last (df_rows (_data s))) eqn:E; [done|].
    apply last_None in E. unfold df_empty in Hd. by rewrite E in Hd.
  - intros Hfin Hpos. apply mean_between_extremes; [done|].
    intros E. rewrite E in Hpos. simpl in Hpos. lia.
Qed.

End SensorSummaries.

Section StoredRows.

Import DataStorage StoreQueries.

Variable parse_datetime : string → option Z.

#[local] Abbreviation add_reading := (DataStorage.add_reading parse_datetime).
#[local] Abbreviation to_datetime := (DataStorage.to_datetime parse_datetime).
#[local] Abbreviation new_rows := (DataStorage.new_rows parse_datetime).
#[local] Abbreviation history := (history parse_datetime).
#[local] Abbreviation perform := (perform parse_datetime).

Lemma tail_rows_subseteq n l : tail_rows n l ⊆ l.
Proof. apply subseteq_drop. Qed.

(** A row of the buffer after an operation was there before, or is the row
    of the reading appended. *)
Lemma perform_rows s o r :
  r ∈ store_rows (perform s o) →
  r ∈ store_rows s
  ∨ ∃ reading, o = AddReading reading ∧ r ∈ new_rows reading.
Proof.
  destruct o as [reading|]; simpl; [|set_solver].
  unfold DataStorage.new_rows.
  destruct (to_datetime (rd_timestamp reading)) as [ns|e] eqn:H.
  - rewrite (add_reading_ok _ _ _ _ H). unfold store_rows at 1. simpl.
    rewrite appended_rows. intros Hr. apply tail_rows_subseteq in Hr.
    rewrite sort_rows_perm in Hr. apply elem_of_app in Hr as [Hr|Hr].
    + by left.
    + right. exists reading. split; [done|]. by rewrite H.
  - rewrite (add_reading_raise _ _ _ _ H). by left.
Qed.

Lemma history_rows ops r :
  r ∈ store_rows (history ops) →
  ∃ reading, AddReading reading ∈ ops ∧ r ∈ new_rows reading.
Proof.
  induction ops as [|o ops IH] using rev_ind; [set_solver|].
  rewrite history_snoc. intros Hr.
  apply perform_rows in Hr as [Hr|(reading & -> & Hr)].
  - destruct (IH Hr) as (reading & Hin & Hrow). exists reading.
    split; [|done]. apply elem_of_app. by left.
  - exists reading. split; [|done]. apply elem_of_app. right. set_solver.
Qed.

(** X4.  A store reached from a fresh one by any appends and clears holds
    only rows of readings that were appended: each stored row carries the
    normalised timestamp, the values and the sensor id of one of them,
    unaltered. *)
Theorem stored_rows_come_from_readings (ops : list operation) (r : Row) :
  r ∈ df_rows (get_all_data (history ops)) →
  ∃ reading,
    AddReading reading ∈ ops
    ∧ to_datetime (rd_timestamp reading) = Ok (r_timestamp r)
    ∧ r_values r = rd_values reading
    ∧ r_sensor_id r = rd_sensor_id reading.
Proof.
  intros Hr. apply history_rows in Hr as (reading & Hin & Hr).
  exists reading. split; [done|]. unfold DataStorage.new_rows in Hr.
  destruct (to_datetime (rd_timestamp reading)) as [ns|e]; [|set_solver].
  simpl in Hr. apply list_elem_of_singleton in Hr as ->. done.
Qed.

(** X9.  When every reading appended carries the same sensor id,
    [get_data_by_sensor] returns the whole buffer for that id and no row for
    any other id. *)
Theorem single_sensor_query (ops : list operation) (sensor_id : string) :
  (∀ reading, AddReading reading ∈ ops →
              rd_sensor_id reading = Some sensor_id) →
  get_data_by_sensor sensor_id (history ops) = get_all_data (history ops)
  ∧ ∀ other, other ≠ sensor_id →
             df_rows (get_data_by_sensor other (history ops)) = [].
Proof.
  intros Hall.
  assert (Hrows : Forall (λ r, r_sensor_id r = Some sensor_id)
                         (store_rows (history ops))).
  { apply Forall_forall. intros r Hr.
    apply history_rows in Hr as (reading & Hin & Hr).
    unfold DataStorage.new_rows in Hr.
    destruct (to_datetime (rd_timestamp reading)) as [ns|e]; [|set_solver].
    simpl in Hr. apply list_elem_of_singleton in Hr as ->. simpl. auto. }
  unfold get_data_by_sensor, get_all_data, select_rows, store_rows in *.
  destruct (_data (history ops)) as [cols rows]. simpl in *. split.
  - f_equal. apply filter_all. eapply Forall_impl; [exact Hrows|].
    simpl. intros r Hr. by apply bool_decide_eq_true.
  - intros other Hne. induction Hrows as [|r rows Hr Hrows IH]; [done|].
    simpl. rewrite bool_decide_eq_false_2; [done|]. naive_solver.
Qed.

Lemma insert_row_after r x l :
  (r_timestamp x < r_timestamp r)%Z →
  insert_row r (x :: l) = x :: insert_row r l.
Proof.
  intros H. simpl.
  by destruct (Z.leb_spec (r_timestamp r) (r_timestamp x)); [lia|].
Qed.

(** Sorting rows with a strictly older row appended puts that row first:
    it is the one row of the least timestamp. *)
Lemma sort_rows_older rows r :
  Forall (λ x, (r_timestamp r < r_timestamp x)%Z) rows →
  sort_rows (rows ++ [r]) = r :: sort_rows rows.
Proof.
  induction 1 as [|x rows Hx Hr IH]; [done|].
  unfold sort_rows in *. cbn [app foldr]. rewrite IH.
  by rewrite insert_row_after.
Qed.

(** X3.  A reading that is strictly older than every reading of a full
    buffer is evicted by its own append: [add_reading] returns [True], and
    the buffer holds the rows it held, in ascending order of time.  When
    the stored timestamps ascend strictly, the list of rows is what it
    was.  (Among stored rows of equal timestamp the sort may change the
    order.) *)
Theorem add_reading_older_than_full_buffer
    (s : Store) (reading : Reading) (ns : Z) :
  to_datetime (rd_timestamp reading) = Ok ns →
  get_total_readings s = _max_records s →
  Forall (λ r, (ns < r_timestamp r)%Z) (df_rows (get_all_data s)) →
  let s' := (add_reading reading s).2 in
  (add_reading reading s).1 = true
  ∧ df_rows (get_all_data s') ≡ₚ df_rows (get_all_data s)
  ∧ Sorted ts_le (df_rows (get_all_data s'))
  ∧ (Sorted Z.lt (timestamps (get_all_data s)) →
     df_rows (get_all_data s') = df_rows (get_all_data s)).
Proof.
  unfold get_all_data, get_total_readings, df_len, timestamps.
  intros H Hfull Hold. rewrite (add_reading_ok _ _ _ _ H). cbn [fst snd _data].
  assert (Hrows : df_rows (appended s reading ns)
                  = sort_rows (df_rows (_data s))).
  { rewrite appended_rows. unfold store_rows.
    cbn [new_row_frame df_rows].
    rewrite sort_rows_older by done.
    unfold tail_rows. cbn [length]. rewrite sort_rows_length, <- Hfull.
    by replace (S (length (df_rows (_data s)))
                - length (df_rows (_data s)))%nat with 1%nat by lia. }
  rewrite Hrows.
  split; [done|]. split; [apply sort_rows_perm|].
  split; [apply StronglySorted_Sorted, sort_rows_sorted|].
  apply sort_rows_fixed.
Qed.

End StoredRows.

(** ** The smoothing filter *)

Section SavitzkyGolay.

Variable P : num → Prop.

Hypothesis P_dot :
  ∀ cs x0 x1 x2 x3 x4,
    cs ∈ savgol_coefficients →
    P x0 → P x1 → P x2 → P x3 → P x4 →
    P (savgol_dot cs (x0, x1, x2, x3, x4)).

Lemma savgol_interior_cons x0 x1 x2 x3 x4 l :
  savgol_interior (x0 :: x1 :: x2 :: x3 :: x4 :: l)
  = savgol_dot (-3, 12, 17, 12, -3)%Z (x0, x1, x2, x3, x4)
    :: savgol_interior (x1 :: x2 :: x3 :: x4 :: l).
Proof. reflexivity. Qed.

Lemma savgol_interior_length l :
  length (savgol_interior l) = (length l - 4)%nat.
Proof.
  induction l as [|x0 l IH]; [done|].
  destruct l as [|x1 [|x2 [|x3 [|x4 l]]]]; try done.
  rewrite savgol_interior_cons. cbn [length] in *. rewrite IH. lia.
Qed.

Lemma savgol_interior_Forall l :
  Forall P l → Forall P (savgol_interior l).
Proof.
  induction l as [|x0 l IH]; [done|]. intros Hl.
  destruct l as [|x1 [|x2 [|x3 [|x4 l]]]]; try by constructor.
  rewrite savgol_interior_cons.
  pose proof Hl as Hl'.
  apply Forall_cons in Hl' as [H0 Hl'].
  constructor; [|by apply IH].
  apply Forall_cons in Hl' as [H1 Hl'].
  apply Forall_cons in Hl' as [H2 Hl'].
  apply Forall_cons in Hl' as [H3 Hl'].
  apply Forall_cons in Hl' as [H4 Hl'].
  apply P_dot; try done. unfold savgol_coefficients. set_solver.
Qed.

Lemma savgol_5_2_Forall l : Forall P l → Forall P (savgol_5_2 l).
Proof.
  intros Hl. unfold savgol_5_2.
  destruct l as [|x0 [|x1 [|x2 [|x3 [|x4 l]]]]]; try done.
  assert (Hd : Forall P (drop (length (x0 :: x1 :: x2 :: x3 :: x4 :: l) - 5)
                              (x0 :: x1 :: x2 :: x3 :: x4 :: l)))
    by by apply Forall_drop.
  destruct (drop _ _) as [|y0 [|y1 [|y2 [|y3 [|y4 [|y5 t]]]]]]; try done.
  pose proof Hl as Hl'.
  apply Forall_cons in Hl' as [H0 Hl'].
  apply Forall_cons in Hl' as [H1 Hl'].
  apply Forall_cons in Hl' as [H2 Hl'].
  apply Forall_cons in Hl' as [H3 Hl'].
  apply Forall_cons in Hl' as [H4 Hl'].
  apply Forall_cons in Hd as [G0 Hd].
  apply Forall_cons in Hd as [G1 Hd].
  apply Forall_cons in Hd as [G2 Hd].
  apply Forall_cons in Hd as [G3 Hd].
  apply Forall_cons in Hd as [G4 Hd].
  apply Forall_app. split; [|apply Forall_app; split].
  - repeat (apply Forall_cons; split); [..|constructor];
      (apply P_dot; try done; unfold savgol_coefficients; set_solver).
  - by apply savgol_interior_Forall.
  - repeat (apply Forall_cons; split); [..|constructor];
      (apply P_dot; try done; unfold savgol_coefficients; set_solver).
Qed.

End SavitzkyGolay.

Lemma savgol_5_2_length l : length (savgol_5_2 l) = length l.
Proof.
  unfold savgol_5_2.
  destruct l as [|x0 [|x1 [|x2 [|x3 [|x4 l]]]]]; try done.
  destruct (drop _ _) as [|y0 [|y1 [|y2 [|y3 [|y4 [|y5 t]]]]]]; try done.
  rewrite !length_app, savgol_interior_length. cbn [length]. lia.
Qed.

Lemma smooth_length c l : length (smooth c l) = length l.
Proof. apply savgol_5_2_length. Qed.

Section SmoothingValues.

#[local] Open Scope Q_scope.

Lemma is_fin_savgol_dot c0 c1 c2 c3 c4 x0 x1 x2 x3 x4 q0 q1 q2 q3 q4 :
  is_fin x0 q0 → is_fin x1 q1 → is_fin x2 q2 → is_fin x3 q3 → is_fin x4 q4 →
  is_fin (savgol_dot (c0, c1, c2, c3, c4) (x0, x1, x2, x3, x4))
         ((inject_Z c0 * q0 + inject_Z c1 * q1 + inject_Z c2 * q2
           + inject_Z c3 * q3 + inject_Z c4 * q4) / 35).
Proof.
  intros H0 H1 H2 H3 H4. unfold savgol_dot.
  apply is_fin_fdiv; [|apply is_fin_of_Z|done].
  repeat apply is_fin_fadd; apply is_fin_fmul; try done; apply is_fin_of_Z.
Qed.

Lemma finite_is_fin v : finite v ↔ ∃ q, is_fin v q.
Proof.
  split.
  - intros [q ->]. exists q. apply is_fin_Fin.
  - intros (t & q & -> & _). by exists q.
Qed.

Lemma savgol_dot_finite cs x0 x1 x2 x3 x4 :
  finite x0 → finite x1 → finite x2 → finite x3 → finite x4 →
  finite (savgol_dot cs (x0, x1, x2, x3, x4)).
Proof.
  rewrite !finite_is_fin.
  intros [q0 H0] [q1 H1] [q2 H2] [q3 H3] [q4 H4].
  destruct cs as [[[[c0 c1] c2] c3] c4].
  eexists. by apply is_fin_savgol_dot.
Qed.

Lemma savgol_dot_constant cs c x0 x1 x2 x3 x4 :
  cs ∈ savgol_coefficients →
  is_fin x0 c → is_fin x1 c → is_fin x2 c → is_fin x3 c → is_fin x4 c →
  is_fin (savgol_dot cs (x0, x1, x2, x3, x4)) c.
Proof.
  intros Hcs H0 H1 H2 H3 H4. unfold savgol_coefficients in Hcs.
  repeat (apply elem_of_cons in Hcs as [-> | Hcs]);
    [..|by apply elem_of_nil in Hcs];
    (eapply is_fin_eq; [by apply is_fin_savgol_dot|]);
    unfold inject_Z; field.
Qed.

End SmoothingValues.

Section SmoothingStage.

Import DataProcessor.

Lemma foldl_step_inv {A B} (Inv : A → Prop) (g h : A → B → A)
    (l : list B) (a : A) :
  (∀ a b, Inv a → g a b = h a b) →
  (∀ a b, Inv a → Inv (h a b)) →
  Inv a → foldl g a l = foldl h a l.
Proof.
  intros Hgh Hinv. revert a.
  induction l as [|b l IH]; intros a Ha; simpl; [done|].
  rewrite Hgh by done. apply IH. by apply Hinv.
Qed.

Lemma smoothing_as_loop d :
  (5 ≤ df_len d)%nat →
  _apply_smoothing d = column_loop always smooth d sensor_columns.
Proof.
  intros Hlen. unfold _apply_smoothing.
  destruct (Nat.ltb_spec (df_len d) 5) as [Hlt|_]; [lia|].
  rewrite Nat.min_l by done. cbn zeta.
  change (5 mod 2 =? 0)%nat with false. cbn iota.
  unfold for_sensor_columns, column_loop.
  apply (foldl_step_inv (λ a, 5 ≤ df_len a)%nat); [| |done].
  - intros a c Ha. unfold column_step, always, savgol_filter, smooth.
    rewrite andb_true_r, get_col_length.
    destruct (Nat.leb_spec 5 (df_len a)) as [_|Hlt]; [|lia].
    by rewrite Nat.eqb_refl.
  - intros a c Ha. by rewrite (column_step_len _ _ smooth_length).
Qed.

Lemma smoothing_len d : df_len (_apply_smoothing d) = df_len d.
Proof.
  destruct (Nat.le_gt_cases 5 (df_len d)) as [Hge|Hlt].
  - rewrite smoothing_as_loop by done. apply column_loop_len, smooth_length.
  - unfold _apply_smoothing. apply Nat.ltb_lt in Hlt. by rewrite Hlt.
Qed.

Lemma smoothing_get_col c d :
  (5 ≤ df_len d)%nat → c ∈ sensor_columns → has_column c d = true →
  get_col c (_apply_smoothing d) = savgol_5_2 (get_col c d).
Proof.
  intros Hlen Hc Hp. rewrite smoothing_as_loop by done.
  rewrite (column_loop_get_col always smooth smooth_length)
    by (done || apply sensor_columns_NoDup).
  by rewrite Hp.
Qed.

(** X19.  The smoothing stage keeps the number of rows, and it leaves a
    sensor column whose values are all the same rational as it is. *)
Theorem smoothing_keeps_constant_columns
    (data : DataFrame) (column : string) (c : Q) :
  column ∈ sensor_columns →
  has_column column data = true →
  constant_column c (get_col column data) →
  df_len (_apply_smoothing data) = df_len data
  ∧ constant_column c (get_col column (_apply_smoothing data)).
Proof.
  intros Hc Hp Hconst. split; [apply smoothing_len|].
  destruct (Nat.le_gt_cases 5 (df_len data)) as [Hge|Hlt].
  - rewrite smoothing_get_col by done.
    apply savgol_5_2_Forall; [|done].
    intros cs x0 x1 x2 x3 x4. apply savgol_dot_constant.
  - unfold _apply_smoothing. apply Nat.ltb_lt in Hlt. by rewrite Hlt.
Qed.

End SmoothingStage.

(** ** What the pipeline keeps *)

Section RowKeys.

Variable cond : string → list num → bool.
Variable f : string → list num → list num.
Hypothesis f_length : ∀ c l, length (f c l) = length l.

Lemma set_col_keys c vs d :
  length vs = df_len d →
  map row_key (df_rows (set_col c vs d)) = map row_key (df_rows d).
Proof.
  unfold set_col, df_len. simpl. generalize (df_rows d). clear d.
  intros rows. revert vs.
  induction rows as [|r rows IH]; intros [|v vs] Hl; simplify_eq/=; [done|].
  f_equal. by apply IH.
Qed.

Lemma column_step_keys d c :
  map row_key (df_rows (column_step cond f d c)) = map row_key (df_rows d).
Proof.
  unfold column_step. destruct (_ && _); [|done].
  apply set_col_keys. by rewrite f_length, get_col_length.
Qed.

Lemma column_loop_keys cols d :
  map row_key (df_rows (column_loop cond f d cols))
  = map row_key (df_rows d).
Proof.
  revert d. induction cols as [|c cols IH]; intros d; [done|].
  unfold column_loop in *. cbn [foldl]. by rewrite IH, column_step_keys.
Qed.

End RowKeys.

Section PipelineShape.

Import DataProcessor.

(** The stage has left the columns of the frame and the time and the sensor
    of every row as they were. *)
Lemma fill_shape d :
  df_columns (_fill_missing_values d) = df_columns d
  ∧ map row_key (df_rows (_fill_missing_values d)) = map row_key (df_rows d).
Proof.
  rewrite fill_as_loop. split.
  - apply column_loop_columns.
  - apply column_loop_keys, fill_column_length.
Qed.

Lemma invalid_shape d :
  df_columns (_remove_invalid_values d) = df_columns d
  ∧ map row_key (df_rows (_remove_invalid_values d))
    = map row_key (df_rows d).
Proof.
  rewrite invalid_as_loop.
  destruct (fill_shape (column_loop always mask_invalid d sensor_columns))
    as [-> ->].
  split.
  - apply column_loop_columns.
  - apply column_loop_keys, mask_invalid_length.
Qed.

Lemma outliers_shape d :
  df_columns (_remove_outliers d) = df_columns d
  ∧ map row_key (df_rows (_remove_outliers d)) = map row_key (df_rows d).
Proof.
  rewrite outliers_as_loop.
  destruct (fill_shape
              (column_loop enough_values mask_outliers d sensor_columns))
    as [-> ->].
  split.
  - apply column_loop_columns.
  - apply column_loop_keys, mask_outliers_length.
Qed.

Lemma smoothing_shape d :
  df_columns (_apply_smoothing d) = df_columns d
  ∧ map row_key (df_rows (_apply_smoothing d)) = map row_key (df_rows d).
Proof.
  destruct (Nat.le_gt_cases 5 (df_len d)) as [Hge|Hlt].
  - rewrite smoothing_as_loop by done. split.
    + apply column_loop_columns.
    + apply column_loop_keys, smooth_length.
  - unfold _apply_smoothing. apply Nat.ltb_lt in Hlt. by rewrite Hlt.
Qed.

Lemma before_smoothing_shape d ro fm :
  df_columns (before_smoothing d ro fm) = df_columns d
  ∧ map row_key (df_rows (before_smoothing d ro fm))
    = map row_key (df_rows d).
Proof.
  unfold before_smoothing.
  destruct ro, fm;
    repeat match goal with
    | |- context [_remove_outliers ?x] =>
        destruct (outliers_shape x) as [-> ->]
    | |- context [_remove_invalid_values ?x] =>
        destruct (invalid_shape x) as [-> ->]
    | |- context [_fill_missing_values ?x] =>
        destruct (fill_shape x) as [-> ->]
    end; done.
Qed.

(** The pipeline with its smoothing stage. *)
Lemma clean_data_smoothed d ro fm :
  (5 < df_len d)%nat →
  clean_data d ro fm true
  = sort_values (_apply_smoothing (before_smoothing d ro fm)).
Proof.
  intros Hlen. unfold clean_data.
  destruct (df_empty d) eqn:E; [apply df_empty_len in E; lia|].
  fold (before_smoothing d ro fm). rewrite before_smoothing_len.
  apply Nat.ltb_lt in Hlen. by rewrite Hlen.
Qed.

(** The two shapes of the pipeline on a frame that has rows. *)
Lemma clean_data_cases d ro fm sm :
  df_empty d = false →
  clean_data d ro fm sm = sort_values (before_smoothing d ro fm)
  ∨ ((5 < df_len d)%nat
     ∧ clean_data d ro fm sm
       = sort_values (_apply_smoothing (before_smoothing d ro fm))).
Proof.
  intros Hne. destruct sm.
  - destruct (Nat.le_gt_cases (df_len d) 5) as [Hle|Hgt].
    + left. apply clean_data_unsmoothed; auto.
    + right. split; [done|]. by apply clean_data_smoothed.
  - left. apply clean_data_unsmoothed; auto.
Qed.

(** X14.  Whatever its options, [clean_data] neither drops nor adds a
    reading nor a column: the cleaned frame has the columns of the input and
    as many rows, the times and sensor ids of its rows are those of the
    input rows, and its rows are in ascending order of time when the input
    has rows at all. *)
Theorem clean_data_keeps_readings
    (data : DataFrame) (remove_outliers fill_missing smooth_data : bool) :
  let cleaned := clean_data data remove_outliers fill_missing smooth_data in
  df_columns cleaned = df_columns data
  ∧ df_len cleaned = df_len data
  ∧ map row_key (df_rows cleaned) ≡ₚ map row_key (df_rows data)
  ∧ (df_empty data = false → Sorted ts_le (df_rows cleaned)).
Proof.
  intros cleaned. subst cleaned.
  destruct (df_empty data) eqn:Hne.
  { unfold clean_data. rewrite Hne. done. }
  destruct (before_smoothing_shape data remove_outliers fill_missing)
    as [Hc Hk].
  destruct (smoothing_shape
              (before_smoothing data remove_outliers fill_missing))
    as [Hc' Hk'].
  assert (Hlen : ∀ d d' : DataFrame,
            map row_key (df_rows d') ≡ₚ map row_key (df_rows d) →
            df_len d' = df_len d).
  { intros d d' H. apply Permutation_length in H.
    by rewrite !length_map in H. }
  destruct (clean_data_cases data remove_outliers fill_missing smooth_data
              Hne) as [-> | [_ ->]].
  - assert (Hp : map row_key
                   (df_rows (sort_values (before_smoothing data remove_outliers
                                            fill_missing)))
                 ≡ₚ map row_key (df_rows data)).
    { rewrite <- Hk. apply Permutation_map, sort_rows_perm. }
    split; [done|]. split; [by apply Hlen|]. split; [done|].
    intros _. apply StronglySorted_Sorted, sort_rows_sorted.
  - assert (Hp : map row_key
                   (df_rows (sort_values
                      (_apply_smoothing
                         (before_smoothing data remove_outliers fill_missing))))
                 ≡ₚ map row_key (df_rows data)).
    { rewrite <- Hk, <- Hk'. apply Permutation_map, sort_rows_perm. }
    split; [by rewrite <- Hc, <- Hc'|]. split; [by apply Hlen|].
    split; [done|].
    intros _. apply StronglySorted_Sorted, sort_rows_sorted.
Qed.

Lemma in_range_finite c v : in_range c v → finite v.
Proof. destruct v; try done. intros _. by eexists. Qed.

(** X15.  Whatever its options, [clean_data] leaves no gap in a sensor
    column of a frame that has rows: every value of the cleaned column is a
    rational, neither missing nor infinite. *)
Theorem clean_data_leaves_no_gap
    (data : DataFrame) (remove_outliers fill_missing smooth_data : bool)
    (column : string) :
  df_empty data = false →
  column ∈ sensor_columns →
  has_column column data = true →
  Forall finite
    (get_col column
       (clean_data data remove_outliers fill_missing smooth_data)).
Proof.
  intros Hne Hc Hp.
  pose proof (before_smoothing_scrubbed data remove_outliers fill_missing)
    as Hs.
  assert (Hp' : has_column column
                  (before_smoothing data remove_outliers fill_missing) = true)
    by by rewrite before_smoothing_has_column.
  destruct (Hs column Hc Hp') as [_ Hr].
  assert (Hfin : Forall finite
                   (get_col column
                      (before_smoothing data remove_outliers fill_missing))).
  { eapply Forall_impl; [exact Hr|]. apply in_range_finite. }
  destruct (clean_data_cases data remove_outliers fill_missing smooth_data
              Hne) as [-> | [Hlen ->]].
  - by rewrite get_col_sort_values.
  - rewrite get_col_sort_values.
    rewrite smoothing_get_col; [|rewrite before_smoothing_len; lia|done|done].
    apply savgol_5_2_Forall; [|done].
    intros cs x0 x1 x2 x3 x4 _. apply savgol_dot_finite.
Qed.

End PipelineShape.

(** ** What the repairs leave as it is *)

Section KeptValues.

Import DataProcessor.

Lemma ffill_from_keeps last l i v :
  l !! i = Some v → isnull v = false → ffill_from last l !! i = Some v.
Proof.
  revert last i. induction l as [|x l IH]; intros last i Hi Hv; [done|].
  destruct i as [|i]; simpl in *.
  - simplify_eq. by rewrite Hv.
  - destruct (isnull x); simpl; by apply IH.
Qed.

Lemma bfill_keeps l i v :
  l !! i = Some v → isnull v = false → bfill l !! i = Some v.
Proof.
  revert i. induction l as [|x l IH]; intros i Hi Hv; [done|].
  destruct i as [|i]; simpl in *.
  - simplify_eq. by rewrite Hv.
  - by apply IH.
Qed.

Lemma interpolate_from_keeps prev k l i v :
  l !! i = Some v → isnull v = false →
  interpolate_from prev k l !! i = Some v.
Proof.
  revert prev k i. induction l as [|x l IH]; intros prev k i Hi Hv; [done|].
  destruct i as [|i]; simpl in *.
  - simplify_eq. by rewrite Hv.
  - destruct (isnull x); simpl; by apply IH.
Qed.

Lemma fillna_keeps value l i v :
  l !! i = Some v → isnull v = false → fillna value l !! i = Some v.
Proof.
  revert i. induction l as [|x l IH]; intros i Hi Hv; [done|].
  destruct i as [|i]; simpl in *.
  - simplify_eq. by rewrite Hv.
  - by apply IH.
Qed.

Lemma fill_column_keeps c l i v :
  l !! i = Some v → isnull v = false → fill_column c l !! i = Some v.
Proof.
  intros Hi Hv. unfold fill_column, ffill, interpolate.
  assert (H : interpolate_from NaN 1 (bfill (ffill_from NaN l)) !! i = Some v).
  { apply interpolate_from_keeps; [|done]. apply bfill_keeps; [|done].
    by apply ffill_from_keeps. }
  destruct (any_null _); [by apply fillna_keeps|done].
Qed.

Lemma mask_nan_keeps (m : num → bool) l i v :
  l !! i = Some v → m v = false → mask_nan m l !! i = Some v.
Proof.
  revert i. induction l as [|x l IH]; intros i Hi Hv; [done|].
  destruct i as [|i]; simpl in *.
  - simplify_eq. by rewrite Hv.
  - by apply IH.
Qed.

Lemma midpoint_present c : c ∈ sensor_columns → isnull (midpoint c) = false.
Proof. intros Hc. by apply in_range_present with c, midpoint_in_range. Qed.

Lemma fill_column_no_gap c l :
  c ∈ sensor_columns → nan_free (fill_column c l).
Proof.
  intros Hc.
  apply (fill_column_valid (λ v, isnull v = false)); [done| |].
  - by apply midpoint_present.
  - apply Forall_forall. intros v _. destruct (isnull v); auto.
Qed.

(** A frame whose present sensor columns are held by the rows and have no
    gap is left as it is by the fill. *)
Lemma fill_fixed_no_gap d :
  (∀ c, c ∈ sensor_columns → has_column c d = true →
        holds c d ∧ nan_free (get_col c d)) →
  _fill_missing_values d = d.
Proof.
  intros Hd. rewrite fill_as_loop. apply column_loop_fixed.
  intros c Hc. unfold column_step, always. rewrite andb_true_r.
  destruct (has_column c d) eqn:Hp; [|done].
  destruct (Hd c Hc Hp) as [Hh Hr].
  rewrite fill_column_nan_free by done. by apply set_col_get_col.
Qed.

(** X17.  [_fill_missing_values] leaves no gap in the sensor columns of the
    frame, keeps every value that is there at its place, keeps the
    timestamps, and changes nothing when it is applied again. *)
Theorem fill_missing_values_repairs (data : DataFrame) :
  let filled := _fill_missing_values data in
  (∀ column,
     column ∈ sensor_columns → has_column column data = true →
     nan_free (get_col column filled)
     ∧ ∀ i v, get_col column data !! i = Some v → isnull v = false →
              get_col column filled !! i = Some v)
  ∧ timestamps filled = timestamps data
  ∧ _fill_missing_values filled = filled.
Proof.
  intros filled. subst filled. split; [|split].
  - intros c Hc Hp. rewrite fill_get_col by done. split.
    + by apply fill_column_no_gap.
    + intros i v. apply fill_column_keeps.
  - apply fill_timestamps.
  - apply fill_fixed_no_gap. intros c Hc Hp. rewrite fill_has_column in Hp.
    split; [by apply fill_holds|].
    rewrite fill_get_col by done. by apply fill_column_no_gap.
Qed.

Lemma keys_timestamps d d' :
  map row_key (df_rows d') = map row_key (df_rows d) →
  timestamps d' = timestamps d.
Proof.
  unfold timestamps. intros H.
  apply (f_equal (map fst)) in H. rewrite !map_map in H. exact H.
Qed.

(** X16.  On a snapshot whose timestamps ascend strictly, cleaning without
    the outlier stage and without smoothing changes only the cells that are
    missing or outside the valid range of their sensor: a value within the
    range is found at the same row after cleaning.  (With equal timestamps
    the final sort may move a row, and with it the value.) *)
Theorem clean_data_keeps_valid_values
    (data : DataFrame) (fill_missing smooth_data : bool)
    (column : string) (i : nat) (v : num) :
  Sorted Z.lt (timestamps data) →
  smooth_data = false ∨ (df_len data ≤ 5)%nat →
  column ∈ sensor_columns →
  has_column column data = true →
  get_col column data !! i = Some v →
  in_range column v →
  get_col column (clean_data data false fill_missing smooth_data) !! i
  = Some v
  ∧ timestamps (clean_data data false fill_missing smooth_data)
    = timestamps data.
Proof.
  intros Hs Hsm Hc Hp Hi Hv.
  destruct (df_empty data) eqn:Hne.
  { unfold clean_data. by rewrite Hne. }
  rewrite clean_data_unsmoothed by done.
  rewrite sort_values_sorted by by rewrite before_smoothing_timestamps.
  split; [|by apply before_smoothing_timestamps]. unfold before_smoothing.
  pose proof (in_range_present _ _ Hv) as Hv'.
  destruct fill_missing.
  - rewrite invalid_get_col by (done || by rewrite fill_has_column).
    rewrite fill_get_col by done.
    apply fill_column_keeps; [|done].
    apply mask_nan_keeps; [|by apply in_range_not_out].
    by apply fill_column_keeps.
  - rewrite invalid_get_col by done.
    apply fill_column_keeps; [|done].
    apply mask_nan_keeps; [done|by apply in_range_not_out].
Qed.

End KeptValues.

Section OutlierStage.

Import DataProcessor.

(** X18.  [_remove_outliers] changes only cells that are missing or lie
    outside the IQR bounds of their column: a value within the bounds is
    found at the same row afterwards; the stage keeps the timestamps, and
    leaves no gap in a sensor column. *)
Theorem remove_outliers_keeps_inliers
    (data : DataFrame) (column : string) (i : nat) (v : num) :
  column ∈ sensor_columns →
  has_column column data = true →
  get_col column data !! i = Some v →
  isnull v = false →
  outside (iqr_bounds (get_col column data)) v = false →
  get_col column (_remove_outliers data) !! i = Some v
  ∧ timestamps (_remove_outliers data) = timestamps data
  ∧ nan_free (get_col column (_remove_outliers data)).
Proof.
  intros Hc Hp Hi Hv Hin. rewrite outliers_get_col by done.
  split; [|split].
  - apply fill_column_keeps; [|done].
    destruct (enough_values _ _); [|done].
    by apply mask_nan_keeps.
  - destruct (outliers_shape data) as [_ Hk]. by apply keys_timestamps.
  - by apply fill_column_no_gap.
Qed.

End OutlierStage.

(** ** The quality report *)

Section TemporalConsistency.

Import QualityReport.

Lemma total_seconds_fin ns :
  total_seconds ns = Fin (inject_Z ns / inject_Z (10 ^ 9)).
Proof. reflexivity. Qed.

Lemma seconds_ge (a : Q) ns :
  (a <= inject_Z ns / inject_Z (10 ^ 9))%Q
  ↔ (a * inject_Z (10 ^ 9) <= inject_Z ns)%Q.
Proof.
  split; intros H.
  - eapply Qle_trans; [apply Qmult_le_compat_r; [exact H|done]|].
    apply Qle_lteq. right. by field.
  - by apply Qle_shift_div_l.
Qed.

Lemma seconds_le (a : Q) ns :
  (inject_Z ns / inject_Z (10 ^ 9) <= a)%Q
  ↔ (inject_Z ns <= a * inject_Z (10 ^ 9))%Q.
Proof.
  split; intros H.
  - eapply Qle_trans; [|apply Qmult_le_compat_r; [exact H|done]].
    apply Qle_lteq. right. by field.
  - by apply Qle_shift_div_r.
Qed.

Lemma reasonable_interval ns :
  fgeb (total_seconds ns) (Fin (5 # 10)) && fleb (total_seconds ns) (of_Z 3600)
  = ((500000000 <=? ns)%Z && (ns <=? 3600000000000)%Z).
Proof.
  rewrite total_seconds_fin. unfold fgeb, fleb, of_Z.
  assert (H1 : Qle_bool (5 # 10) (inject_Z ns / inject_Z (10 ^ 9))
               = (500000000 <=? ns)%Z).
  { apply eq_true_iff_eq. rewrite Qle_bool_iff, Z.leb_le, seconds_ge.
    unfold Qle. simpl. lia. }
  assert (H2 : Qle_bool (inject_Z ns / inject_Z (10 ^ 9)) (inject_Z 3600)
               = (ns <=? 3600000000000)%Z).
  { apply eq_true_iff_eq. rewrite Qle_bool_iff, Z.leb_le, seconds_le.
    unfold Qle. simpl. lia. }
  by rewrite H1, H2.
Qed.

Lemma diff_short ts : (length ts < 2)%nat → diff ts = [].
Proof. by destruct ts as [|a [|b ts]]; simpl; [..|lia]. Qed.

Lemma diff_cons a b ts : diff (a :: b :: ts) = (b - a)%Z :: diff (b :: ts).
Proof. reflexivity. Qed.

Lemma diff_increasing ts :
  Forall (λ d, 0 < d)%Z (diff ts) → Sorted Z.lt ts.
Proof.
  induction ts as [|a ts IH]; [constructor|].
  destruct ts as [|b ts]; [repeat constructor|].
  rewrite diff_cons. intros H. apply Forall_cons in H as [Hd H].
  constructor; [by apply IH|]. constructor. lia.
Qed.

(** X20.  [_check_temporal_consistency] answers [True] exactly when every
    gap between two consecutive rows of the frame is at least half a second
    and at most an hour: the test on the order of the timestamps adds
    nothing, and a consistent frame has strictly increasing timestamps. *)
Theorem temporal_consistency_is_bounded_gaps (data : DataFrame) :
  (_check_temporal_consistency data = true
   ↔ Forall (λ gap, 500000000 <= gap <= 3600000000000)%Z
            (diff (timestamps data)))
  ∧ (_check_temporal_consistency data = true → Sorted Z.lt (timestamps data)).
Proof.
  assert (H : _check_temporal_consistency data = true
              ↔ Forall (λ gap, 500000000 <= gap <= 3600000000000)%Z
                       (diff (timestamps data))).
  { unfold _check_temporal_consistency.
    destruct (Nat.ltb_spec (df_len data) 2) as [Hlt|Hge].
    - rewrite diff_short; [done|]. unfold timestamps. by rewrite length_map.
    - unfold is_monotonic_increasing.
      generalize (diff (timestamps data)). intros l.
      induction l as [|d l IH]; [done|].
      cbn [forallb map]. rewrite Forall_cons, <- IH.
      unfold id at 1. rewrite reasonable_interval.
      rewrite !andb_true_iff, !Z.leb_le. intuition lia. }
  split; [done|]. intros Hc. apply H in Hc.
  apply diff_increasing. eapply Forall_impl; [exact Hc|]. simpl. lia.
Qed.

End TemporalConsistency.

Section OutlierReport.

Import DataProcessor QualityReport.

Lemma dropna_full l : any_null l = false ↔ length (dropna l) = length l.
Proof.
  unfold any_null, dropna. induction l as [|x l IH]; [done|].
  pose proof (List.filter_length_le notna l) as Hle.
  unfold notna in *. simpl. destruct (isnull x); simpl.
  - split; [done|]. lia.
  - rewrite IH. lia.
Qed.

Lemma abs_zscore_length l : length (abs_zscore l) = length l.
Proof. unfold abs_zscore. apply length_map. Qed.

(** One turn of the loop: the z-scores of a column with a gap cannot index
    the rows. *)
Lemma outlier_step_indexed data labels c :
  outlier_step data (Indexed labels) c
  = if has_column c data then
      if any_null (get_col c data) then IndexError
      else
        Indexed
          (labels
           ∪ list_to_set
               (true_positions
                  (map (λ z, fgtb z (Fin outlier_threshold))
                       (abs_zscore (dropna (get_col c data)))))
           ∪ list_to_set
               (true_positions
                  (map (outside (iqr_bounds (get_col c data)))
                       (get_col c data))))
    else Indexed labels.
Proof.
  unfold outlier_step, index_by_mask.
  destruct (has_column c data); [|done].
  rewrite !length_map, abs_zscore_length, get_col_length, Nat.eqb_refl.
  destruct (any_null (get_col c data)) eqn:E.
  - destruct (Nat.eqb_spec (length (dropna (get_col c data))) (df_len data))
      as [Hl|Hl]; [|done].
    rewrite <- (get_col_length c) in Hl. apply dropna_full in Hl. congruence.
  - apply dropna_full in E. rewrite get_col_length in E.
    by rewrite E, Nat.eqb_refl.
Qed.

Lemma outlier_loop_raise data cols :
  foldl (outlier_step data) IndexError cols = IndexError.
Proof. induction cols as [|c cols IH]; [done|]. exact IH. Qed.

Lemma outlier_loop data cols labels :
  match foldl (outlier_step data) (Indexed labels) cols with
  | IndexError =>
      ∃ c, c ∈ cols ∧ has_column c data = true
           ∧ any_null (get_col c data) = true
  | Indexed _ =>
      ∀ c, c ∈ cols → has_column c data = true →
           any_null (get_col c data) = false
  end.
Proof.
  revert labels. induction cols as [|c cols IH]; intros labels.
  - simpl. set_solver.
  - cbn [foldl]. rewrite outlier_step_indexed.
    destruct (has_column c data) eqn:Hp.
    + destruct (any_null (get_col c data)) eqn:En.
      * rewrite outlier_loop_raise. exists c. set_solver.
      * match goal with
        | |- context [foldl _ (Indexed ?s) _] => specialize (IH s)
        end.
        destruct (foldl _ _ _).
        -- intros c' Hc'. apply elem_of_cons in Hc' as [-> | Hc']; auto.
        -- destruct IH as (c' & ? & ? & ?). exists c'. set_solver.
    + specialize (IH labels). destruct (foldl _ _ _).
      * intros c' Hc'. apply elem_of_cons in Hc' as [-> | Hc']; [|auto].
        congruence.
      * destruct IH as (c' & ? & ? & ?). exists c'. set_solver.
Qed.

Lemma filter_imap_sublist {A} (p : nat → bool) (l : list A) (k : nat) :
  map snd (List.filter (λ q, p (fst q)) (imap (λ i r, ((k + i)%nat, r)) l))
  `sublist_of` l.
Proof.
  revert k. induction l as [|x l IH]; intros k; [done|].
  cbn [imap List.filter fst]. 
  assert (E : imap ((λ i r, ((k + i)%nat, r)) ∘ S) l
              = imap (λ i r, ((S k + i)%nat, r)) l).
  { apply imap_ext. intros i y _. simpl. f_equal. lia. }
  rewrite E. destruct (p (k + 0)%nat); cbn [map snd].
  - apply sublist_skip, IH.
  - apply sublist_cons, IH.
Qed.

Lemma loc_rows_sublist labels data :
  df_rows (loc_rows labels data) `sublist_of` df_rows data.
Proof.
  unfold loc_rows. cbn [df_rows].
  pose proof (filter_imap_sublist (λ i : nat, bool_decide (i ∈ labels))
                (df_rows data) 0) as H.
  exact H.
Qed.

(** Without a gap in the sensor columns the outliers are reported. *)
Lemma detect_outliers_complete data :
  df_empty data = false →
  (∀ c, c ∈ sensor_columns → has_column c data = true →
        any_null (get_col c data) = false) →
  ∃ outliers,
    detect_outliers data = Indexed outliers
    ∧ df_rows outliers `sublist_of` df_rows data.
Proof.
  intros Hne Hall. unfold detect_outliers, outlier_indices. rewrite Hne.
  pose proof (outlier_loop data sensor_columns ∅) as H.
  destruct (foldl _ _ _) as [labels|].
  - eexists. split; [done|]. apply loc_rows_sublist.
  - destruct H as (c & Hc & Hp & Hn). specialize (Hall c Hc Hp). congruence.
Qed.

(** X21.  On a frame that has rows, [detect_outliers] raises [IndexError]
    exactly when a sensor column of the frame has a missing value;
    otherwise it returns rows of the frame, in the columns of the frame. *)
Theorem detect_outliers_needs_complete_columns (data : DataFrame) :
  df_empty data = false →
  (detect_outliers data = IndexError
   ↔ ∃ column, column ∈ sensor_columns ∧ has_column column data = true
               ∧ any_null (get_col column data) = true)
  ∧ (∀ outliers,
       detect_outliers data = Indexed outliers →
       df_columns outliers = df_columns data
       ∧ df_rows outliers `sublist_of` df_rows data).
Proof.
  intros Hne. unfold detect_outliers, outlier_indices. rewrite Hne.
  pose proof (outlier_loop data sensor_columns ∅) as H.
  destruct (foldl _ _ _) as [labels|].
  - split.
    + split; [done|]. intros (c & Hc & Hp & Hn).
      specialize (H c Hc Hp). congruence.
    + intros outliers [= <-]. split; [done|apply loc_rows_sublist].
  - split; [done|]. intros outliers [=].
Qed.

Lemma count_invalid_zero data :
  (∀ c, c ∈ sensor_columns → has_column c data = true →
        Forall (in_range c) (get_col c data)) →
  count_invalid data = 0%nat.
Proof.
  unfold count_invalid, for_sensor_columns.
  generalize sensor_columns. intros cols Hall.
  assert (H : ∀ n, foldl
            (λ acc column,
               if has_column column data
               then (acc + length (List.filter (out_of_range column)
                                     (get_col column data)))%nat
               else acc) n cols = n); [|apply H].
  induction cols as [|c cols IH]; intros n; [done|].
  cbn [foldl]. rewrite IH by set_solver.
  destruct (has_column c data) eqn:Hp; [|done].
  assert (Hc : Forall (in_range c) (get_col c data)) by (apply Hall; set_solver).
  assert (E : List.filter (out_of_range c) (get_col c data) = []).
  { induction Hc as [|v l Hv Hl IHl]; simpl; [done|].
    by rewrite in_range_not_out. }
  rewrite E. simpl. lia.
Qed.

(** X22.  The quality report of a frame cleaned with the default options is
    produced without an exception, counts the rows of the input, no invalid
    value, and no more outlier rows than there are rows. *)
Theorem quality_of_cleaned_data (data : DataFrame) :
  df_empty data = false →
  ∃ metrics,
    analyze_data_quality (get_cleaned_data data) = Indexed (Some metrics)
    ∧ total_records metrics = df_len data
    ∧ invalid_values metrics = 0%nat
    ∧ (outliers_detected metrics ≤ df_len data)%nat
    ∧ temporal_consistency metrics
      = _check_temporal_consistency (get_cleaned_data data).
Proof.
  intros Hne. unfold get_cleaned_data.
  set (cleaned := clean_data data true true false).
  assert (Hlen : df_len cleaned = df_len data)
    by (apply clean_data_len; auto).
  assert (Hne' : df_empty cleaned = false).
  { apply df_empty_false_len. rewrite Hlen. by apply df_empty_false_len. }
  assert (Hs : scrubbed cleaned) by (apply clean_data_scrubbed; auto).
  destruct (detect_outliers_complete cleaned Hne') as [outliers [Ho Hsub]].
  { intros c Hc Hp. destruct (Hs c Hc Hp) as [_ Hr].
    apply any_null_nan_free. eapply Forall_impl; [exact Hr|].
    apply in_range_present. }
  unfold analyze_data_quality. rewrite Hne', Ho.
  eexists. split; [reflexivity|]. cbn.
  split; [done|]. split; [|split; [|done]].
  - apply count_invalid_zero. intros c Hc Hp. by destruct (Hs c Hc Hp).
  - rewrite <- Hlen. unfold df_len. by apply sublist_length.
Qed.

End OutlierReport.

(** ** Health of a short history *)

Section ShortHistories.

Import Analytics.

Lemma tail_values_last l x :
  last l = Some x → tail_values 1 l = [x].
Proof.
  intros H. apply last_Some in H as [l' ->]. unfold tail_values.
  rewrite length_app. simpl.
  replace (length l' + 1 - 1)%nat with (length l' + 0)%nat by lia.
  by rewrite drop_app_length'.
Qed.

(** The stability of a single value that is missing or not zero is NaN: the
    standard deviation of one value is. *)
Lemma stability_single x :
  feqb x (Fin 0) = false → stability [x] = NaN.
Proof.
  intros H. unfold stability, mean, pd_std, var, dropna. simpl.
  destruct x as [| | |q]; simpl; try done.
  simpl in H. unfold fneb, feqb.
  assert (E : Qeq_bool ((q + 0) / inject_Z (Z.of_nat 1)) 0 = false).
  { apply Qeq_bool_false. intros Hq. apply Qeq_bool_neq in H. apply H.
    rewrite <- Hq. simpl. field. }
  by rewrite E.
Qed.

Lemma raw_health_score_recent_nan values :
  stability (tail_values (Nat.max 1 (length values / 10)) values) = NaN →
  raw_health_score values = of_Z 100.
Proof.
  intros H. unfold raw_health_score. rewrite H.
  change (py_min NaN (of_Z 100)) with NaN.
  change (fsub (of_Z 100) NaN) with NaN.
  change (fmul NaN (Fin (3 # 10))) with NaN.
  match goal with
  | |- py_min _ (fadd ?a NaN) = _ =>
      assert (E : fadd a NaN = NaN) by by destruct a
  end.
  by rewrite E.
Qed.

(** X23.  For a sensor column of fewer than 20 readings whose last value is
    missing or different from zero, the health score is exactly 100 and the
    status "Excellent", whatever the other values and however many are
    missing: the standard deviation of the single most recent value is NaN,
    and [min(100, NaN)] is 100. *)
Theorem short_history_health (data : DataFrame) (column : string) :
  df_empty data = false →
  column ∈ sensor_columns →
  has_column column data = true →
  (df_len data < 20)%nat →
  feqb (default NaN (last (get_col column data))) (Fin 0) = false →
  ∃ h,
    calculate_sensor_health data !! column = Some h
    ∧ is_fin (health_score h) 100
    ∧ status h = "Excellent"%string.
Proof.
  intros Hne Hc Hp Hlen Hlast.
  rewrite calculate_sensor_health_lookup, Hne, Hp.
  rewrite (bool_decide_eq_true_2 _ Hc). cbn [negb andb].
  eexists. split; [reflexivity|].
  assert (Hraw : raw_health_score (get_col column data) = of_Z 100).
  { apply raw_health_score_recent_nan.
    rewrite get_col_length.
    assert (Hn : Nat.max 1 (df_len data / 10) = 1%nat).
    { assert (df_len data / 10 < 2)%nat
        by (apply Nat.Div0.div_lt_upper_bound; lia).
      lia. }
    rewrite Hn.
    destruct (last (get_col column data)) as [x|] eqn:El.
    - rewrite (tail_values_last _ _ El). by apply stability_single.
    - apply last_None in El. apply (f_equal length) in El.
      rewrite get_col_length in El. apply df_empty_false_len in Hne.
      simpl in El. lia. }
  unfold health_record. cbn [health_score status]. rewrite Hraw.
  split; [|reflexivity].
  eexists. split; [reflexivity|]. reflexivity.
Qed.

End ShortHistories.

(** ** Correlations *)

Section Correlations.

Import Analytics.

Lemma upper_pairs_length cols :
  (2 * length (upper_pairs cols) = length cols * (length cols - 1))%nat.
Proof.
  induction cols as [|c cols IH]; [done|].
  cbn [upper_pairs length]. rewrite length_app, length_map. nia.
Qed.

Lemma fgeb_weaker a (x y : Q) :
  (y <= x)%Q → fgeb a (Fin x) = true → fgeb a (Fin y) = true.
Proof.
  intros Hxy. unfold fgeb, fleb. destruct a; try done.
  rewrite !Qle_bool_iff. lra.
Qed.

Lemma correlation_record_consistent v :
  let c := correlation_record v in
  (significant c = true ↔ strength c ≠ "Very Weak"%string)
  ∧ (strength c = "Strong"%string ∨ strength c = "Moderate"%string →
     significant c = true)
  ∧ (corr_direction c = "Positive"%string ↔ fgtb v (Fin 0) = true)
  ∧ (corr_direction c = "Negative"%string ↔ fgtb v (Fin 0) = false).
Proof.
  unfold correlation_record. cbn [significant strength corr_direction].
  destruct (fgeb (fabs v) (Fin (7 # 10))) eqn:E7.
  { rewrite (fgeb_weaker _ (7 # 10) (2 # 10)) by (done || lra).
    destruct (fgtb v (Fin 0)); repeat split; try done; intros; try done;
      by intuition. }
  destruct (fgeb (fabs v) (Fin (4 # 10))) eqn:E4.
  { rewrite (fgeb_weaker _ (4 # 10) (2 # 10)) by (done || lra).
    destruct (fgtb v (Fin 0)); repeat split; try done; intros; try done;
      by intuition. }
  destruct (fgeb (fabs v) (Fin (2 # 10))) eqn:E2;
    destruct (fgtb v (Fin 0)); repeat split; try done; intros; try done;
    by intuition.
Qed.

(** X27.  [analyze_correlations] returns the empty dict exactly for a frame
    without rows or with fewer than two sensor columns; otherwise it has one
    record for each of the n(n-1)/2 pairs of sensor columns, and in every
    record the flag [significant] is set exactly when the strength is not
    "Very Weak" (so a "Strong" or "Moderate" record is always significant),
    and the direction is "Positive" exactly for a coefficient above zero. *)
Theorem correlation_records (data : DataFrame) :
  (analyze_correlations data = None
   ↔ df_empty data = true ∨ (length (numeric_columns data) < 2)%nat)
  ∧ ∀ analysis,
      analyze_correlations data = Some analysis →
      (2 * length (pairwise_correlations analysis)
       = length (numeric_columns data) * (length (numeric_columns data) - 1))%nat
      ∧ ∀ key c,
          (key, c) ∈ pairwise_correlations analysis →
          (significant c = true ↔ strength c ≠ "Very Weak"%string)
          ∧ (strength c = "Strong"%string ∨ strength c = "Moderate"%string →
             significant c = true)
          ∧ ∃ v, (corr_direction c = "Positive"%string ↔ fgtb v (Fin 0) = true)
                 ∧ (corr_direction c = "Negative"%string
                    ↔ fgtb v (Fin 0) = false)
                 ∧ coefficient c = fround 3 v.
Proof.
  unfold analyze_correlations.
  destruct (df_empty data) eqn:Hne.
  { split; [by intuition|]. intros analysis [=]. }
  destruct (Nat.ltb_spec (length (numeric_columns data)) 2) as [Hlt|Hge].
  { split; [by intuition|]. intros analysis [=]. }
  split.
  { split; [done|]. intros [H|H]; [done|lia]. }
  intros analysis [= <-]. cbn [pairwise_correlations]. split.
  - rewrite length_map. apply upper_pairs_length.
  - intros key c Hin. apply list_elem_of_In, in_map_iff in Hin
      as (p & [= <- <-] & _).
    destruct (correlation_record_consistent
                (corr_matrix (numeric_columns data) data !!! p))
      as (H1 & H2 & H3 & H4).
    split; [done|]. split; [done|]. eexists. split; [exact H3|].
    split; [exact H4|]. reflexivity.
Qed.

End Correlations.

(** ** Insights *)

Section Insights.

Import Analytics.

(** With pairwise different timestamps the trend analysis returns. *)
Lemma analyze_trends_returns data :
  NoDup (timestamps data) → ∃ trends, analyze_trends data = Ok trends.
Proof.
  intros Hnd. unfold analyze_trends.
  destruct (_ || _); [by eexists|].
  destruct (trend_loop_ok data (df_rows (sort_values data)) sensor_columns ∅)
    as (trends & -> & _); [|by eexists].
  intros c e _. by apply trend_entry_no_raise, sorted_timestamps_NoDup.
Qed.

(** X28.  The list [generate_insights] returns is never empty and never
    holds the message "no significant patterns detected": its last entry is
    the message on the amount of data (or the only entry "No data
    available" for a frame without rows), so the fallback of the last line
    is dead code.  With pairwise different timestamps the function
    returns. *)
Theorem insights_never_empty (data : DataFrame) :
  (∀ insights,
     generate_insights data = Ok insights →
     (NoPatterns ∉ insights)
     ∧ last insights
       = Some (if df_empty data then NoData
               else if (100 <? df_len data)%nat then SufficientData
               else MoreDataRecommended))
  ∧ (NoDup (timestamps data) →
     ∃ insights, generate_insights data = Ok insights).
Proof.
  split.
  - intros insights. unfold generate_insights.
    destruct (df_empty data).
    { intros [= <-]. split; [|done]. set_solver. }
    destruct (analyze_trends data) as [trends|e]; [|done].
    match goal with
    | |- Ok (match ?parts ++ ?vol with [] => _ | _ => _ end) = _ → _ =>
        set (front := parts); set (volume := vol)
    end.
    assert (Hfront : NoPatterns ∉ front).
    { subst front. rewrite !elem_of_app, !list_elem_of_omap.
      intros [[[H|H]|H]|H].
      - destruct H as ([s t] & _ & H). by destruct (String.eqb _ _).
      - destruct (analyze_correlations data) as [ca|]; [|set_solver].
        apply list_elem_of_omap in H as ([key c] & _ & H).
        by destruct (_ && _).
      - destruct H as ([s h] & _ & H).
        destruct (_ || _); [done|]. by destruct (String.eqb _ _).
      - destruct (calculate_statistics data !! _) as [[| |]|];
          try set_solver.
        apply list_elem_of_omap in H as ([s cv] & _ & H).
        by destruct (fgtb _ _). }
    assert (Hvol : (NoPatterns ∉ volume) ∧ last (front ++ volume) = last volume
                   ∧ front ++ volume ≠ []).
    { subst volume. destruct (100 <? df_len data)%nat;
        rewrite last_snoc; split; try set_solver; split; try done;
        by destruct front. }
    destruct Hvol as (Hv & Hl & Hne).
    destruct (front ++ volume) as [|x rest] eqn:E; [done|].
    intros [= <-]. split.
    + rewrite <- E, elem_of_app. tauto.
    + rewrite Hl. subst volume. by destruct (100 <? df_len data)%nat.
  - intros Hnd. unfold generate_insights.
    destruct (df_empty data); [by eexists|].
    destruct (analyze_trends_returns data Hnd) as [trends ->]. by eexists.
Qed.

End Insights.

(** ** Performance metrics *)

Section PerformanceMetrics.

Import Analytics.

#[local] Open Scope Q_scope.

Lemma health_score_range values :
  ∃ q, health_score (health_record values) = Fin q ∧ 0 <= q ∧ q <= 100.
Proof.
  unfold health_record. cbn [health_score].
  destruct (raw_health_score_range values) as (q & -> & H0 & H1).
  by apply fround2_range.
Qed.

Lemma health_scores_range data cols :
  df_empty data = false →
  Forall (λ c, (c ∈ sensor_columns) ∧ has_column c data = true) cols →
  ∃ ts,
    Forall2 is_fin
      (omap (λ sensor, health_score <$> calculate_sensor_health data !! sensor)
            cols) ts
    ∧ length ts = length cols
    ∧ Forall (λ t, 0 <= t ∧ t <= 100) ts.
Proof.
  intros Hne. induction 1 as [|c cols [Hc Hp] Hcols (ts & H2 & Hl & Hr)].
  - exists []. repeat split; constructor.
  - cbn [omap list_omap]. rewrite calculate_sensor_health_lookup, Hne, Hp.
    rewrite (bool_decide_eq_true_2 _ Hc). cbn [negb andb fmap option_fmap
      option_map].
    destruct (health_score_range (get_col c data)) as (q & Hq & H0 & H1).
    exists (q :: ts). split; [|split].
    + constructor; [|done]. rewrite Hq. apply is_fin_Fin.
    + simpl. by rewrite Hl.
    + by constructor.
Qed.

Lemma numeric_columns_present data :
  Forall (λ c, (c ∈ sensor_columns) ∧ has_column c data = true)
         (numeric_columns data).
Proof.
  apply Forall_forall. intros c Hc. unfold numeric_columns in Hc.
  apply list_elem_of_In, filter_In in Hc as [Hc Hp].
  split; [by apply list_elem_of_In|done].
Qed.

Lemma collection_rate_range (n : nat) (hours : num) :
  (0 < n)%nat →
  (∃ h, hours = Fin h) →
  ∃ r, fdiv (of_nat n) (py_max (of_Z 1) hours) = Fin r
       ∧ 0 < r ∧ r <= inject_Z (Z.of_nat n).
Proof.
  intros Hn [h ->]. unfold py_max, fgtb, fltb, of_Z, of_nat.
  assert (Hn' : 0 < inject_Z (Z.of_nat n)) by (unfold Qlt; simpl; lia).
  destruct (Qltb (inject_Z 1) h) eqn:E.
  - apply Qltb_true in E. change (inject_Z 1) with 1 in E.
    unfold fdiv. rewrite Qeq_bool_false by lra.
    eexists. split; [reflexivity|]. split.
    + apply Qlt_shift_div_l; lra.
    + apply Qle_shift_div_r; [lra|]. nra.
  - unfold fdiv. change (Qeq_bool (inject_Z 1) 0) with false. cbn iota.
    eexists. split; [reflexivity|]. split.
    + apply Qlt_shift_div_l; [reflexivity|]. change (inject_Z 1) with 1. lra.
    + apply Qle_shift_div_r; [reflexivity|]. change (inject_Z 1) with 1. lra.
Qed.

(** X29.  On a frame that has rows, [get_performance_metrics] does not
    raise; the collection rate it reports is positive and at most the
    number of rows (the period counts for an hour at least); and when the
    frame has a sensor column, the overall system health lies between 0 and
    100. *)
Theorem performance_metrics_ranges (data : DataFrame) :
  df_empty data = false →
  ∃ metrics rate,
    get_performance_metrics data = Ok metrics
    ∧ metrics !! "average_collection_rate"%string
      = Some (ReadingsPerHour (Fin rate))
    ∧ 0 < rate ∧ rate <= inject_Z (Z.of_nat (df_len data))
    ∧ (numeric_columns data ≠ [] →
       ∃ score,
         metrics !! "overall_system_health"%string
         = Some (OutOf100 (Fin score))
         ∧ 0 <= score ∧ score <= 100).
Proof.
  intros Hne. unfold get_performance_metrics. rewrite Hne. cbn zeta.
  destruct (collection_rate_range (df_len data)
              (fdiv (fdiv (of_Z (list_max_Z (timestamps data)
                                 - list_min_Z (timestamps data)))
                          (of_Z (10 ^ 9))) (of_Z 3600)))
    as (rate & Hrate & Hr0 & Hr1).
  { apply df_empty_false_len in Hne. lia. }
  { eexists. reflexivity. }
  rewrite Hrate.
  destruct (numeric_columns data) as [|c0 cols] eqn:Ecols.
  { eexists _, rate. split; [reflexivity|]. split; [|by repeat split].
    by rewrite lookup_insert_eq. }
  rewrite <- Ecols.
  destruct (anomaly_loop_supported data "zscore" sensor_columns ∅)
    as (anomalies & Ha & _); [by left|].
  unfold detect_anomalies. rewrite Hne, Ha.
  destruct (health_scores_range data (numeric_columns data) Hne
              (numeric_columns_present data)) as (ts & H2 & Hl & Hrange).
  assert (Hts : ts ≠ []).
  { intros ->. rewrite Ecols in Hl. done. }
  assert (Hscores : omap (λ sensor, health_score
                            <$> calculate_sensor_health data !! sensor)
                         (numeric_columns data) ≠ []).
  { intros E. rewrite E in H2. by inversion H2; subst. }
  destruct (is_fin_np_mean _ _ H2 Hscores) as (score & Hscore & Hq).
  destruct (Qmean_between 0 100 ts Hts Hrange) as [Hm0 Hm1].
  eexists _, rate. split; [reflexivity|]. split; [|split; [done|split; [done|]]].
  - rewrite !lookup_insert_ne by done. by rewrite lookup_insert_eq.
  - intros _. exists score. rewrite lookup_insert_eq, Hscore.
    split; [done|]. split; lra.
Qed.

End PerformanceMetrics.

(** ** The records of the anomaly detection *)

Section AnomalyRecords.

Import Analytics.

(** An entry of the result is the record of its column, which has three
    values at least. *)
Lemma anomaly_loop_entries data method cols m m' :
  foldl (anomaly_step data method) (Ok m) cols = Ok m' →
  ∀ c e, m' !! c = Some e →
    m !! c = Some e
    ∨ ((3 ≤ length (dropna (get_col c data)))%nat
       ∧ anomaly_record (indexed_values (get_col c data))
           (anomaly_indices_of method (indexed_values (get_col c data)))
         = Ok e).
Proof.
  revert m. induction cols as [|x cols IH]; intros m Hloop c e Hc.
  - simpl in Hloop. simplify_eq. by left.
  - cbn [foldl] in Hloop. unfold anomaly_step at 2 in Hloop.
    destruct (has_column x data); [|by eapply IH].
    destruct (Nat.ltb_spec (length (indexed_values (get_col x data))) 3)
      as [Hlt|Hge]; [by eapply IH|].
    destruct (anomaly_record _ _) as [entry|err] eqn:Er.
    + destruct (IH _ Hloop c e Hc) as [H|H]; [|by right].
      destruct (decide (c = x)) as [->|Hne].
      * rewrite lookup_insert_eq in H. simplify_eq. right.
        by rewrite <- indexed_values_length.
      * rewrite lookup_insert_ne in H by done. by left.
    + by rewrite anomaly_step_raise in Hloop.
Qed.

Lemma detect_anomalies_entry data method anomalies c e :
  detect_anomalies data method = Ok anomalies →
  anomalies !! c = Some e →
  (3 ≤ length (dropna (get_col c data)))%nat
  ∧ anomaly_record (indexed_values (get_col c data))
      (anomaly_indices_of method (indexed_values (get_col c data)))
    = Ok e.
Proof.
  unfold detect_anomalies. destruct (df_empty data).
  - intros [= <-]. by rewrite lookup_empty.
  - intros Hloop Hc.
    by destruct (anomaly_loop_entries _ _ _ _ _ Hloop c e Hc) as [H|H].
Qed.

(** The labels a pointwise test selects. *)
Lemma select_index_pointwise (test : num → bool) (values : list (nat * num)) :
  select_index values (map test (map snd values))
  = map fst (List.filter (λ p, test (snd p)) values).
Proof.
  unfold select_index.
  induction values as [|[i v] values IH]; [done|].
  cbn [map zip zip_with List.filter snd fst].
  destruct (test v); cbn [map fst]; by rewrite IH.
Qed.

Lemma indexed_from_sorted (l : list num) (k : nat) :
  StronglySorted (λ a b : nat * num, (fst a < fst b)%nat)
                 (imap (λ i v, ((k + i)%nat, v)) l)
  ∧ Forall (λ p : nat * num, (k ≤ fst p)%nat)
           (imap (λ i v, ((k + i)%nat, v)) l).
Proof.
  revert k. induction l as [|x l IH]; intros k; [by split; constructor|].
  cbn [imap].
  assert (E : imap ((λ i v, ((k + i)%nat, v)) ∘ S) l
              = imap (λ i v, ((S k + i)%nat, v)) l).
  { apply imap_ext. intros i y _. simpl. f_equal. lia. }
  rewrite E. destruct (IH (S k)) as [Hs Hb]. split.
  - constructor; [done|]. eapply Forall_impl; [exact Hb|]. simpl. lia.
  - constructor; [simpl; lia|]. eapply Forall_impl; [exact Hb|]. simpl. lia.
Qed.

Lemma indexed_values_sorted l :
  StronglySorted (λ a b : nat * num, (fst a < fst b)%nat) (indexed_values l).
Proof.
  unfold indexed_values. apply filter_sorted.
  apply (indexed_from_sorted l 0).
Qed.

Lemma indexed_values_lookup l :
  Forall (λ p, l !! fst p = Some (snd p) ∧ isnull (snd p) = false)
         (indexed_values l).
Proof.
  apply Forall_forall. intros [i v] Hp. unfold indexed_values in Hp.
  apply elem_of_filter in Hp as [Hp Hv].
  apply elem_of_lookup_imap in Hp as (j & y & [= -> ->] & Hj).
  split; [done|]. unfold notna in Hv. by apply negb_true_iff in Hv.
Qed.

Lemma indexed_values_elem l i v :
  (i, v) ∈ indexed_values l ↔ l !! i = Some v ∧ isnull v = false.
Proof.
  unfold indexed_values. rewrite elem_of_filter, elem_of_lookup_imap.
  unfold notna. rewrite negb_true_iff. split.
  - intros [(j & y & [= -> ->] & Hj) Hv]. done.
  - intros [Hi Hv]. split; [|done]. by exists i, v.
Qed.

Lemma indexed_values_snd l : map snd (indexed_values l) = dropna l.
Proof.
  unfold indexed_values, dropna.
  assert (H : ∀ k, map snd (List.filter (λ p, notna (snd p))
                              (imap (λ i v, ((k + i)%nat, v)) l))
                   = List.filter notna l); [|apply (H 0%nat)].
  induction l as [|x l IH]; intros k; [done|].
  cbn [imap List.filter snd].
  assert (E : imap ((λ i v, ((k + i)%nat, v)) ∘ S) l
              = imap (λ i v, ((S k + i)%nat, v)) l).
  { apply imap_ext. intros i y _. simpl. f_equal. lia. }
  rewrite E. destruct (notna x); cbn [map snd]; by rewrite IH.
Qed.

(** The values found under labels taken from the values themselves. *)
Lemma loc_values_found (P : nat → num → Prop) values labels :
  Forall (λ p, P (fst p) (snd p)) values →
  labels ⊆ map fst values →
  Forall2 P labels (loc_values values labels).
Proof.
  intros Hv. unfold loc_values.
  induction labels as [|i labels IH]; intros Hsub; [constructor|].
  cbn [omap list_omap].
  destruct (List.find (λ p, (fst p =? i)%nat) values) as [[j v]|] eqn:Ef.
  - apply find_some in Ef as [Hin Hj]. simpl in Hj.
    apply Nat.eqb_eq in Hj as ->. cbn [fmap option_fmap option_map snd].
    constructor; [|apply IH; set_solver].
    rewrite Forall_forall in Hv. apply (Hv (i, v)). by apply list_elem_of_In.
  - exfalso. assert (Hi : i ∈ map fst values) by set_solver.
    apply list_elem_of_In, in_map_iff in Hi as ([j v] & Hj & Hin).
    simpl in Hj. subst j.
    pose proof (find_none _ _ Ef _ Hin) as Hn. simpl in Hn.
    by rewrite Nat.eqb_refl in Hn.
Qed.

Lemma percentage_range (n m : nat) :
  (n ≤ m)%nat → (0 < m)%nat →
  ∃ p, fmul (fdiv (of_nat n) (of_nat m)) (of_Z 100) = Fin p
       ∧ (0 <= p)%Q ∧ (p <= 100)%Q.
Proof.
  intros Hn Hm. unfold of_nat, of_Z, fdiv.
  assert (Hm' : (0 < inject_Z (Z.of_nat m))%Q) by (unfold Qlt; simpl; lia).
  assert (Hn0 : (0 <= inject_Z (Z.of_nat n))%Q) by (unfold Qle; simpl; lia).
  assert (Hnm : (inject_Z (Z.of_nat n) <= inject_Z (Z.of_nat m))%Q)
    by (unfold Qle; simpl; lia).
  rewrite Qeq_bool_false by lra. cbn [fmul].
  eexists. split; [reflexivity|].
  assert (H0 : (0 <= inject_Z (Z.of_nat n) / inject_Z (Z.of_nat m))%Q)
    by (apply Qle_shift_div_l; lra).
  assert (H1 : (inject_Z (Z.of_nat n) / inject_Z (Z.of_nat m) <= 1)%Q)
    by (apply Qle_shift_div_r; lra).
  change (inject_Z 100) with 100%Q. split; lra.
Qed.

(** The record of a column for a pointwise test of its values. *)
Lemma anomaly_record_pointwise (test : num → bool) l e :
  anomaly_record (indexed_values l)
    (PdIndex (select_index (indexed_values l)
                (map test (map snd (indexed_values l)))))
  = Ok e →
  (0 < length (dropna l))%nat →
  a_indices e
  = map fst (List.filter (λ p, test (snd p)) (indexed_values l))
  ∧ a_count e = length (a_indices e)
  ∧ (a_count e ≤ length (dropna l))%nat
  ∧ StronglySorted lt (a_indices e)
  ∧ Forall2 (λ i v, l !! i = Some v ∧ isnull v = false)
            (a_indices e) (a_values e)
  ∧ ∃ p, a_percentage e = Fin p ∧ (0 <= p)%Q ∧ (p <= 100)%Q.
Proof.
  rewrite select_index_pointwise. unfold anomaly_record.
  cbn [tolist index_items]. intros [= <-] Hpos.
  cbn [a_indices a_count a_values a_percentage].
  set (V := indexed_values l).
  set (labels := map fst (List.filter (λ p, test (snd p)) V)).
  assert (Hlen : (length labels ≤ length (dropna l))%nat).
  { subst labels. rewrite length_map, <- indexed_values_length.
    apply List.filter_length_le. }
  split; [done|]. split; [done|]. split; [done|]. split; [|split].
  - subst labels.
    apply (StronglySorted_fmap fst (λ a b : nat * num, (fst a < fst b)%nat) lt);
      [done|].
    apply filter_sorted, indexed_values_sorted.
  - destruct (0 <? length labels)%nat eqn:E.
    + apply loc_values_found; [apply indexed_values_lookup|].
      subst labels. intros i Hi.
      apply list_elem_of_In, in_map_iff in Hi as (p & <- & Hp).
      apply filter_In in Hp as [Hp _].
      apply list_elem_of_In, in_map. exact Hp.
    + apply Nat.ltb_ge in E. destruct labels; [constructor|simpl in E; lia].
  - subst V. apply percentage_range; by rewrite indexed_values_length.
Qed.

Lemma dropna_idem l : dropna (dropna l) = dropna l.
Proof.
  unfold dropna. induction l as [|x l IH]; [done|]. simpl.
  destruct (notna x) eqn:E; simpl; by rewrite ?E, IH.
Qed.

Lemma quantile_dropna q l : quantile q (dropna l) = quantile q l.
Proof. unfold quantile. by rewrite dropna_idem. Qed.

(** The record for a method the detection supports. *)
Lemma anomaly_record_tested method l e :
  anomaly_record (indexed_values l)
    (anomaly_indices_of method (indexed_values l)) = Ok e →
  ∃ test,
    anomaly_record (indexed_values l)
      (PdIndex (select_index (indexed_values l)
                  (map test (map snd (indexed_values l)))))
    = Ok e
    ∧ (method = "iqr"%string →
       test = DataProcessor.outside (DataProcessor.iqr_bounds l)).
Proof.
  unfold anomaly_indices_of.
  destruct (String.eqb_spec method "zscore") as [->|Hz].
  - unfold abs_zscore. rewrite map_map. intros H.
    eexists. split; [exact H|]. done.
  - destruct (String.eqb_spec method "iqr") as [->|Hi].
    + intros H. exists (DataProcessor.outside (DataProcessor.iqr_bounds l)).
      split; [|done]. rewrite <- H. do 3 f_equal.
      rewrite indexed_values_snd.
      unfold DataProcessor.outside, DataProcessor.iqr_bounds.
      cbn [fst snd]. rewrite !quantile_dropna. reflexivity.
    + unfold anomaly_record. simpl. done.
Qed.

(** X26.  Every record that [detect_anomalies] returns is consistent: its
    count is the number of its indices and no more than the number of
    values of the column, the indices are in ascending order, the values
    are the values of the column at these indices (none is missing), and
    the percentage lies between 0 and 100. *)
Theorem anomaly_record_consistent
    (data : DataFrame) (method column : string)
    (anomalies : gmap string AnomalyRecord) (entry : AnomalyRecord) :
  detect_anomalies data method = Ok anomalies →
  anomalies !! column = Some entry →
  a_count entry = length (a_indices entry)
  ∧ (a_count entry ≤ length (dropna (get_col column data)))%nat
  ∧ StronglySorted lt (a_indices entry)
  ∧ Forall2 (λ i v, get_col column data !! i = Some v ∧ isnull v = false)
            (a_indices entry) (a_values entry)
  ∧ ∃ p, a_percentage entry = Fin p ∧ (0 <= p)%Q ∧ (p <= 100)%Q.
Proof.
  intros Hd Hc. destruct (detect_anomalies_entry _ _ _ _ _ Hd Hc) as [Hn He].
  destruct (anomaly_record_tested _ _ _ He) as (test & Ht & _).
  assert (Hpos : (0 < length (dropna (get_col column data)))%nat) by lia.
  by destruct (anomaly_record_pointwise test _ _ Ht Hpos)
    as (_ & ? & ? & ? & ? & ?).
Qed.

Lemma outside_present bounds v :
  DataProcessor.outside bounds v = true → isnull v = false.
Proof.
  destruct v; try done. unfold DataProcessor.outside, fgtb.
  by destruct (fst bounds), (snd bounds).
Qed.

(** X25.  The anomalies that [detect_anomalies] reports with the method
    'iqr' are the cells that the outlier stage of the cleaning pipeline
    tests positive: an index is reported exactly when the value of the
    column at that index lies outside the IQR bounds of the column, as
    [_remove_outliers] computes them. *)
Theorem iqr_anomalies_are_cleaning_outliers
    (data : DataFrame) (column : string)
    (anomalies : gmap string AnomalyRecord) (entry : AnomalyRecord) :
  detect_anomalies data "iqr" = Ok anomalies →
  anomalies !! column = Some entry →
  ∀ i, i ∈ a_indices entry
       ↔ ∃ v, get_col column data !! i = Some v
              ∧ DataProcessor.outside
                  (DataProcessor.iqr_bounds (get_col column data)) v = true.
Proof.
  intros Hd Hc i. destruct (detect_anomalies_entry _ _ _ _ _ Hd Hc) as [Hn He].
  destruct (anomaly_record_tested _ _ _ He) as (test & Ht & Htest).
  rewrite (Htest eq_refl) in Ht. clear Htest test.
  assert (Hpos : (0 < length (dropna (get_col column data)))%nat) by lia.
  destruct (anomaly_record_pointwise _ _ _ Ht Hpos) as (-> & _).
  split.
  - intros Hi. apply list_elem_of_In, in_map_iff in Hi as ([j v] & <- & Hp).
    apply filter_In in Hp as [Hp Hout]. simpl in *.
    apply list_elem_of_In, indexed_values_elem in Hp as [Hl _].
    by exists v.
  - intros (v & Hl & Hout).
    apply list_elem_of_In, in_map_iff. exists (i, v). split; [done|].
    apply filter_In. split; [|done].
    apply list_elem_of_In, indexed_values_elem. split; [done|].
    by apply outside_present in Hout.
Qed.

End AnomalyRecords.

(** ** The trend of a constant column *)

Section TrendOfAConstant.

Import Analytics.

#[local] Open Scope Q_scope.

#[local] Existing Instance Qltb_comp.

Lemma np_mean_zero l :
  l ≠ [] → Forall (λ v, is_fin v 0) l → is_fin (np_mean l) 0.
Proof.
  intros Hne Hl. unfold np_mean.
  eapply is_fin_eq.
  - apply is_fin_fdiv; [by apply is_fin_fsum_zero|apply is_fin_of_nat|].
    apply inject_Z_of_nat_pos. destruct l; [done|simpl; lia].
  - field. apply inject_Z_of_nat_pos. destruct l; [done|simpl; lia].
Qed.

Lemma np_mean_const l c :
  l ≠ [] → Forall (λ v, is_fin v c) l → is_fin (np_mean l) c.
Proof.
  intros Hne Hl. unfold np_mean.
  eapply is_fin_eq.
  - apply is_fin_fdiv; [by apply is_fin_fsum_const|apply is_fin_of_nat|].
    apply inject_Z_of_nat_pos. destruct l; [done|simpl; lia].
  - field. apply inject_Z_of_nat_pos. destruct l; [done|simpl; lia].
Qed.

(** [linregress] on at least three points of a horizontal line, with two
    different abscissas. *)
Lemma linregress_constant (c : Q) (pairs : list (num * num)) (xs : list Q)
    (a b : Q) :
  Forall2 (λ p x, is_fin (fst p) x ∧ is_fin (snd p) c) pairs xs →
  (3 ≤ length xs)%nat →
  a ∈ xs → b ∈ xs → ¬ a == b →
  ∃ lr,
    linregress (map fst pairs) (map snd pairs) = Ok lr
    ∧ is_fin (lr_slope lr) 0
    ∧ is_fin (lr_intercept lr) c
    ∧ lr_rvalue lr = Fin 0
    ∧ is_fin (lr_stderr lr) 0.
Proof.
  intros Hpairs Hlen Ha Hb Hab.
  assert (Hx : Forall2 is_fin (map fst pairs) xs).
  { rewrite <- (map_id xs).
    apply (Forall2_map_both (λ p x, is_fin (fst p) x ∧ is_fin (snd p) c));
      [|done]. by intros p x [H _]. }
  assert (Hy : Forall (λ v, is_fin v c) (map snd pairs)).
  { clear -Hpairs. induction Hpairs as [|p x ps xs [_ H] _ IH]; simpl;
      by constructor. }
  assert (Hn : length (map fst pairs) = length xs)
    by exact (Forall2_length _ _ _ Hx).
  assert (Hxs : xs ≠ []) by (intros ->; simpl in Hlen; lia).
  assert (Hpne : pairs ≠ []).
  { intros ->. simpl in Hn. lia. }
  assert (Hxne : map fst pairs ≠ []) by by destruct pairs.
  assert (Hyne : map snd pairs ≠ []) by by destruct pairs.
  unfold linregress. rewrite zip_map_fst_snd, Hn.
  replace (length xs =? 0)%nat with false by (symmetry; apply Nat.eqb_neq; lia).
  replace (1 <? length xs)%nat with true by (symmetry; apply Nat.ltb_lt; lia).
  replace (length xs =? 2)%nat with false by (symmetry; apply Nat.eqb_neq; lia).
  rewrite (extremes_differ _ xs a b Hx Ha Hb Hab). cbn [andb].
  set (mx := Qmean xs).
  pose proof (is_fin_np_mean _ _ Hx Hxne) as Hxmean. fold mx in Hxmean.
  pose proof (np_mean_const _ c Hyne Hy) as Hymean.
  set (xmean := np_mean (map fst pairs)) in *.
  set (ymean := np_mean (map snd pairs)) in *.
  set (vx := Qmean (map (sqdev mx) xs)).
  assert (Hvx : 0 < vx) by (by apply (variance_pos xs mx a b)).
  assert (Hssxm : is_fin (np_mean (map (λ a, fsquare (fsub a xmean))
                                       (map fst pairs))) vx).
  { apply is_fin_np_mean; [|by destruct (map fst pairs)].
    apply (Forall2_map_both is_fin); [|done].
    intros v x Hv. by apply is_fin_fsquare, is_fin_fsub. }
  assert (Hssxym : is_fin (np_mean (map (λ p, fmul (fsub (fst p) xmean)
                                                  (fsub (snd p) ymean)) pairs))
                          0).
  { apply np_mean_zero; [by destruct pairs|].
    clearbody xmean ymean mx. clear -Hpairs Hxmean Hymean.
    induction Hpairs as [|p x ps xs [H1 H2] _ IH]; simpl; [constructor|].
    constructor; [|done].
    eapply is_fin_eq; [by apply is_fin_fmul; apply is_fin_fsub|]. ring. }
  assert (Hssym : is_fin (np_mean (map (λ b, fsquare (fsub b ymean))
                                       (map snd pairs))) 0).
  { apply np_mean_zero; [by destruct (map snd pairs)|].
    clearbody ymean. clear -Hy Hymean.
    induction Hy as [|v vs Hv _ IH]; simpl; [constructor|].
    constructor; [|done].
    eapply is_fin_eq; [by apply is_fin_fsquare, is_fin_fsub|]. ring. }
  set (ssxm := np_mean (map (λ a, fsquare (fsub a xmean)) (map fst pairs))) in *.
  set (ssxym := np_mean (map (λ p, fmul (fsub (fst p) xmean)
                                        (fsub (snd p) ymean)) pairs)) in *.
  set (ssym := np_mean (map (λ b, fsquare (fsub b ymean)) (map snd pairs))) in *.
  assert (Hr : (if feqb ssxm (Fin 0) || feqb ssym (Fin 0) then Fin 0
                else clip_unit (fdiv ssxym (fsqrt (fmul ssxm ssym)))) = Fin 0).
  { destruct Hssym as (sy & -> & Hsy). cbn [feqb].
    assert (E : Qeq_bool sy 0 = true) by by apply Qeq_bool_iff.
    by rewrite E, orb_true_r. }
  rewrite Hr.
  assert (Hslope : is_fin (fdiv ssxym ssxm) 0).
  { eapply is_fin_eq; [apply is_fin_fdiv; [exact Hssxym|exact Hssxm|lra]|].
    field. lra. }
  eexists. split; [reflexivity|]. cbn [lr_slope lr_intercept lr_rvalue lr_stderr].
  split; [exact Hslope|]. split; [|split; [done|]].
  - eapply is_fin_eq.
    + apply is_fin_fsub; [exact Hymean|].
      apply is_fin_fmul; [exact Hslope|exact Hxmean].
    + ring.
  - apply is_fin_fsqrt_zero.
    assert (Hdf : ¬ inject_Z (Z.of_nat (length xs - 2)) == 0)
      by (apply inject_Z_of_nat_pos; lia).
    eapply is_fin_eq.
    + apply is_fin_fdiv; [|apply is_fin_of_nat|exact Hdf].
      apply is_fin_fdiv; [|exact Hssxm|lra].
      apply is_fin_fmul; [|exact Hssym].
      apply is_fin_fsub; [apply is_fin_Fin|apply is_fin_fsquare, is_fin_Fin].
    + field. split; [lra|exact Hdf].
Qed.

Lemma direction_of_constant s e :
  is_fin s 0 → is_fin e 0 → trend_direction s e = "Decreasing"%string.
Proof.
  intros (qs & -> & Hs) (qe & -> & He). unfold trend_direction, fgtb.
  cbn [fabs fltb].
  assert (E1 : Qltb (Qabs qs) qe = false) by (by rewrite Hs, He).
  assert (E2 : Qltb 0 qs = false) by (by rewrite Hs).
  by rewrite E1, E2.
Qed.

Lemma trend_entry_constant data rows column c :
  has_column column data = true →
  NoDup (map r_timestamp rows) →
  (3 ≤ length rows)%nat →
  constant_column c (map (cell column) rows) →
  ∃ t, trend_entry data rows column = Some (Ok t)
       ∧ is_fin (slope t) 0
       ∧ is_fin (std_error t) 0
       ∧ r_squared t = Fin (0 * 0)
       ∧ direction t = "Decreasing"%string
       ∧ confidence t = "Low"%string.
Proof.
  intros Hp Hnd Hlen Hconst. unfold trend_entry. rewrite Hp.
  unfold constant_column in Hconst. rewrite Forall_map in Hconst.
  rewrite values_with_time_rows. unfold rows_with.
  rewrite filter_all
    by (eapply Forall_impl; [exact Hconst|]; intros r Hr;
        by apply (is_fin_notna _ _ Hr)).
  rewrite length_map.
  replace (length rows <? 3)%nat with false
    by (symmetry; apply Nat.ltb_ge; lia).
  destruct rows as [|r1 [|r2 rs]] eqn:E; [simpl in Hlen; lia..|].
  rewrite <- E in *.
  destruct (linregress_constant c
              (map (λ r, (time_numeric r, cell column r)) rows)
              (map seconds_of rows) (seconds_of r1) (seconds_of r2))
    as (lr & Hlr & Hslope & Hicpt & Hr & Hse).
  - clear -Hconst. induction Hconst as [|r rs Hr Hrs IH]; simpl; constructor.
    + split; simpl; [rewrite time_numeric_fin; apply is_fin_Fin|exact Hr].
    + exact IH.
  - by rewrite length_map.
  - rewrite E. left.
  - rewrite E. right. left.
  - intros H%seconds_of_inj. rewrite E in Hnd. simpl in Hnd.
    apply NoDup_cons in Hnd as [Hn _]. apply Hn. rewrite H. left.
  - rewrite Hlr. eexists. split; [reflexivity|].
    cbn [slope std_error r_squared direction confidence].
    split; [exact Hslope|]. split; [exact Hse|]. rewrite Hr.
    split; [reflexivity|].
    split; [by apply direction_of_constant|reflexivity].
Qed.

(** X24.  On a snapshot of at least three readings with pairwise different
    timestamps, a sensor column whose values are all the same rational gets
    a trend of slope 0 and standard error 0, and with them the direction
    "Decreasing" (not "Stable": the test [abs(slope) < std_err] is strict,
    and the slope is not positive) and the confidence "Low". *)
Theorem constant_column_trend (data : DataFrame) (column : string) (c : Q) :
  NoDup (timestamps data) →
  (3 ≤ df_len data)%nat →
  column ∈ sensor_columns →
  has_column column data = true →
  constant_column c (get_col column data) →
  ∃ trends t,
    analyze_trends data = Ok trends
    ∧ trends !! column = Some t
    ∧ is_fin (slope t) 0
    ∧ is_fin (std_error t) 0
    ∧ direction t = "Decreasing"%string
    ∧ confidence t = "Low"%string.
Proof.
  intros Hnd Hlen Hc Hp Hconst. unfold analyze_trends.
  replace (df_empty data) with false
    by (symmetry; apply df_empty_false_len; lia).
  replace (df_len data <? 3)%nat with false
    by (symmetry; apply Nat.ltb_ge; lia).
  cbn [orb].
  pose proof (sorted_timestamps_NoDup data Hnd) as Hnd'.
  destruct (trend_loop_ok data (df_rows (sort_values data))
              sensor_columns ∅) as (trends & -> & Hlook).
  { intros x e _. by apply trend_entry_no_raise. }
  destruct (trend_entry_constant data (df_rows (sort_values data)) column c)
    as (t & Ht & Hs & He & _ & Hd & Hconf); [done|done| | |].
  - simpl. rewrite sort_rows_length. exact Hlen.
  - unfold constant_column. fold (get_col column (sort_values data)).
    by rewrite get_col_sort_values.
  - exists trends, t. split; [done|]. split; [|done].
    by rewrite Hlook, (bool_decide_eq_true_2 _ Hc), Ht.
Qed.

End TrendOfAConstant.

(** ** Validated readings *)

Section Validation.

Import DataStorage Utils.

Variable parse_datetime : string → option Z.

Lemma field_loop_nil data errors fields :
  foldl (field_step data) errors fields = [] →
  errors = [] ∧ Forall (λ field, is_Some (data !! field)) fields.
Proof.
  revert errors. induction fields as [|x fields IH]; intros errors H.
  - by split; [|constructor].
  - cbn [foldl] in H. apply IH in H as [H Hf]. unfold field_step in H.
    destruct (data !! x) eqn:E.
    + split; [done|]. constructor; [by eexists|done].
    + by destruct errors.
Qed.

Lemma range_loop_nil data errors ranges :
  foldl (range_step data) errors ranges = [] →
  errors = []
  ∧ Forall (λ entry : string * (Z * Z),
              ∀ x, data !! fst entry = Some x →
                   ∃ value, x = PyNumber value
                            ∧ fleb (of_Z (fst (snd entry))) value = true
                            ∧ fleb value (of_Z (snd (snd entry))) = true)
           ranges.
Proof.
  revert errors. induction ranges as [|[sensor [lo hi]] ranges IH];
    intros errors H.
  - by split; [|constructor].
  - cbn [foldl] in H. apply IH in H as [H Hf]. unfold range_step in H.
    destruct (data !! sensor) as [[|value| | |]|] eqn:E;
      try by destruct errors.
    + destruct (fleb (of_Z lo) value) eqn:E1;
        destruct (fleb value (of_Z hi)) eqn:E2; simpl in H;
        try by destruct errors.
      split; [done|]. constructor; [|done]. simpl. intros x Hx.
      simplify_eq. by exists value.
    + split; [done|]. constructor; [|done]. simpl. intros x Hx. congruence.
Qed.

Lemma fleb_in_range (sensor : string) (lo hi : Z) value :
  DataProcessor.sensor_range sensor = (lo, hi) →
  fleb (of_Z lo) value = true → fleb value (of_Z hi) = true →
  in_range sensor value.
Proof.
  intros Hr H1 H2. unfold in_range. rewrite Hr.
  destruct value; try done. simpl in *.
  by apply Qle_bool_iff in H1, H2.
Qed.

(** X30.  For a reading that [validate_sensor_data] accepts, each of the
    four sensor values is a number within the valid range that the cleaning
    pipeline uses for that sensor, and [add_reading] returns [True] exactly
    when the timestamp, if it is a datetime object, lies within the bounds
    of nanosecond timestamps.  A string timestamp is always stored (the
    validation ran the same conversion), a datetime object is validated by
    its type alone and refused by the store when it is out of bounds; a
    refused reading leaves the store as it was. *)
Theorem validated_reading_stored_within_bounds
    (data : gmap string pyvalue) (s : Store) :
  valid (validate_sensor_data parse_datetime data) = true →
  ((add_reading parse_datetime (reading_of data) s).1 = true
   ↔ ∀ ns, data !! "timestamp" = Some (PyDatetime ns) →
           within_bounds ns = true)
  ∧ ((add_reading parse_datetime (reading_of data) s).1 = false →
     (add_reading parse_datetime (reading_of data) s).2 = s)
  ∧ ∀ sensor,
      sensor ∈ sensor_columns →
      ∃ value,
        data !! sensor = Some (PyNumber value)
        ∧ rd_values (reading_of data) !! sensor = Some value
        ∧ in_range sensor value.
Proof.
  unfold validate_sensor_data. cbn [valid]. intros H.
  apply Nat.eqb_eq, length_zero_iff_nil in H.
  unfold timestamp_step in H.
  set (errors := foldl (range_step data)
                   (foldl (field_step data) [] required_fields)
                   sensor_ranges) in *.
  assert (H' : errors = []
               ∧ ((∃ ns, to_datetime parse_datetime (timestamp_of data) = Ok ns
                         ∧ ∀ n, data !! "timestamp" ≠ Some (PyDatetime n))
                  ∨ (∃ ns, data !! "timestamp" = Some (PyDatetime ns))
                  ∨ data !! "timestamp" = None)).
  { unfold timestamp_of. clearbody errors.
    destruct (data !! "timestamp") as [[| |t|ns|]|];
      try (by destruct errors).
    - destruct (to_datetime parse_datetime (Some (TsString t))) as [ns|];
        [|by destruct errors].
      split; [done|]. left. exists ns. by split.
    - split; [done|]. right. left. by exists ns.
    - split; [done|]. by right; right. }
  clear H. destruct H' as [H Hts]. subst errors.
  apply range_loop_nil in H as [H Hranges].
  apply field_loop_nil in H as [_ Hfields].
  unfold required_fields in Hfields. unfold sensor_ranges in Hranges.
  apply Forall_cons in Hfields as [Fts Hfields].
  apply Forall_cons in Hfields as [F1 Hfields].
  apply Forall_cons in Hfields as [F2 Hfields].
  apply Forall_cons in Hfields as [F3 Hfields].
  apply Forall_cons in Hfields as [F4 _].
  apply Forall_cons in Hranges as [R1 Hranges].
  apply Forall_cons in Hranges as [R2 Hranges].
  apply Forall_cons in Hranges as [R3 Hranges].
  apply Forall_cons in Hranges as [R4 _].
  cbn [fst snd] in *.
  split; [|split].
  - destruct Hts as [(ns & Hts & Hno)|[(ns & Hts)|Hts]].
    + rewrite (add_reading_ok parse_datetime s (reading_of data) ns Hts).
      split; [|done]. intros _ n Hn. by destruct (Hno n).
    + assert (Hconv : to_datetime parse_datetime
                        (rd_timestamp (reading_of data))
                      = to_nanoseconds ns).
      { unfold reading_of, timestamp_of. cbn [rd_timestamp].
        by rewrite Hts. }
      unfold to_nanoseconds in Hconv.
      destruct (within_bounds ns) eqn:Hb.
      * rewrite (add_reading_ok parse_datetime s (reading_of data) ns Hconv).
        split; [|done]. intros _ n Hn. congruence.
      * rewrite (add_reading_raise parse_datetime s (reading_of data) _
                   Hconv).
        split; [done|]. intros Hall. cbn [fst].
        rewrite <- (Hall ns Hts). by rewrite Hb.
    + rewrite Hts in Fts. by apply is_Some_None in Fts.
  - destruct (to_datetime parse_datetime (rd_timestamp (reading_of data)))
      as [ns|e] eqn:Hconv.
    + by rewrite (add_reading_ok parse_datetime s (reading_of data) ns Hconv).
    + by rewrite (add_reading_raise parse_datetime s (reading_of data) e
                    Hconv).
  - assert (Hcell : ∀ sensor value,
              data !! sensor = Some (PyNumber value) →
              rd_values (reading_of data) !! sensor = Some value).
    { intros sensor value Hx. unfold reading_of, cells_of. cbn [rd_values].
      by rewrite lookup_omap, Hx. }
    intros sensor Hs. unfold sensor_columns in Hs.
    repeat (apply elem_of_cons in Hs as [-> | Hs]);
      [..|by apply elem_of_nil in Hs].
    + destruct F1 as [x Hx]. destruct (R1 x Hx) as (value & -> & H1 & H2).
      exists value. split; [done|]. split; [by apply Hcell|].
      by eapply fleb_in_range.
    + destruct F2 as [x Hx]. destruct (R2 x Hx) as (value & -> & H1 & H2).
      exists value. split; [done|]. split; [by apply Hcell|].
      by eapply fleb_in_range.
    + destruct F3 as [x Hx]. destruct (R3 x Hx) as (value & -> & H1 & H2).
      exists value. split; [done|]. split; [by apply Hcell|].
      by eapply fleb_in_range.
    + destruct F4 as [x Hx]. destruct (R4 x Hx) as (value & -> & H1 & H2).
      exists value. split; [done|]. split; [by apply Hcell|].
      by eapply fleb_in_range.
Qed.

End Validation.

(** ** The properties on sample data *)

Section StoreExamples.

Import DataStorage StoreQueries ReadingSamples.

(** X1 on sample data. *)
Lemma add_reading_grows_until_full_witness :
  let s := history Samples.epoch_parser one_reading in
  let reading := Samples.reading_at (2 * Samples.second) 21 in
  let s' := (add_reading Samples.epoch_parser reading s).2 in
  to_datetime Samples.epoch_parser (rd_timestamp reading)
  = Ok (2 * Samples.second)%Z
  ∧ (add_reading Samples.epoch_parser reading s).1 = true
  ∧ has_data s' = true
  ∧ Z.of_nat (get_total_readings s')
    = Z.min (Z.of_nat (get_total_readings s) + 1) 10000.
Proof.
  split; [reflexivity|].
  apply (add_reading_grows_until_full Samples.epoch_parser one_reading
           (Samples.reading_at (2 * Samples.second) 21) (2 * Samples.second)).
  reflexivity.
Defined.

(** X3 on sample data. *)
Lemma add_reading_older_than_full_buffer_witness :
  let reading := Samples.reading_at 10 20 in
  let s' := (add_reading Samples.epoch_parser reading full_store).2 in
  to_datetime Samples.epoch_parser (rd_timestamp reading) = Ok 10%Z
  ∧ get_total_readings full_store = _max_records full_store
  ∧ Forall (λ r, (10 < r_timestamp r)%Z) (df_rows (get_all_data full_store))
  ∧ (add_reading Samples.epoch_parser reading full_store).1 = true
  ∧ df_rows (get_all_data s') ≡ₚ df_rows (get_all_data full_store)
  ∧ Sorted ts_le (df_rows (get_all_data s'))
  ∧ (Sorted Z.lt (timestamps (get_all_data full_store)) →
     df_rows (get_all_data s') = df_rows (get_all_data full_store)).
Proof.
  assert (H2 : Forall (λ r, (10 < r_timestamp r)%Z)
                      (df_rows (get_all_data full_store))).
  { vm_compute. repeat constructor. }
  split; [reflexivity|]. split; [reflexivity|].
  split; [exact H2|].
  exact (add_reading_older_than_full_buffer Samples.epoch_parser full_store
           (Samples.reading_at 10 20) 10 eq_refl eq_refl H2).
Defined.

(** X4 on sample data. *)
Lemma stored_rows_come_from_readings_witness :
  let r := mkRow Samples.second
             (rd_values (Samples.reading_at Samples.second 20))
             (Some "sensor_001"%string) in
  r ∈ df_rows (get_all_data (history Samples.epoch_parser one_reading))
  ∧ ∃ reading,
      AddReading reading ∈ one_reading
      ∧ to_datetime Samples.epoch_parser (rd_timestamp reading)
        = Ok (r_timestamp r)
      ∧ r_values r = rd_values reading
      ∧ r_sensor_id r = rd_sensor_id reading.
Proof.
  assert (H : mkRow Samples.second
                (rd_values (Samples.reading_at Samples.second 20))
                (Some "sensor_001"%string)
              ∈ df_rows (get_all_data (history Samples.epoch_parser one_reading))).
  { apply list_elem_of_In. vm_compute. by left. }
  split; [exact H|].
  exact (stored_rows_come_from_readings Samples.epoch_parser one_reading _ H).
Defined.

(** X6 on sample data. *)
Lemma latest_timestamp_after_append_witness :
  let s := history Samples.epoch_parser one_reading in
  let reading := Samples.reading_at 5 21 in
  to_datetime Samples.epoch_parser (rd_timestamp reading) = Ok 5%Z
  ∧ get_latest_timestamp (add_reading Samples.epoch_parser reading s).2
    = Some (match get_latest_timestamp s with
            | Some t => Z.max t 5
            | None => 5%Z
            end).
Proof.
  split; [reflexivity|].
  exact (latest_timestamp_after_append Samples.epoch_parser one_reading
           (Samples.reading_at 5 21) 5 eq_refl).
Defined.

(** X8 on sample data. *)
Lemma recent_data_is_a_timerange_witness :
  let s := history Samples.epoch_parser two_readings in
  let now := (3 * Samples.second)%Z in
  (∀ latest, get_latest_timestamp s = Some latest → (latest <= now)%Z)
  ∧ get_recent_data now 1 s
    = get_data_by_timerange (now - 1 * hour) now s.
Proof.
  assert (H : ∀ latest,
            get_latest_timestamp (history Samples.epoch_parser two_readings)
            = Some latest →
            (latest <= 3 * Samples.second)%Z).
  { intros latest Hl. vm_compute in Hl. injection Hl as <-. by vm_compute. }
  split; [exact H|].
  exact (recent_data_is_a_timerange Samples.epoch_parser two_readings
           (3 * Samples.second) 1 H).
Defined.

(** X9 on sample data. *)
Lemma single_sensor_query_witness :
  (∀ reading, AddReading reading ∈ two_readings →
              rd_sensor_id reading = Some "sensor_001"%string)
  ∧ get_data_by_sensor "sensor_001"
      (history Samples.epoch_parser two_readings)
    = get_all_data (history Samples.epoch_parser two_readings)
  ∧ ∀ other, other ≠ "sensor_001"%string →
             df_rows (get_data_by_sensor other
                        (history Samples.epoch_parser two_readings)) = [].
Proof.
  assert (H : ∀ reading, AddReading reading ∈ two_readings →
                         rd_sensor_id reading = Some "sensor_001"%string).
  { intros reading Hr. unfold two_readings in Hr.
    apply elem_of_cons in Hr as [Hr|Hr]; [by injection Hr as ->|].
    apply elem_of_cons in Hr as [Hr|Hr]; [by injection Hr as ->|].
    by apply elem_of_nil in Hr. }
  split; [exact H|].
  exact (single_sensor_query Samples.epoch_parser two_readings "sensor_001" H).
Defined.

(** X12 on sample data. *)
Lemma sensor_summary_entry_witness :
  let s := Samples.small_store in
  has_data s = true
  ∧ "temperature" ∈ sensor_columns
  ∧ has_column "temperature" (get_all_data s) = true
  ∧ ∃ summary e,
      get_sensor_summary s = Some summary
      ∧ per_sensor summary !! "temperature" = Some e
      ∧ (sm_count e ≤ total_records (metadata summary))%nat
      ∧ Some (sm_latest e) = cell "temperature" <$> get_latest_reading s
      ∧ (Forall (λ v, v = NaN ∨ ∃ q, v = Fin q)
                (get_col "temperature" (get_all_data s)) →
         (0 < sm_count e)%nat →
         ∃ lo m hi,
           sm_min e = Fin lo ∧ sm_mean e = Fin m ∧ sm_max e = Fin hi
           ∧ (lo <= m)%Q ∧ (m <= hi)%Q).
Proof.
  assert (Hc : "temperature" ∈ sensor_columns)
    by (unfold sensor_columns; set_solver).
  split; [reflexivity|]. split; [exact Hc|]. split; [reflexivity|].
  exact (sensor_summary_entry Samples.small_store "temperature"
           eq_refl Hc eq_refl).
Defined.

End StoreExamples.

Section CleaningExamples.

Import DataProcessor QualityReport.

Lemma temperature_is_a_sensor : "temperature" ∈ sensor_columns.
Proof. unfold sensor_columns. set_solver. Qed.

Lemma weight_is_a_sensor : "weight" ∈ sensor_columns.
Proof. unfold sensor_columns. set_solver. Qed.

(** X15 on sample data. *)
Lemma clean_data_leaves_no_gap_witness :
  let data := Samples.temperature_peak in
  df_empty data = false
  ∧ "temperature" ∈ sensor_columns
  ∧ has_column "temperature" data = true
  ∧ Forall finite (get_col "temperature" (clean_data data true true true)).
Proof.
  split; [reflexivity|]. split; [exact temperature_is_a_sensor|].
  split; [reflexivity|].
  exact (clean_data_leaves_no_gap Samples.temperature_peak true true true
           "temperature" eq_refl temperature_is_a_sensor eq_refl).
Defined.

Lemma invalid_middle_sorted : Sorted Z.lt (timestamps Samples.invalid_middle).
Proof. vm_compute. repeat constructor. Qed.

(** X16 on sample data. *)
Lemma clean_data_keeps_valid_values_witness :
  let data := Samples.invalid_middle in
  Sorted Z.lt (timestamps data)
  ∧ (false = false ∨ (df_len data ≤ 5)%nat)
  ∧ "temperature" ∈ sensor_columns
  ∧ has_column "temperature" data = true
  ∧ get_col "temperature" data !! 2%nat = Some (of_Z 22)
  ∧ in_range "temperature" (of_Z 22)
  ∧ get_col "temperature" (clean_data data false true false) !! 2%nat
    = Some (of_Z 22)
  ∧ timestamps (clean_data data false true false) = timestamps data.
Proof.
  assert (Hr : in_range "temperature" (of_Z 22)) by (by vm_compute).
  split; [exact invalid_middle_sorted|]. split; [by left|].
  split; [exact temperature_is_a_sensor|]. split; [reflexivity|].
  split; [reflexivity|]. split; [exact Hr|].
  exact (clean_data_keeps_valid_values Samples.invalid_middle true false
           "temperature" 2 (of_Z 22) invalid_middle_sorted
           (or_introl eq_refl) temperature_is_a_sensor eq_refl eq_refl Hr).
Defined.

(** X18 on sample data. *)
Lemma remove_outliers_keeps_inliers_witness :
  let data := Samples.temperature_peak in
  "temperature" ∈ sensor_columns
  ∧ has_column "temperature" data = true
  ∧ get_col "temperature" data !! 0%nat = Some (of_Z 0)
  ∧ isnull (of_Z 0) = false
  ∧ outside (iqr_bounds (get_col "temperature" data)) (of_Z 0) = false
  ∧ get_col "temperature" (_remove_outliers data) !! 0%nat = Some (of_Z 0)
  ∧ timestamps (_remove_outliers data) = timestamps data
  ∧ nan_free (get_col "temperature" (_remove_outliers data)).
Proof.
  assert (Ho : outside (iqr_bounds (get_col "temperature"
                                      Samples.temperature_peak)) (of_Z 0)
               = false) by (by vm_compute).
  split; [exact temperature_is_a_sensor|]. split; [reflexivity|].
  split; [reflexivity|]. split; [reflexivity|]. split; [exact Ho|].
  exact (remove_outliers_keeps_inliers Samples.temperature_peak "temperature"
           0 (of_Z 0) temperature_is_a_sensor eq_refl eq_refl eq_refl Ho).
Defined.

(** X19 on sample data. *)
Lemma smoothing_keeps_constant_columns_witness :
  let data := Samples.temperature_peak in
  "weight" ∈ sensor_columns
  ∧ has_column "weight" data = true
  ∧ constant_column 50 (get_col "weight" data)
  ∧ df_len (_apply_smoothing data) = df_len data
  ∧ constant_column 50 (get_col "weight" (_apply_smoothing data)).
Proof.
  assert (Hc : constant_column 50 (get_col "weight" Samples.temperature_peak)).
  { unfold constant_column. vm_compute.
    repeat constructor; eexists; split; reflexivity. }
  split; [exact weight_is_a_sensor|]. split; [reflexivity|].
  split; [exact Hc|].
  exact (smoothing_keeps_constant_columns Samples.temperature_peak "weight" 50
           weight_is_a_sensor eq_refl Hc).
Defined.

(** X21 on sample data. *)
Lemma detect_outliers_needs_complete_columns_witness :
  let data := Samples.linear_temperature in
  df_empty data = false
  ∧ (detect_outliers data = IndexError
     ↔ ∃ column, column ∈ sensor_columns ∧ has_column column data = true
                 ∧ any_null (get_col column data) = true)
  ∧ (∀ outliers,
       detect_outliers data = Indexed outliers →
       df_columns outliers = df_columns data
       ∧ df_rows outliers `sublist_of` df_rows data).
Proof.
  split; [reflexivity|].
  exact (detect_outliers_needs_complete_columns Samples.linear_temperature
           eq_refl).
Defined.

(** X22 on sample data. *)
Lemma quality_of_cleaned_data_witness :
  let data := Samples.invalid_middle in
  df_empty data = false
  ∧ ∃ metrics,
      analyze_data_quality (get_cleaned_data data) = Indexed (Some metrics)
      ∧ total_records metrics = df_len data
      ∧ invalid_values metrics = 0%nat
      ∧ (outliers_detected metrics ≤ df_len data)%nat
      ∧ temporal_consistency metrics
        = _check_temporal_consistency (get_cleaned_data data).
Proof.
  split; [reflexivity|].
  exact (quality_of_cleaned_data Samples.invalid_middle eq_refl).
Defined.

End CleaningExamples.

Section AnalyticsExamples.

Import Analytics.

(** X23 on sample data. *)
Lemma short_history_health_witness :
  let data := Samples.linear_temperature in
  df_empty data = false
  ∧ "temperature" ∈ sensor_columns
  ∧ has_column "temperature" data = true
  ∧ (df_len data < 20)%nat
  ∧ feqb (default NaN (last (get_col "temperature" data))) (Fin 0) = false
  ∧ ∃ h,
      calculate_sensor_health data !! "temperature" = Some h
      ∧ is_fin (health_score h) 100
      ∧ status h = "Excellent"%string.
Proof.
  assert (Hl : (df_len Samples.linear_temperature < 20)%nat)
    by (vm_compute; lia).
  split; [reflexivity|]. split; [exact temperature_is_a_sensor|].
  split; [reflexivity|]. split; [exact Hl|]. split; [reflexivity|].
  exact (short_history_health Samples.linear_temperature "temperature"
           eq_refl temperature_is_a_sensor eq_refl Hl eq_refl).
Defined.

Lemma linear_temperature_NoDup : NoDup (timestamps Samples.linear_temperature).
Proof.
  vm_compute. repeat (apply NoDup_cons; split; [set_solver|]).
  apply NoDup_nil. done.
Qed.

(** X24 on sample data. *)
Lemma constant_column_trend_witness :
  let data := Samples.linear_temperature in
  NoDup (timestamps data)
  ∧ (3 ≤ df_len data)%nat
  ∧ "weight" ∈ sensor_columns
  ∧ has_column "weight" data = true
  ∧ constant_column 50 (get_col "weight" data)
  ∧ ∃ trends t,
      analyze_trends data = Ok trends
      ∧ trends !! "weight" = Some t
      ∧ is_fin (slope t) 0
      ∧ is_fin (std_error t) 0
      ∧ direction t = "Decreasing"%string
      ∧ confidence t = "Low"%string.
Proof.
  assert (Hl : (3 ≤ df_len Samples.linear_temperature)%nat)
    by (vm_compute; lia).
  assert (Hc : constant_column 50
                 (get_col "weight" Samples.linear_temperature)).
  { unfold constant_column. vm_compute.
    repeat constructor; eexists; split; reflexivity. }
  split; [exact linear_temperature_NoDup|]. split; [exact Hl|].
  split; [exact weight_is_a_sensor|]. split; [reflexivity|].
  split; [exact Hc|].
  exact (constant_column_trend Samples.linear_temperature "weight" 50
           linear_temperature_NoDup Hl weight_is_a_sensor eq_refl Hc).
Defined.

(** With a supported method, a sensor column with three values has its
    record. *)
Lemma detect_anomalies_has_entry data method column :
  df_empty data = false →
  method = "zscore"%string ∨ method = "iqr"%string →
  column ∈ sensor_columns →
  eligible data column = true →
  ∃ anomalies entry,
    detect_anomalies data method = Ok anomalies
    ∧ anomalies !! column = Some entry.
Proof.
  intros Hne Hm Hc He. unfold detect_anomalies. rewrite Hne.
  destruct (anomaly_loop_supported data method sensor_columns ∅ Hm)
    as (anomalies & -> & Hin).
  destruct (proj2 (Hin column)) as [entry Hentry]; [by right|].
  by exists anomalies, entry.
Qed.

(** X25 on sample data. *)
Lemma iqr_anomalies_are_cleaning_outliers_witness :
  let data := Samples.temperature_peak in
  ∃ anomalies entry,
    detect_anomalies data "iqr" = Ok anomalies
    ∧ anomalies !! "temperature" = Some entry
    ∧ ∀ i, i ∈ a_indices entry
           ↔ ∃ v, get_col "temperature" data !! i = Some v
                  ∧ DataProcessor.outside
                      (DataProcessor.iqr_bounds (get_col "temperature" data))
                      v = true.
Proof.
  destruct (detect_anomalies_has_entry Samples.temperature_peak "iqr"
              "temperature" eq_refl (or_intror eq_refl)
              temperature_is_a_sensor eq_refl)
    as (anomalies & entry & E1 & E2).
  exists anomalies, entry. split; [exact E1|]. split; [exact E2|].
  exact (iqr_anomalies_are_cleaning_outliers Samples.temperature_peak
           "temperature" anomalies entry E1 E2).
Defined.

(** X26 on sample data. *)
Lemma anomaly_record_consistent_witness :
  let data := Samples.temperature_peak in
  ∃ anomalies entry,
    detect_anomalies data "zscore" = Ok anomalies
    ∧ anomalies !! "temperature" = Some entry
    ∧ a_count entry = length (a_indices entry)
    ∧ (a_count entry ≤ length (dropna (get_col "temperature" data)))%nat
    ∧ StronglySorted lt (a_indices entry)
    ∧ Forall2 (λ i v, get_col "temperature" data !! i = Some v
                      ∧ isnull v = false)
              (a_indices entry) (a_values entry)
    ∧ ∃ p, a_percentage entry = Fin p ∧ (0 <= p)%Q ∧ (p <= 100)%Q.
Proof.
  destruct (detect_anomalies_has_entry Samples.temperature_peak "zscore"
              "temperature" eq_refl (or_introl eq_refl)
              temperature_is_a_sensor eq_refl)
    as (anomalies & entry & E1 & E2).
  exists anomalies, entry. split; [exact E1|]. split; [exact E2|].
  exact (anomaly_record_consistent Samples.temperature_peak "zscore"
           "temperature" anomalies entry E1 E2).
Defined.

(** X29 on sample data. *)
Lemma performance_metrics_ranges_witness :
  let data := Samples.linear_temperature in
  df_empty data = false
  ∧ ∃ metrics rate,
      get_performance_metrics data = Ok metrics
      ∧ metrics !! "average_collection_rate"%string
        = Some (ReadingsPerHour (Fin rate))
      ∧ (0 < rate)%Q ∧ (rate <= inject_Z (Z.of_nat (df_len data)))%Q
      ∧ (numeric_columns data ≠ [] →
         ∃ score,
           metrics !! "overall_system_health"%string
           = Some (OutOf100 (Fin score))
           ∧ (0 <= score)%Q ∧ (score <= 100)%Q).
Proof.
  split; [reflexivity|].
  exact (performance_metrics_ranges Samples.linear_temperature eq_refl).
Defined.

End AnalyticsExamples.

Section ValidationExamples.

Import DataStorage Utils ReadingSamples.

(** X30 on sample data. *)
Lemma validated_reading_stored_within_bounds_witness :
  valid (validate_sensor_data Samples.epoch_parser simulated_reading) = true
  ∧ ((add_reading Samples.epoch_parser (reading_of simulated_reading) init).1
     = true
     ↔ ∀ ns, simulated_reading !! "timestamp" = Some (PyDatetime ns) →
             within_bounds ns = true)
  ∧ ((add_reading Samples.epoch_parser (reading_of simulated_reading) init).1
     = false →
     (add_reading Samples.epoch_parser (reading_of simulated_reading) init).2
     = init)
  ∧ ∀ sensor,
      sensor ∈ sensor_columns →
      ∃ value,
        simulated_reading !! sensor = Some (PyNumber value)
        ∧ rd_values (reading_of simulated_reading) !! sensor = Some value
        ∧ in_range sensor value.
Proof.
  split; [reflexivity|].
  exact (validated_reading_stored_within_bounds Samples.epoch_parser
           simulated_reading init eq_refl).
Defined.

(** A reading stamped with the first day of the year 3000 is validated, and
    refused by the store. *)
Example validated_reading_out_of_bounds :
  valid (validate_sensor_data Samples.epoch_parser year_3000_reading) = true
  ∧ add_reading Samples.epoch_parser (reading_of year_3000_reading) init
    = (false, init).
Proof. split; reflexivity. Qed.

End ValidationExamples.

